(** * Fainder: ingestion pipeline and similarity search

    A shallow embedding of the server actions of [src/lib/storage-debug.ts]
    (upload, the three background pipelines, semantic search), of the
    client-side file picker of [src/components/file-upload.tsx] and of the
    SQL functions of [migrations/002_disable_rls.sql] (tag upsert and the two
    similarity lookups), followed by the properties of the specification
    that are settled against them.

    Conventions of the embedding:
    - PostgreSQL [REAL] and JavaScript numbers are exact rationals ([Q]);
    - a UUID generated by the store is a fresh natural number;
    - a table is the list of its rows in insertion order, except
      [documents], a finite map on its primary key;
    - an SQL condition evaluates in three-valued logic ([option bool],
      [None] being NULL) and a row is kept when it evaluates to TRUE;
    - the store applies every insert and update it is sent; a failed
      response is modelled where the code looks at it (storage upload,
      [documents] and [search_queries] inserts, every [rpc] call). *)

From Stdlib Require Import Ascii String QArith Qminmax.
From stdpp Require Import base option list sorting gmap strings pretty.

Local Open Scope string_scope.

(** ** Scalars *)

Definition Real := Q.
Definition Vector := list Q.
Definition Timestamp := nat.
Definition UserId := string.
Definition Metadata := list (string * string).

Definition Qltb (a b : Q) : bool := negb (Qle_bool b a).

(** SQL [GREATEST] on two non-null reals. *)
Definition GREATEST (a b : Q) : Q := if Qltb a b then b else a.

(** ** Three-valued logic of SQL conditions *)

Definition sql_bool := option bool.

Definition sql_and (a b : sql_bool) : sql_bool :=
  match a, b with
  | Some false, _ | _, Some false => Some false
  | Some true, Some true => Some true
  | _, _ => None
  end.

Definition sql_or (a b : sql_bool) : sql_bool :=
  match a, b with
  | Some true, _ | _, Some true => Some true
  | Some false, Some false => Some false
  | _, _ => None
  end.

(** A [WHERE] clause keeps a row only when its condition is TRUE. *)
Definition sql_holds (c : sql_bool) : bool :=
  match c with Some true => true | _ => false end.

Inductive SqlResult (A : Type) : Type :=
  | SqlOk (a : A)
  | SqlError (msg : string).
Arguments SqlOk {A} a.
Arguments SqlError {A} msg.

(** ** Strings as JavaScript and PostgreSQL use them (ASCII range) *)

Definition lower_ascii (c : ascii) : ascii :=
  let n := nat_of_ascii c in
  if (65 <=? n)%nat && (n <=? 90)%nat then ascii_of_nat (n + 32) else c.

Fixpoint toLowerCase (s : string) : string :=
  match s with
  | EmptyString => EmptyString
  | String c s' => String (lower_ascii c) (toLowerCase s')
  end.

(** SQL [LOWER]. *)
Definition LOWER (s : string) : string := toLowerCase s.

(** [\s] of a JavaScript regular expression, on ASCII. *)
Definition is_ws (c : ascii) : bool :=
  let n := nat_of_ascii c in
  ((9 <=? n)%nat && (n <=? 13)%nat) || (n =? 32)%nat.

Fixpoint trimStart (s : string) : string :=
  match s with
  | String c s' => if is_ws c then trimStart s' else s
  | EmptyString => EmptyString
  end.

Definition trim (s : string) : string :=
  String.rev (trimStart (String.rev (trimStart s))).

(** [s.split(/\s+/).length]: one more than the number of maximal runs of
    white space. *)
Fixpoint ws_runs (in_run : bool) (s : string) : nat :=
  match s with
  | EmptyString => 0
  | String c s' =>
      if is_ws c then (if in_run then ws_runs true s' else S (ws_runs true s'))
      else ws_runs false s'
  end.

Definition split_ws_length (s : string) : nat := S (ws_runs false s).

(** [s.substring(0, n)]. *)
Definition substring0 (n : nat) (s : string) : string := String.substring 0 n s.

Fixpoint join_with (sep : string) (l : list string) : string :=
  match l with
  | [] => ""
  | [x] => x
  | x :: l' => x +:+ sep +:+ join_with sep l'
  end.

(** JavaScript truthiness of a possibly missing string: [s || d]. *)
Definition str_or (s : option string) (d : string) : string :=
  match s with
  | Some x => if decide (x = "") then d else x
  | None => d
  end.

Definition truthy_str (s : option string) : bool :=
  match s with
  | Some x => if decide (x = "") then false else true
  | None => false
  end.

(** ** Data model (tables of the migrations) *)

Inductive Status : Type :=
  | uploaded | processing | chunking | embedding | processed | error.

Global Instance Status_eq_dec : EqDecision Status.
Proof. solve_decision. Defined.

(** The [any]-typed analysis object of the vision path, restricted to the
    fields the pipeline reads. *)
Record Analysis := {
  an_extracted_text : option string;
  an_main_description : option string;
  an_objects : option (list string);
  an_scene_type : option string;
  an_activities : option (list string);
  an_tags : option (list string);
  an_categories : option (list string);
  an_confidence : option Q;
  an_searchable_content : option string
}.

Record DocumentSummary := {
  sum_title : string;
  sum_summary : string
}.

Inductive ProcessingMetadata : Type :=
  | MetaUploaded (is_image : bool) (original_type : string)
  | MetaVision (analysis_timestamp : Timestamp)
  | MetaSummary (summary : DocumentSummary) (chunk_count : nat).

Record Document := {
  doc_id : nat;
  doc_user_id : option UserId;
  doc_filename : string;
  doc_original_filename : string;
  doc_storage_path : string;
  doc_public_url : option string;
  doc_file_type : string;
  doc_file_size : N;
  doc_mime_type : string;
  doc_extracted_text : option string;
  doc_title : option string;
  doc_description : option string;
  doc_status : Status;
  doc_processing_error : option string;
  doc_processing_metadata : ProcessingMetadata;
  doc_word_count : option nat;
  doc_character_count : option nat;
  doc_created_at : Timestamp;
  doc_processed_at : option Timestamp;
  doc_content_type : option string;
  doc_confidence_score : option Q;
  doc_image_analysis : option Analysis;
  doc_auto_tags : option (list string)
}.

Record Chunk := {
  chunk_id : nat;
  chunk_document_id : option nat;
  chunk_user_id : option UserId;
  chunk_index : nat;
  chunk_text : string;
  chunk_metadata : Metadata;
  chunk_word_count : option nat;
  chunk_character_count : option nat;
  chunk_embedding : option Vector;
  chunk_embedded_at : option Timestamp
}.

Record Tag := {
  tag_id : nat;
  tag_name : string;
  tag_category : option string;
  tag_description : option string
}.

Record DocumentTag := {
  dt_document_id : nat;
  dt_tag_id : nat;
  dt_confidence : Q;
  dt_source : string
}.

Record SearchQuery := {
  sq_id : nat;
  sq_user_id : UserId;
  sq_query_text : string;
  sq_query_embedding : Vector;
  sq_query_type : string;
  sq_similarity_threshold : Q;
  sq_max_results : Z;
  sq_results_count : nat;
  sq_response_time_ms : option Z
}.

Record SearchResult := {
  sr_search_query_id : nat;
  sr_chunk_id : nat;
  sr_similarity_score : option Q;
  sr_rank_position : nat
}.

Record Database := {
  users : gset UserId;
  documents : gmap nat Document;
  document_chunks : list Chunk;
  tags : list Tag;
  document_tags : list DocumentTag;
  search_queries : list SearchQuery;
  search_results : list SearchResult;
  next_id : nat
}.

(** ** Tag functions of the migration *)

Definition set_tags (db : Database) (ts : list Tag) (n : nat) : Database :=
  {| users := users db; documents := documents db;
     document_chunks := document_chunks db; tags := ts;
     document_tags := document_tags db; search_queries := search_queries db;
     search_results := search_results db; next_id := n |}.

Definition set_document_tags (db : Database) (dts : list DocumentTag) : Database :=
  {| users := users db; documents := documents db;
     document_chunks := document_chunks db; tags := tags db;
     document_tags := dts; search_queries := search_queries db;
     search_results := search_results db; next_id := next_id db |}.

Definition set_documents (db : Database) (ds : gmap nat Document) : Database :=
  {| users := users db; documents := ds;
     document_chunks := document_chunks db; tags := tags db;
     document_tags := document_tags db; search_queries := search_queries db;
     search_results := search_results db; next_id := next_id db |}.

(** [SELECT id INTO tag_id FROM tags WHERE name = LOWER(tag_name)], then the
    insert of a new row when nothing was found. *)
Definition get_or_create_tag (db : Database) (name : string)
    (category description : option string) : nat * Database :=
  match List.find (fun t => bool_decide (tag_name t = LOWER name)) (tags db) with
  | Some t => (tag_id t, db)
  | None =>
      let t := {| tag_id := next_id db; tag_name := LOWER name;
                  tag_category := category; tag_description := description |} in
      (next_id db, set_tags db (tags db ++ [t]) (S (next_id db)))
  end.

Definition dt_key_is (d t : nat) (r : DocumentTag) : bool :=
  bool_decide (dt_document_id r = d) && bool_decide (dt_tag_id r = t).

(** The [DO UPDATE SET] branch on the conflicting row. *)
Definition dt_merge (conf : Q) (source : string) (r : DocumentTag) : DocumentTag :=
  {| dt_document_id := dt_document_id r;
     dt_tag_id := dt_tag_id r;
     dt_confidence := GREATEST (dt_confidence r) conf;
     dt_source := if Qltb (dt_confidence r) conf then source else dt_source r |}.

(** [INSERT INTO document_tags ... ON CONFLICT (document_id, tag_id)
    DO UPDATE], the statement of [add_document_tag] as it runs once its
    names are resolved. A new row for a document that does not exist
    violates the foreign key. *)
Definition upsert_document_tag (db : Database) (doc tid : nat)
    (conf : Q) (source : string) : SqlResult Database :=
  if existsb (dt_key_is doc tid) (document_tags db) then
    SqlOk (set_document_tags db
             (List.map (fun r => if dt_key_is doc tid r then dt_merge conf source r else r)
                       (document_tags db)))
  else
    match documents db !! doc with
    | Some _ =>
        SqlOk (set_document_tags db
                 (document_tags db ++
                  [{| dt_document_id := doc; dt_tag_id := tid;
                      dt_confidence := conf; dt_source := source |}]))
    | None => SqlError "insert or update on table document_tags violates foreign key constraint"
    end.

(** How PL/pgSQL resolves the names of a statement: a name that is at
    once a variable or parameter of the function and a column of the
    statement's table is refused ([plpgsql.variable_conflict] is [error]
    unless the function says otherwise, and none of the migration does).
    The first such name among the references, if any. *)
Definition ambiguous_reference (variables columns references : list string)
    : option string :=
  List.find (fun x => bool_decide (x ∈ variables) && bool_decide (x ∈ columns))
            references.

(** The parameters and the [DECLARE] block of [add_document_tag]. *)
Definition add_document_tag_variables : list string :=
  ["doc_id"; "tag_name"; "tag_confidence"; "tag_source"; "tag_id"].

(** The columns of [document_tags]. *)
Definition document_tags_columns : list string :=
  ["document_id"; "tag_id"; "confidence"; "source"; "created_at"].

(** The column references of the conflict target
    [ON CONFLICT (document_id, tag_id)], which is read as a list of
    expressions over the table. *)
Definition conflict_target : list string := ["document_id"; "tag_id"].

(** [add_document_tag]: get or create the tag, then the insert. The
    function declares a variable [tag_id], the name of a column of the
    conflict target, so the insert raises and the call is rolled back, the
    tag it may have created included. The message is the database's, less
    the quotes around the name. *)
Definition add_document_tag (db : Database) (doc : nat) (name : string)
    (conf : Q) (source : string) : SqlResult Database :=
  let '(tid, db1) := get_or_create_tag db name None None in
  match ambiguous_reference add_document_tag_variables document_tags_columns
          conflict_target with
  | Some column => SqlError ("column reference " +:+ column +:+ " is ambiguous")
  | None => upsert_document_tag db1 doc tid conf source
  end.

(** [ORDER BY dt.confidence DESC]. *)
Definition more_confident (a b : DocumentTag * Tag) : Prop :=
  (dt_confidence (fst b) <= dt_confidence (fst a))%Q.

Global Instance more_confident_dec : RelDecision more_confident.
Proof.
  intros a b. unfold more_confident.
  destruct (Qlt_le_dec (dt_confidence (fst a)) (dt_confidence (fst b))) as [H|H].
  - right. apply Qlt_not_le, H.
  - left. exact H.
Defined.

(** [FROM document_tags dt JOIN tags t ON dt.tag_id = t.id WHERE
    dt.document_id = doc_id AND dt.confidence >= 0.3]. *)
Definition document_tag_rows (db : Database) (doc : nat) : list (DocumentTag * Tag) :=
  List.filter
    (fun r => bool_decide (dt_document_id (fst r) = doc)
              && Qle_bool (3 # 10) (dt_confidence (fst r)))
    (List.flat_map
       (fun dt => List.map (fun t => (dt, t))
                    (List.filter (fun t => bool_decide (dt_tag_id dt = tag_id t)) (tags db)))
       (document_tags db)).

(** [ARRAY_AGG] over no row is NULL. *)
Definition ARRAY_AGG {A : Type} (l : list A) : option (list A) :=
  match l with [] => None | _ => Some l end.

Definition set_auto_tags (d : Document) (a : option (list string)) : Document :=
  {| doc_id := doc_id d; doc_user_id := doc_user_id d;
     doc_filename := doc_filename d;
     doc_original_filename := doc_original_filename d;
     doc_storage_path := doc_storage_path d;
     doc_public_url := doc_public_url d; doc_file_type := doc_file_type d;
     doc_file_size := doc_file_size d; doc_mime_type := doc_mime_type d;
     doc_extracted_text := doc_extracted_text d; doc_title := doc_title d;
     doc_description := doc_description d; doc_status := doc_status d;
     doc_processing_error := doc_processing_error d;
     doc_processing_metadata := doc_processing_metadata d;
     doc_word_count := doc_word_count d;
     doc_character_count := doc_character_count d;
     doc_created_at := doc_created_at d;
     doc_processed_at := doc_processed_at d;
     doc_content_type := doc_content_type d;
     doc_confidence_score := doc_confidence_score d;
     doc_image_analysis := doc_image_analysis d;
     doc_auto_tags := a |}.

(** [update_document_auto_tags]: the names of the document's tags of
    confidence at least 0.3, most confident first. *)
Definition update_document_auto_tags (db : Database) (doc : nat) : Database :=
  let names :=
    ARRAY_AGG (List.map (fun r => tag_name (snd r))
                 (merge_sort more_confident (document_tag_rows db doc))) in
  set_documents db (alter (fun d => set_auto_tags d names) doc (documents db)).

(** ** The two similarity lookups of the migration *)

Record SearchRow := {
  row_chunk_id : nat;
  row_document_id : option nat;
  row_chunk_text : string;
  row_metadata : Metadata;
  row_similarity : option Q;
  row_document_title : string;
  row_document_filename : string;
  row_public_url : option string;
  row_content_type : option string;
  row_auto_tags : option (list string);
  row_created_at : Timestamp
}.

(** [ORDER BY ... ASC] sorts NULL keys last. *)
Definition key_le (a b : option Q) : Prop :=
  match a, b with
  | Some x, Some y => (x <= y)%Q
  | _, None => True
  | None, Some _ => False
  end.

Global Instance key_le_dec : RelDecision key_le.
Proof.
  intros [x|] [y|]; simpl; try (left; exact I); try (right; tauto).
  destruct (Qlt_le_dec y x) as [H|H].
  - right. apply Qlt_not_le, H.
  - left. exact H.
Defined.

(** [a = ANY(arr)] and [a && b] on arrays without NULL elements. *)
Definition sql_eq_any (a : option string) (arr : list string) : sql_bool :=
  match a with
  | None => None
  | Some x => Some (bool_decide (x ∈ arr))
  end.

Definition sql_overlap (a : option (list string)) (b : list string) : sql_bool :=
  match a with
  | None => None
  | Some l => Some (existsb (fun x => bool_decide (x ∈ b)) l)
  end.

Section SimilarityLookups.
(** pgvector's [<=>] operator. *)
Variable cosine_distance : Vector -> Vector -> Q.

(** [FROM document_chunks dc JOIN documents d ON dc.document_id = d.id]. *)
Definition chunks_join_documents (db : Database) : list (Chunk * Document) :=
  omap (fun dc =>
          match chunk_document_id dc with
          | Some i => match documents db !! i with
                      | Some d => Some (dc, d)
                      | None => None
                      end
          | None => None
          end)
       (document_chunks db).

(** [dc.embedding <=> query_embedding]. *)
Definition distance_to (q : Vector) (r : Chunk * Document) : option Q :=
  match chunk_embedding (fst r) with
  | Some e => Some (cosine_distance e q)
  | None => None
  end.

(** [1 - (dc.embedding <=> query_embedding)]. *)
Definition similarity_to (q : Vector) (r : Chunk * Document) : option Q :=
  match distance_to q r with
  | Some d => Some (1 - d)%Q
  | None => None
  end.

Definition closer (q : Vector) (a b : Chunk * Document) : Prop :=
  key_le (distance_to q a) (distance_to q b).

Global Instance closer_dec q : RelDecision (closer q).
Proof. intros a b. unfold closer. apply key_le_dec. Defined.

(** [COALESCE(d.title, d.original_filename)] and the other columns. *)
Definition select_row (q : Vector) (r : Chunk * Document) : SearchRow :=
  let '(dc, d) := r in
  {| row_chunk_id := chunk_id dc;
     row_document_id := chunk_document_id dc;
     row_chunk_text := chunk_text dc;
     row_metadata := chunk_metadata dc;
     row_similarity := similarity_to q r;
     row_document_title :=
       match doc_title d with Some t => t | None => doc_original_filename d end;
     row_document_filename := doc_original_filename d;
     row_public_url := doc_public_url d;
     row_content_type := doc_content_type d;
     row_auto_tags := doc_auto_tags d;
     row_created_at := doc_created_at d |}.

Definition where_user (u : UserId) (r : Chunk * Document) : sql_bool :=
  match chunk_user_id (fst r) with
  | Some u' => Some (bool_decide (u' = u))
  | None => None
  end.

Definition where_embedded (r : Chunk * Document) : sql_bool :=
  Some (bool_decide (is_Some (chunk_embedding (fst r)))).

Definition where_similar (q : Vector) (thr : Q) (r : Chunk * Document) : sql_bool :=
  match similarity_to q r with
  | Some s => Some (Qltb thr s)
  | None => None
  end.

Definition similarity_search_where (q : Vector) (u : UserId) (thr : Q)
    (r : Chunk * Document) : sql_bool :=
  sql_and (where_user u r) (sql_and (where_embedded r) (where_similar q thr r)).

(** [similarity_search]; PostgreSQL refuses a negative [LIMIT]. *)
Definition similarity_search (db : Database) (query_embedding : Vector)
    (user_id_param : UserId) (similarity_threshold : Q) (max_results : Z)
    : SqlResult (list SearchRow) :=
  if (max_results <? 0)%Z then SqlError "LIMIT must not be negative"
  else
    SqlOk
      (List.map (select_row query_embedding)
         (take (Z.to_nat max_results)
            (merge_sort (closer query_embedding)
               (List.filter
                  (fun r => sql_holds
                     (similarity_search_where query_embedding user_id_param
                        similarity_threshold r))
                  (chunks_join_documents db))))).

Definition where_content_types (content_types : option (list string))
    (r : Chunk * Document) : sql_bool :=
  sql_or (Some (bool_decide (content_types = None)))
         (match content_types with
          | Some cts => sql_eq_any (doc_content_type (snd r)) cts
          | None => None
          end).

Definition where_required_tags (required_tags : option (list string))
    (r : Chunk * Document) : sql_bool :=
  sql_or (Some (bool_decide (required_tags = None)))
         (match required_tags with
          | Some ts => sql_overlap (doc_auto_tags (snd r)) ts
          | None => None
          end).

Definition enhanced_similarity_search_where (q : Vector) (u : UserId) (thr : Q)
    (content_types required_tags : option (list string))
    (r : Chunk * Document) : sql_bool :=
  sql_and (where_user u r)
    (sql_and (where_embedded r)
       (sql_and (where_similar q thr r)
          (sql_and (where_content_types content_types r)
                   (where_required_tags required_tags r)))).

(** [enhanced_similarity_search]. *)
Definition enhanced_similarity_search (db : Database) (query_embedding : Vector)
    (user_id_param : UserId) (similarity_threshold : Q) (max_results : Z)
    (content_types required_tags : option (list string))
    : SqlResult (list SearchRow) :=
  if (max_results <? 0)%Z then SqlError "LIMIT must not be negative"
  else
    SqlOk
      (List.map (select_row query_embedding)
         (take (Z.to_nat max_results)
            (merge_sort (closer query_embedding)
               (List.filter
                  (fun r => sql_holds
                     (enhanced_similarity_search_where query_embedding
                        user_id_param similarity_threshold
                        content_types required_tags r))
                  (chunks_join_documents db))))).
End SimilarityLookups.

(** ** The server side: environment, world and actions *)

(** A thrown value is an [Error] with its message, or something else. *)
Inductive Exn : Type :=
  | JsError (message : string)
  | JsValue.

(** [error instanceof Error ? error.message : fallback]. *)
Definition message_or (e : Exn) (fallback : string) : string :=
  match e with
  | JsError m => m
  | JsValue => fallback
  end.

Inductive Outcome (A : Type) : Type :=
  | Returned (a : A)
  | Thrown (e : Exn).
Arguments Returned {A} a.
Arguments Thrown {A} e.

Record File := {
  file_name : string;
  file_type : string;
  file_size : N;
  file_text : string
}.

Inductive FormEntry : Type :=
  | EntryFile (f : File)
  | EntryString (s : string).

Inductive RpcName : Type :=
  | fn_enhanced_similarity_search
  | fn_similarity_search
  | fn_add_document_tag
  | fn_update_document_auto_tags.

Inductive RpcCall : Type :=
  | call_enhanced_similarity_search (query_embedding : Vector)
      (user_id_param : UserId) (similarity_threshold : Q) (max_results : Z)
      (content_types required_tags : option (list string))
  | call_similarity_search (query_embedding : Vector)
      (user_id_param : UserId) (similarity_threshold : Q) (max_results : Z)
  | call_add_document_tag (doc_id : nat) (tag_name : string)
      (tag_confidence : Q) (tag_source : string)
  | call_update_document_auto_tags (doc_id : nat).

Definition rpc_name (c : RpcCall) : RpcName :=
  match c with
  | call_enhanced_similarity_search _ _ _ _ _ _ => fn_enhanced_similarity_search
  | call_similarity_search _ _ _ _ => fn_similarity_search
  | call_add_document_tag _ _ _ _ => fn_add_document_tag
  | call_update_document_auto_tags _ => fn_update_document_auto_tags
  end.

(** The [{ data, error }] response every supabase call resolves to. *)
Record RpcResponse := {
  rpc_data : option (list SearchRow);
  rpc_error : option string
}.

(** The collaborators of the server actions: the embedding, vision and
    completion capabilities, the text splitter, [JSON.parse] read at the
    type [Analysis], pgvector's distance, the clock, the bucket's public
    URLs, and which database functions fail to run ([None]: the function
    runs). *)
Record Env := {
  embedQuery : string -> Outcome Vector;
  textSplitter : string -> list (string * Metadata);
  visionInvoke : string -> Outcome string;
  JSON_parse : string -> option Analysis;
  summaryInvoke : string -> Outcome DocumentSummary;
  cosine_distance : Vector -> Vector -> Q;
  time_source : nat -> nat;
  getPublicUrl : string -> string;
  rpc_fault : RpcName -> option string
}.

Inductive Task : Type :=
  | ImageTask (document_id : nat) (public_url : string)
  | TextTask (document_id : nat) (file : File)
  | DocumentTask (document_id : nat) (file : File).

(** One write of the [status] column: the row's status and [processed_at]
    once the update is applied. *)
Record StatusWrite := {
  sw_document : nat;
  sw_status : Status;
  sw_processed_at : option Timestamp
}.

(** The state the actions run against. [rpc_log] and [status_history] are
    history variables: they record what was called and written and are
    never read by the code. *)
Record World := {
  db : Database;
  bucket : gmap string File;
  dispatched : list Task;
  clock_reads : nat;
  rpc_log : list RpcCall;
  status_history : list StatusWrite
}.

Definition with_db (w : World) (d : Database) : World :=
  {| db := d; bucket := bucket w; dispatched := dispatched w;
     clock_reads := clock_reads w; rpc_log := rpc_log w;
     status_history := status_history w |}.

Definition with_bucket (w : World) (b : gmap string File) : World :=
  {| db := db w; bucket := b; dispatched := dispatched w;
     clock_reads := clock_reads w; rpc_log := rpc_log w;
     status_history := status_history w |}.

Definition with_dispatched (w : World) (t : list Task) : World :=
  {| db := db w; bucket := bucket w; dispatched := t;
     clock_reads := clock_reads w; rpc_log := rpc_log w;
     status_history := status_history w |}.

Definition with_clock_reads (w : World) (n : nat) : World :=
  {| db := db w; bucket := bucket w; dispatched := dispatched w;
     clock_reads := n; rpc_log := rpc_log w;
     status_history := status_history w |}.

Definition with_rpc_log (w : World) (l : list RpcCall) : World :=
  {| db := db w; bucket := bucket w; dispatched := dispatched w;
     clock_reads := clock_reads w; rpc_log := l;
     status_history := status_history w |}.

Definition with_status_history (w : World) (h : list StatusWrite) : World :=
  {| db := db w; bucket := bucket w; dispatched := dispatched w;
     clock_reads := clock_reads w; rpc_log := rpc_log w;
     status_history := h |}.

(** An [async] function body: it runs against the world and returns or
    throws. *)
Definition Action (A : Type) : Type := World -> Outcome A * World.

Definition ret {A} (a : A) : Action A := fun w => (Returned a, w).

Definition throw {A} (e : Exn) : Action A := fun w => (Thrown e, w).

Definition bind {A B} (m : Action A) (k : A -> Action B) : Action B :=
  fun w =>
    match m w with
    | (Returned a, w') => k a w'
    | (Thrown e, w') => (Thrown e, w')
    end.

Definition try_catch {A} (m : Action A) (handler : Exn -> Action A) : Action A :=
  fun w =>
    match m w with
    | (Returned a, w') => (Returned a, w')
    | (Thrown e, w') => handler e w'
    end.

(** A capability call: its outcome does not depend on the store. *)
Definition await {A} (o : Outcome A) : Action A := fun w => (o, w).

Notation "x <- m ;; k" := (bind m (fun x => k))
  (at level 100, m at next level, right associativity).
Notation "m ;;; k" := (bind m (fun _ => k))
  (at level 100, right associativity).

Fixpoint for_each {A} (f : A -> Action unit) (l : list A) : Action unit :=
  match l with
  | [] => ret tt
  | x :: l' => f x ;;; for_each f l'
  end.

(** [Date.now()] and [new Date()]: the next reading of the clock. *)
Definition Date_now (E : Env) : Action nat :=
  fun w => (Returned (time_source E (clock_reads w)),
            with_clock_reads w (S (clock_reads w))).

(** [supabase.from('documents').update({ status, ... }).eq('id', id)]. *)
Definition update_document (id : nat) (f : Document -> Document) : Action unit :=
  fun w =>
    let docs := alter f id (documents (db w)) in
    let written :=
      match docs !! id with
      | Some d => [{| sw_document := id; sw_status := doc_status d;
                      sw_processed_at := doc_processed_at d |}]
      | None => []
      end in
    (Returned tt,
     with_status_history (with_db w (set_documents (db w) docs))
       (status_history w ++ written)).

(** [supabase.from('documents').select('user_id').eq('id', id).single()]. *)
Definition select_document (id : nat) : Action (option Document) :=
  fun w => (Returned (documents (db w) !! id), w).

(** [supabase.rpc(name, args)]: a response with [error] set when the
    function fails to run or raises, the function's effect otherwise. *)
Definition rpc (E : Env) (c : RpcCall) : Action RpcResponse :=
  fun w =>
    let w1 := with_rpc_log w (rpc_log w ++ [c]) in
    match rpc_fault E (rpc_name c) with
    | Some msg => (Returned {| rpc_data := None; rpc_error := Some msg |}, w1)
    | None =>
        match c with
        | call_enhanced_similarity_search q u thr n cts ts =>
            match enhanced_similarity_search (cosine_distance E) (db w) q u thr n cts ts with
            | SqlOk rows => (Returned {| rpc_data := Some rows; rpc_error := None |}, w1)
            | SqlError msg => (Returned {| rpc_data := None; rpc_error := Some msg |}, w1)
            end
        | call_similarity_search q u thr n =>
            match similarity_search (cosine_distance E) (db w) q u thr n with
            | SqlOk rows => (Returned {| rpc_data := Some rows; rpc_error := None |}, w1)
            | SqlError msg => (Returned {| rpc_data := None; rpc_error := Some msg |}, w1)
            end
        | call_add_document_tag d name conf source =>
            match add_document_tag (db w) d name conf source with
            | SqlOk db' => (Returned {| rpc_data := None; rpc_error := None |}, with_db w1 db')
            | SqlError msg => (Returned {| rpc_data := None; rpc_error := Some msg |}, w1)
            end
        | call_update_document_auto_tags d =>
            (Returned {| rpc_data := None; rpc_error := None |},
             with_db w1 (update_document_auto_tags (db w) d))
        end
    end.

(** ** Column assignments of an update on [documents] *)

Inductive Assignment : Type :=
  | set_status (s : Status)
  | set_processed_at (t : Timestamp)
  | set_processing_error (m : string)
  | set_extracted_text (s : string)
  | set_title (s : string)
  | set_description (s : string)
  | set_content_type (s : string)
  | set_confidence_score (c : Q)
  | set_word_count (n : nat)
  | set_character_count (n : nat)
  | set_image_analysis (a : Analysis)
  | set_processing_metadata (m : ProcessingMetadata).

Definition assign (d : Document) (a : Assignment) : Document :=
  let mk et ti de st pe pm wc cc pa ct cs ia :=
    Build_Document (doc_id d) (doc_user_id d) (doc_filename d)
      (doc_original_filename d) (doc_storage_path d) (doc_public_url d)
      (doc_file_type d) (doc_file_size d) (doc_mime_type d)
      et ti de st pe pm wc cc (doc_created_at d) pa ct cs ia (doc_auto_tags d) in
  let et := doc_extracted_text d in
  let ti := doc_title d in
  let de := doc_description d in
  let st := doc_status d in
  let pe := doc_processing_error d in
  let pm := doc_processing_metadata d in
  let wc := doc_word_count d in
  let cc := doc_character_count d in
  let pa := doc_processed_at d in
  let ct := doc_content_type d in
  let cs := doc_confidence_score d in
  let ia := doc_image_analysis d in
  match a with
  | set_status s => mk et ti de s pe pm wc cc pa ct cs ia
  | set_processed_at t => mk et ti de st pe pm wc cc (Some t) ct cs ia
  | set_processing_error m => mk et ti de st (Some m) pm wc cc pa ct cs ia
  | set_extracted_text s => mk (Some s) ti de st pe pm wc cc pa ct cs ia
  | set_title s => mk et (Some s) de st pe pm wc cc pa ct cs ia
  | set_description s => mk et ti (Some s) st pe pm wc cc pa ct cs ia
  | set_content_type s => mk et ti de st pe pm wc cc pa (Some s) cs ia
  | set_confidence_score c => mk et ti de st pe pm wc cc pa ct (Some c) ia
  | set_word_count n => mk et ti de st pe pm (Some n) cc pa ct cs ia
  | set_character_count n => mk et ti de st pe pm wc (Some n) pa ct cs ia
  | set_image_analysis a' => mk et ti de st pe pm wc cc pa ct cs (Some a')
  | set_processing_metadata m => mk et ti de st pe m wc cc pa ct cs ia
  end.

(** The object literal given to [.update(...)]. *)
Definition patch (l : list Assignment) (d : Document) : Document :=
  List.fold_left assign l d.

(** ** Reading the vision response *)

Definition nl : string := String (ascii_of_nat 10) EmptyString.

Fixpoint index_of (c : ascii) (s : string) : option nat :=
  match s with
  | EmptyString => None
  | String c' s' =>
      if decide (c' = c) then Some 0%nat
      else match index_of c s' with
           | Some i => Some (S i)
           | None => None
           end
  end.

Fixpoint last_index_of (c : ascii) (s : string) : option nat :=
  match s with
  | EmptyString => None
  | String c' s' =>
      match last_index_of c s' with
      | Some j => Some (S j)
      | None => if decide (c' = c) then Some 0%nat else None
      end
  end.

(** [text.match(/\{[\s\S]*\}/)]: from the first opening brace to the last
    closing brace after it. *)
Definition match_braces (text : string) : option string :=
  match index_of "{"%char text, last_index_of "}"%char text with
  | Some i, Some j =>
      if (i <? j)%nat then Some (String.substring i (j - i + 1) text) else None
  | _, _ => None
  end.

Definition is_letter (c : ascii) : bool :=
  let n := nat_of_ascii c in
  ((65 <=? n)%nat && (n <=? 90)%nat) || ((97 <=? n)%nat && (n <=? 122)%nat).

(** What follows [p] in [s] when [s] starts with [p], ignoring case. *)
Fixpoint after_prefix_ci (p s : string) : option string :=
  match p, s with
  | EmptyString, _ => Some s
  | String a p', String b s' =>
      if decide (lower_ascii a = lower_ascii b) then after_prefix_ci p' s' else None
  | String _ _, EmptyString => None
  end.

(** What follows the first occurrence of [label] in [s], ignoring case. *)
Fixpoint after_label (label s : string) : option string :=
  match after_prefix_ci label s with
  | Some rest => Some rest
  | None =>
      match s with
      | EmptyString => None
      | String _ s' => after_label label s'
      end
  end.

Fixpoint skip_label_chars (s : string) : string :=
  match s with
  | String c s' => if is_letter c || is_ws c then skip_label_chars s' else s
  | EmptyString => EmptyString
  end.

(** The look-ahead of [extractSection]: a header of letters and white
    space between a pair of double asterisks, closed by a colon. *)
Definition at_header (s : string) : bool :=
  match s with
  | String "*"%char (String "*"%char (String c s')) =>
      (is_letter c || is_ws c) && String.prefix ":**" (skip_label_chars s')
  | _ => false
  end.

(** The lazy capture group: up to the next header or the end of the text. *)
Fixpoint capture_section (s : string) : string :=
  match s with
  | EmptyString => EmptyString
  | String c s' =>
      if at_header s then EmptyString else String c (capture_section s')
  end.

(** [extractSection]; the section name is one without regular-expression
    operators, as both call sites have it. *)
Definition extractSection (text sectionName : string) : string :=
  match after_label ("**" +:+ sectionName +:+ ":**") text with
  | Some rest => trim (capture_section (trimStart rest))
  | None => ""
  end.

(** The analysis assembled when the response holds no JSON to parse. *)
Definition fallback_analysis (analysisText : string) : Analysis :=
  {| an_extracted_text :=
       Some (str_or (Some (extractSection analysisText "extracted_text")) "");
     an_main_description :=
       Some (str_or (Some (extractSection analysisText "main_description")) analysisText);
     an_objects := None;
     an_scene_type := None;
     an_activities := None;
     an_tags := Some ["image"; "vision-analyzed"];
     an_categories := Some ["general"];
     an_confidence := Some (7 # 10);
     an_searchable_content := Some analysisText |}.

(** The inner [try]/[catch] around [JSON.parse]. *)
Definition parse_analysis (E : Env) (analysisText : string) : Analysis :=
  match match_braces analysisText with
  | Some json =>
      match JSON_parse E json with
      | Some a => a
      | None => fallback_analysis analysisText
      end
  | None => fallback_analysis analysisText
  end.

(** [Array.isArray(a) ? a.join(', ') : '']. *)
Definition join_or_empty (a : option (list string)) : string :=
  match a with
  | Some l => join_with ", " l
  | None => ""
  end.

Definition searchable_content (a : Analysis) : string :=
  trim (nl +:+ str_or (an_extracted_text a) "" +:+ nl +:+ nl
        +:+ "Description: " +:+ str_or (an_main_description a) "" +:+ nl +:+ nl
        +:+ "Objects: " +:+ join_or_empty (an_objects a) +:+ nl +:+ nl
        +:+ "Scene: " +:+ str_or (an_scene_type a) "" +:+ " " +:+ nl +:+ nl
        +:+ "Activities: " +:+ join_or_empty (an_activities a) +:+ nl +:+ nl
        +:+ "Tags: " +:+ join_or_empty (an_tags a) +:+ nl).

(** [analysis.confidence || 0.8]. *)
Definition confidence_or_default (a : Analysis) : Q :=
  match an_confidence a with
  | Some c => if Qeq_bool c 0 then 8 # 10 else c
  | None => 8 # 10
  end.

Definition image_title (a : Analysis) : string :=
  if truthy_str (an_extracted_text a)
  then substring0 100 (str_or (an_extracted_text a) "")
  else "Image: " +:+
       str_or (option_map (substring0 100) (an_main_description a)) "Analyzed Image".

(** [{ ...a, ...b }]. *)
Definition spread (a b : Metadata) : Metadata :=
  (List.filter (fun kv => negb (existsb (fun kv' => bool_decide (fst kv' = fst kv)) b)) a
   ++ b)%list.

(** ** Chunk creation and the three background pipelines *)

Definition insert_chunk_row (db : Database) (mk : nat -> Chunk) : Database :=
  {| users := users db; documents := documents db;
     document_chunks := document_chunks db ++ [mk (next_id db)];
     tags := tags db; document_tags := document_tags db;
     search_queries := search_queries db;
     search_results := search_results db; next_id := S (next_id db) |}.

(** [supabase.from('document_chunks').insert({...})]. *)
Definition insert_chunk (document_id : nat) (user_id : option UserId) (i : nat)
    (text : string) (metadata : Metadata) (embedding_vector : Vector)
    (embedded_at : Timestamp) : Action unit :=
  fun w =>
    (Returned tt,
     with_db w
       (insert_chunk_row (db w)
          (fun id =>
             {| chunk_id := id;
                chunk_document_id := Some document_id;
                chunk_user_id := user_id;
                chunk_index := i;
                chunk_text := text;
                chunk_metadata := metadata;
                chunk_word_count := Some (split_ws_length text);
                chunk_character_count := Some (String.length text);
                chunk_embedding := Some embedding_vector;
                chunk_embedded_at := Some embedded_at |}))).

(** [textSplitter.createDocuments([text], [metadata])] and
    [textSplitter.splitDocuments([doc])]: every piece carries the given
    metadata and what the splitter adds. *)
Definition createDocuments (E : Env) (text : string) (metadata : Metadata)
    : list (string * Metadata) :=
  List.map (fun c => (fst c, spread metadata (snd c))) (textSplitter E text).

(** The loop of [createChunksForDocument], from index [i] on. *)
Fixpoint embed_and_insert (E : Env) (document_id : nat) (user_id : option UserId)
    (metadata : Metadata) (i : nat) (chunks : list (string * Metadata)) : Action unit :=
  match chunks with
  | [] => ret tt
  | chunk :: rest =>
      embeddingVector <- await (embedQuery E (fst chunk)) ;;
      now <- Date_now E ;;
      insert_chunk document_id user_id i (fst chunk)
        (spread metadata (snd chunk)) embeddingVector now ;;;
      embed_and_insert E document_id user_id metadata (S i) rest
  end.

Definition createChunksForDocument (E : Env) (documentId : nat) (text : string)
    (metadata : Metadata) : Action unit :=
  try_catch
    (docData <- select_document documentId ;;
     match docData with
     | None => throw (JsError "Document not found")
     | Some d =>
         embed_and_insert E documentId (doc_user_id d) metadata 0
           (createDocuments E text metadata)
     end)
    (fun exn => throw exn).

(** The tag loop of the image pipeline: at most twenty tags, each longer
    than one character. *)
Definition add_vision_tags (E : Env) (documentId : nat) (a : Analysis) : Action unit :=
  match an_tags a with
  | Some tag_list =>
      for_each
        (fun tag =>
           if (1 <? String.length tag)%nat then
             rpc E (call_add_document_tag documentId (trim (toLowerCase tag))
                      (confidence_or_default a) "vision") ;;;
             ret tt
           else ret tt)
        (take 20 tag_list)
  | None => ret tt
  end.

(** The category loop: at most five non-empty categories, at 0.9. *)
Definition add_category_tags (E : Env) (documentId : nat) (a : Analysis) : Action unit :=
  match an_categories a with
  | Some category_list =>
      for_each
        (fun category =>
           if decide (category = "") then ret tt
           else
             rpc E (call_add_document_tag documentId (trim (toLowerCase category))
                      (9 # 10) "vision") ;;;
             ret tt)
        (take 5 category_list)
  | None => ret tt
  end.

Definition image_metadata (a : Analysis) : Metadata :=
  [("type", "image"); ("content_type", "image");
   ("extracted_text", str_or (an_extracted_text a) "");
   ("description", str_or (an_main_description a) "");
   ("scene_type", str_or (an_scene_type a) "");
   ("objects", join_with "," (default [] (an_objects a)));
   ("tags", join_with "," (default [] (an_tags a)))].

Definition processImageAsync (E : Env) (documentId : nat) (publicUrl : string)
    : Action unit :=
  try_catch
    (update_document documentId (patch [set_status processing]) ;;;
     analysisText <- await (visionInvoke E publicUrl) ;;
     let analysis := parse_analysis E analysisText in
     let searchableContent := searchable_content analysis in
     now <- Date_now E ;;
     update_document documentId
       (patch [set_extracted_text searchableContent;
               set_title (image_title analysis);
               set_description (str_or (an_main_description analysis) "");
               set_content_type "image";
               set_confidence_score (confidence_or_default analysis);
               set_status chunking;
               set_word_count (split_ws_length searchableContent);
               set_character_count (String.length searchableContent);
               set_image_analysis analysis;
               set_processing_metadata (MetaVision now)]) ;;;
     add_vision_tags E documentId analysis ;;;
     add_category_tags E documentId analysis ;;;
     rpc E (call_update_document_auto_tags documentId) ;;;
     createChunksForDocument E documentId searchableContent (image_metadata analysis) ;;;
     now <- Date_now E ;;
     update_document documentId
       (patch [set_status processed; set_processed_at now]))
    (fun exn =>
       update_document documentId
         (patch [set_status error;
                 set_processing_error
                   (message_or exn "Enhanced image processing failed")])).

Definition processTextFileAsync (E : Env) (documentId : nat) (file : File)
    : Action unit :=
  try_catch
    (update_document documentId (patch [set_status processing]) ;;;
     let text := file_text file in
     update_document documentId
       (patch [set_extracted_text text;
               set_content_type "text";
               set_status chunking;
               set_word_count (split_ws_length text);
               set_character_count (String.length text)]) ;;;
     createChunksForDocument E documentId text
       [("type", "text"); ("filename", file_name file)] ;;;
     now <- Date_now E ;;
     update_document documentId
       (patch [set_status processed; set_processed_at now]))
    (fun exn =>
       update_document documentId
         (patch [set_status error;
                 set_processing_error (message_or exn "Text processing failed")])).

Definition extractTextFromFile (file : File) : Outcome string :=
  if decide (file_type file = "text/plain") then Returned (file_text file)
  else Thrown (JsError ("File type " +:+ file_type file +:+ " not supported yet")).

(** The loop of [processDocumentAsync]: the owner is read again for every
    chunk and a missing document leaves [user_id] empty. *)
Fixpoint embed_and_insert_document (E : Env) (documentId : nat) (i : nat)
    (chunks : list (string * Metadata)) : Action unit :=
  match chunks with
  | [] => ret tt
  | chunk :: rest =>
      embeddingVector <- await (embedQuery E (fst chunk)) ;;
      docData <- select_document documentId ;;
      now <- Date_now E ;;
      insert_chunk documentId
        (match docData with Some d => doc_user_id d | None => None end)
        i (fst chunk) (snd chunk) embeddingVector now ;;;
      embed_and_insert_document E documentId (S i) rest
  end.

(** [generateDocumentSummary]: the prompt is built from the first 4000
    characters of the text. *)
Definition generateDocumentSummary (E : Env) (text : string) : Action DocumentSummary :=
  await (summaryInvoke E (substring0 4000 text)).

Definition processDocumentAsync (E : Env) (documentId : nat) (file : File)
    : Action unit :=
  try_catch
    (update_document documentId (patch [set_status processing]) ;;;
     text <- await (extractTextFromFile file) ;;
     update_document documentId
       (patch [set_extracted_text text;
               set_content_type "document";
               set_status chunking;
               set_word_count (split_ws_length text);
               set_character_count (String.length text)]) ;;;
     let chunks :=
       createDocuments E text
         [("document_id", pretty documentId); ("filename", file_name file);
          ("file_type", file_type file)] in
     update_document documentId (patch [set_status embedding]) ;;;
     embed_and_insert_document E documentId 0 chunks ;;;
     summary <- generateDocumentSummary E text ;;
     now <- Date_now E ;;
     update_document documentId
       (patch [set_status processed;
               set_title (sum_title summary);
               set_description (sum_summary summary);
               set_processed_at now;
               set_processing_metadata (MetaSummary summary (length chunks))]))
    (fun exn =>
       update_document documentId
         (patch [set_status error;
                 set_processing_error (message_or exn "Processing failed")])).

(** A background pipeline, as [uploadDocuments] starts it. *)
Definition run_task (E : Env) (t : Task) : Action unit :=
  match t with
  | ImageTask id url => processImageAsync E id url
  | TextTask id file => processTextFileAsync E id file
  | DocumentTask id file => processDocumentAsync E id file
  end.

(** ** [uploadDocuments] *)

Record UploadForm := {
  form_files : list FormEntry;
  form_userId : option string
}.

Record UploadData := {
  upload_document : option Document;
  upload_processing_started : bool
}.

Record UploadResponse := {
  upload_success : bool;
  upload_timestamp : Timestamp;
  upload_data : option UploadData;
  upload_error : option string
}.

(** [files.filter(f => f instanceof File)]. *)
Definition only_files (l : list FormEntry) : list File :=
  omap (fun e => match e with EntryFile f => Some f | EntryString _ => None end) l.

Definition is_name_char (c : ascii) : bool :=
  let n := nat_of_ascii c in
  is_letter c || ((48 <=? n)%nat && (n <=? 57)%nat) || (n =? 46)%nat || (n =? 45)%nat.

(** [name.replace(/[^a-zA-Z0-9.-]/g, '_')]. *)
Fixpoint sanitize (s : string) : string :=
  match s with
  | EmptyString => EmptyString
  | String c s' => String (if is_name_char c then c else "_"%char) (sanitize s')
  end.

(** [supabase.storage.from('fainder').upload(name, file, { upsert: false })]:
    the path on success, the error message when the name is taken. *)
Definition storage_upload (fileName : string) (file : File) : Action (SqlResult string) :=
  fun w =>
    match bucket w !! fileName with
    | Some _ => (Returned (SqlError "The resource already exists"), w)
    | None => (Returned (SqlOk fileName), with_bucket w (<[fileName := file]> (bucket w)))
    end.

Definition insert_document_row (db : Database) (d : Document) : Database :=
  {| users := users db; documents := <[doc_id d := d]> (documents db);
     document_chunks := document_chunks db;
     tags := tags db; document_tags := document_tags db;
     search_queries := search_queries db;
     search_results := search_results db; next_id := S (next_id db) |}.

(** [supabase.from('documents').insert(documentData).select().single()]:
    the new row, or the error of the foreign key on [users]. *)
Definition insert_document (E : Env) (user_id fileName storage_path : string)
    (file : File) (publicUrl fileCategory : string) (isImage : bool)
    : Action (SqlResult Document) :=
  fun w =>
    if decide (user_id ∈ users (db w)) then
      let d :=
        {| doc_id := next_id (db w);
           doc_user_id := Some user_id;
           doc_filename := fileName;
           doc_original_filename := file_name file;
           doc_storage_path := storage_path;
           doc_public_url := Some publicUrl;
           doc_file_type := fileCategory;
           doc_file_size := file_size file;
           doc_mime_type := file_type file;
           doc_extracted_text := None;
           doc_title := None;
           doc_description := None;
           doc_status := uploaded;
           doc_processing_error := None;
           doc_processing_metadata := MetaUploaded isImage (file_type file);
           doc_word_count := None;
           doc_character_count := None;
           doc_created_at := time_source E (clock_reads w);
           doc_processed_at := None;
           doc_content_type := None;
           doc_confidence_score := None;
           doc_image_analysis := None;
           doc_auto_tags := None |} in
      (Returned (SqlOk d),
       with_status_history
         (with_clock_reads (with_db w (insert_document_row (db w) d)) (S (clock_reads w)))
         (status_history w ++
          [{| sw_document := doc_id d; sw_status := uploaded; sw_processed_at := None |}]))
    else
      (Returned (SqlError "insert or update on table documents violates foreign key constraint"), w).

(** The pipeline is started and not awaited. *)
Definition dispatch (t : Task) : Action unit :=
  fun w => (Returned tt, with_dispatched w (dispatched w ++ [t])).

(** The body of the [for] loop over the files. The [HEAD] request on an
    image's URL is only logged and is left out. *)
Definition upload_one (E : Env) (user_id : string) (file : File) : Action Document :=
  now <- Date_now E ;;
  let fileName := pretty now +:+ "-" +:+ sanitize (file_name file) in
  stored <- storage_upload fileName file ;;
  match stored with
  | SqlError msg => throw (JsError ("Storage upload failed: " +:+ msg))
  | SqlOk path =>
      let publicUrl := getPublicUrl E fileName in
      let isImage := String.prefix "image/" (file_type file) in
      let isText := bool_decide (file_type file = "text/plain") in
      let fileCategory :=
        if isImage then "image" else if isText then "text" else "document" in
      inserted <- insert_document E user_id fileName (str_or (Some path) fileName)
                    file publicUrl fileCategory isImage ;;
      match inserted with
      | SqlError msg => throw (JsError ("Database insert failed: " +:+ msg))
      | SqlOk dbData =>
          (if isImage then dispatch (ImageTask (doc_id dbData) publicUrl)
           else if isText then dispatch (TextTask (doc_id dbData) file)
           else dispatch (DocumentTask (doc_id dbData) file)) ;;;
          ret dbData
      end
  end.

Fixpoint upload_each (E : Env) (user_id : string) (files : list File)
    (uploadResults : list Document) : Action (list Document) :=
  match files with
  | [] => ret uploadResults
  | file :: rest =>
      dbData <- upload_one E user_id file ;;
      upload_each E user_id rest (uploadResults ++ [dbData])
  end.

(** [uploadDocuments]; the revalidation of the page cache is left out. *)
Definition uploadDocuments (E : Env) (formData : UploadForm) : Action UploadResponse :=
  try_catch
    (let files := form_files formData in
     let userId := form_userId formData in
     (if decide (files = []) then throw (JsError "No files provided") else ret tt) ;;;
     (if truthy_str userId then ret tt else throw (JsError "User ID is required")) ;;;
     uploadResults <- upload_each E (str_or userId "") (only_files files) [] ;;
     now <- Date_now E ;;
     ret {| upload_success := true;
            upload_timestamp := now;
            upload_data :=
              Some {| upload_document := head uploadResults;
                      upload_processing_started := true |};
            upload_error := None |})
    (fun exn =>
       now <- Date_now E ;;
       ret {| upload_success := false;
              upload_timestamp := now;
              upload_data := None;
              upload_error := Some (message_or exn "Upload failed") |}).

(** ** The file picker of the upload component *)

(** [10 * 1024 * 1024]. *)
Definition maxSize : N := 10 * 1024 * 1024.

Definition too_large_alert (file : File) : string :=
  "File " +:+ file_name file +:+ " is too large. Maximum size is 10MB.".

(** The [forEach] of [handleFileSelect]: the alerts raised and the
    files kept. *)
Fixpoint validate_files (selected : list File) : list string * list File :=
  match selected with
  | [] => ([], [])
  | file :: rest =>
      let '(alerts, validFiles) := validate_files rest in
      if (maxSize <? file_size file)%N
      then (too_large_alert file :: alerts, validFiles)
      else (alerts, file :: validFiles)
  end.

(** [uploadFile]: the form handed to the server action, if any. *)
Definition uploadFile (userId : option string) (selectedFiles : list File)
    : list string * option UploadForm :=
  if truthy_str userId then
    ([], Some {| form_files := List.map EntryFile selectedFiles;
                 form_userId := userId |})
  else (["Please wait while we initialize your session..."], None).

(** [handleFileSelect]: the alerts shown and the request sent. *)
Definition handleFileSelect (userId : option string) (selectedFiles : option (list File))
    : list string * option UploadForm :=
  match selectedFiles with
  | None => ([], None)
  | Some selected =>
      let '(alerts, validFiles) := validate_files selected in
      match validFiles with
      | [] => (alerts, None)
      | _ =>
          let '(more, request) := uploadFile userId validFiles in
          ((alerts ++ more)%list, request)
      end
  end.

(** ** [searchDocuments] *)

(** The fields of the search form once read: [parseInt] and [parseFloat]
    give a number or NaN ([None]). *)
Record SearchForm := {
  form_query : option string;
  form_user : option string;
  form_searchType : option string;
  form_maxResults : option Z;
  form_similarityThreshold : option Q
}.

Record ValidatedSearch := {
  v_query : string;
  v_user_id : string;
  v_search_type : string;
  v_max_results : Z;
  v_similarity_threshold : Q
}.

Definition is_hex (c : ascii) : bool :=
  let n := nat_of_ascii c in
  ((48 <=? n)%nat && (n <=? 57)%nat) || ((65 <=? n)%nat && (n <=? 70)%nat)
  || ((97 <=? n)%nat && (n <=? 102)%nat).

Fixpoint uuid_shape (i : nat) (s : string) : bool :=
  match s with
  | EmptyString => (i =? 36)%nat
  | String c s' =>
      (if (i =? 8)%nat || (i =? 13)%nat || (i =? 18)%nat || (i =? 23)%nat
       then bool_decide (c = "-"%char) else is_hex c)
      && uuid_shape (S i) s'
  end.

(** [z.string().uuid()]: five groups of 8, 4, 4, 4 and 12 hexadecimal
    digits. *)
Definition is_uuid (s : string) : bool := uuid_shape 0 s.

(** [SearchFormSchema.parse]; a rejected form throws, the message naming
    the first offending field. *)
Definition SearchFormSchema_parse (query user_id : option string)
    (search_type : string) (max_results : Z) (similarity_threshold : Q)
    : Outcome ValidatedSearch :=
  match query, user_id with
  | Some q, Some u =>
      if negb ((3 <=? String.length q)%nat && (String.length q <=? 500)%nat)
      then Thrown (JsError "ZodError: query")
      else if negb (is_uuid u) then Thrown (JsError "ZodError: user_id")
      else if negb (bool_decide (search_type ∈ ["semantic"; "keyword"; "hybrid"]))
      then Thrown (JsError "ZodError: search_type")
      else if negb ((1 <=? max_results)%Z && (max_results <=? 50)%Z)
      then Thrown (JsError "ZodError: max_results")
      else if negb (Qle_bool 0 similarity_threshold && Qle_bool similarity_threshold 1)
      then Thrown (JsError "ZodError: similarity_threshold")
      else Returned {| v_query := q; v_user_id := u; v_search_type := search_type;
                       v_max_results := max_results;
                       v_similarity_threshold := similarity_threshold |}
  | None, _ => Thrown (JsError "ZodError: query")
  | _, None => Thrown (JsError "ZodError: user_id")
  end.

Definition insert_search_query_row (db : Database) (r : SearchQuery) : Database :=
  {| users := users db; documents := documents db;
     document_chunks := document_chunks db;
     tags := tags db; document_tags := document_tags db;
     search_queries := search_queries db ++ [r];
     search_results := search_results db; next_id := S (next_id db) |}.

(** [supabase.from('search_queries').insert({...}).select().single()]. *)
Definition insert_search_query (v : ValidatedSearch) (queryEmbedding : Vector)
    : Action (SqlResult SearchQuery) :=
  fun w =>
    if decide (v_user_id v ∈ users (db w)) then
      let r :=
        {| sq_id := next_id (db w);
           sq_user_id := v_user_id v;
           sq_query_text := v_query v;
           sq_query_embedding := queryEmbedding;
           sq_query_type := v_search_type v;
           sq_similarity_threshold := v_similarity_threshold v;
           sq_max_results := v_max_results v;
           sq_results_count := 0;
           sq_response_time_ms := None |} in
      (Returned (SqlOk r), with_db w (insert_search_query_row (db w) r))
    else
      (Returned (SqlError "insert or update on table search_queries violates foreign key constraint"), w).

Definition backfill (results_count : nat) (response_time_ms : Z) (r : SearchQuery)
    : SearchQuery :=
  {| sq_id := sq_id r; sq_user_id := sq_user_id r;
     sq_query_text := sq_query_text r;
     sq_query_embedding := sq_query_embedding r;
     sq_query_type := sq_query_type r;
     sq_similarity_threshold := sq_similarity_threshold r;
     sq_max_results := sq_max_results r;
     sq_results_count := results_count;
     sq_response_time_ms := Some response_time_ms |}.

Definition set_search_queries (db : Database) (l : list SearchQuery) : Database :=
  {| users := users db; documents := documents db;
     document_chunks := document_chunks db;
     tags := tags db; document_tags := document_tags db;
     search_queries := l;
     search_results := search_results db; next_id := next_id db |}.

Definition set_search_results (db : Database) (l : list SearchResult) : Database :=
  {| users := users db; documents := documents db;
     document_chunks := document_chunks db;
     tags := tags db; document_tags := document_tags db;
     search_queries := search_queries db;
     search_results := l; next_id := next_id db |}.

(** [supabase.from('search_queries').update({ results_count,
    response_time_ms }).eq('id', id)]. *)
Definition update_search_query (id : nat) (results_count : nat) (response_time_ms : Z)
    : Action unit :=
  fun w =>
    (Returned tt,
     with_db w
       (set_search_queries (db w)
          (List.map (fun r => if decide (sq_id r = id)
                              then backfill results_count response_time_ms r else r)
                    (search_queries (db w))))).

(** [searchResults.map((result, index) => ({ ..., rank_position: index + 1 }))]. *)
Definition searchResultsToInsert (query_id : nat) (searchResults : list SearchRow)
    : list SearchResult :=
  imap (fun index result =>
          {| sr_search_query_id := query_id;
             sr_chunk_id := row_chunk_id result;
             sr_similarity_score := row_similarity result;
             sr_rank_position := index + 1 |})
       searchResults.

Definition insert_search_results (rows : list SearchResult) : Action unit :=
  fun w =>
    (Returned tt,
     with_db w (set_search_results (db w) (search_results (db w) ++ rows))).

Record SearchData := {
  data_results : list SearchRow;
  data_query_id : nat;
  data_total_results : nat;
  data_response_time_ms : Z
}.

Record SearchResponse := {
  search_success : bool;
  search_timestamp : Timestamp;
  search_data : option SearchData;
  search_error : option string
}.

(** ** The response schema of [src/lib/schemas.ts] *)

(** How a timestamp is written: [toISOString] ends in [Z]; a
    [TIMESTAMP WITH TIME ZONE] column read through the store's API ends in
    an offset, [+00:00]. *)
Inductive ZoneSuffix : Type :=
  | suffix_Z
  | suffix_offset.

Definition timestamptz_text (t : Timestamp) : ZoneSuffix := suffix_offset.

(** [z.string().datetime()], without the [offset] option: a [Z] only. *)
Definition zod_datetime (s : ZoneSuffix) : bool :=
  match s with
  | suffix_Z => true
  | suffix_offset => false
  end.

(** [z.number().min(0).max(1)]; [null] is not a number. *)
Definition zod_unit_interval (x : option Q) : bool :=
  match x with
  | Some q => Qle_bool 0 q && Qle_bool q 1
  | None => false
  end.

(** [.optional()] on a key the row always carries: the key is there, so
    its value is checked, and [null] is no value of the type. *)
Definition zod_present {A : Type} (x : option A) : bool :=
  match x with
  | Some _ => true
  | None => false
  end.

(** [SearchResultSchema] on a row of a lookup. The identifiers are uuids
    of the store, the titles and the text are strings and a stored public
    URL is a URL of the bucket; what is left to check is that nothing is
    [null], the range of the similarity and the form of [created_at]. *)
Definition SearchResultSchema_ok (r : SearchRow) : bool :=
  zod_present (row_document_id r)
  && zod_unit_interval (row_similarity r)
  && zod_present (row_public_url r)
  && zod_present (row_content_type r)
  && zod_present (row_auto_tags r)
  && zod_datetime (timestamptz_text (row_created_at r)).

(** [SearchResponseSchema.parse] on the successful response:
    [results: z.array(SearchResultSchema)]; the other fields are a uuid of
    the store and two integers. *)
Definition SearchResponseSchema_ok (results : list SearchRow) : bool :=
  forallb SearchResultSchema_ok results.

(** [data || []]. *)
Definition data_or_empty (r : RpcResponse) : list SearchRow :=
  default [] (rpc_data r).

(** The enhanced lookup with the basic lookup as its fallback. *)
Definition similarity_lookup (E : Env) (queryEmbedding : Vector) (v : ValidatedSearch)
    : Action (list SearchRow) :=
  try_catch
    (response <- rpc E (call_enhanced_similarity_search queryEmbedding (v_user_id v)
                          (v_similarity_threshold v) (v_max_results v) None None) ;;
     match rpc_error response with
     | Some _ =>
         fallbackResult <- rpc E (call_similarity_search queryEmbedding (v_user_id v)
                                    (v_similarity_threshold v) (v_max_results v)) ;;
         match rpc_error fallbackResult with
         | Some msg =>
             throw (JsError ("Both enhanced and basic search failed: " +:+ msg))
         | None => ret (data_or_empty fallbackResult)
         end
     | None => ret (data_or_empty response)
     end)
    (fun exn =>
       throw (JsError ("Similarity search failed: " +:+ message_or exn "Unknown error"))).

(** [x || d] on a number: NaN and zero give the default. *)
Definition Z_or (x : option Z) (d : Z) : Z :=
  match x with
  | Some n => if decide (n = 0%Z) then d else n
  | None => d
  end.

Definition Q_or (x : option Q) (d : Q) : Q :=
  match x with
  | Some q => if Qeq_bool q 0 then d else q
  | None => d
  end.

Definition searchDocuments (E : Env) (formData : SearchForm) : Action SearchResponse :=
  try_catch
    (let query := form_query formData in
     let userId := form_user formData in
     let searchType := str_or (form_searchType formData) "semantic" in
     let maxResults := Z_or (form_maxResults formData) 10 in
     let similarityThreshold := Q_or (form_similarityThreshold formData) (7 # 10) in
     validatedData <- await (SearchFormSchema_parse query userId searchType
                               maxResults similarityThreshold) ;;
     startTime <- Date_now E ;;
     queryEmbedding <- await (embedQuery E (v_query validatedData)) ;;
     created <- insert_search_query validatedData queryEmbedding ;;
     match created with
     | SqlError msg => throw (JsError ("Search query creation failed: " +:+ msg))
     | SqlOk searchQueryData =>
         searchResults <- similarity_lookup E queryEmbedding validatedData ;;
         endTime <- Date_now E ;;
         let responseTime := (Z.of_nat endTime - Z.of_nat startTime)%Z in
         update_search_query (sq_id searchQueryData) (length searchResults) responseTime ;;;
         (match searchResults with
          | [] => ret tt
          | _ => insert_search_results
                   (searchResultsToInsert (sq_id searchQueryData) searchResults)
          end) ;;;
         if SearchResponseSchema_ok searchResults then
           now <- Date_now E ;;
           ret {| search_success := true;
                  search_timestamp := now;
                  search_data :=
                    Some {| data_results := searchResults;
                            data_query_id := sq_id searchQueryData;
                            data_total_results := length searchResults;
                            data_response_time_ms := responseTime |};
                  search_error := None |}
         else throw (JsError "ZodError: results")
     end)
    (fun exn =>
       now <- Date_now E ;;
       ret {| search_success := false;
              search_timestamp := now;
              search_data := None;
              search_error := Some (message_or exn "Search failed") |}).

(** * Question answering, the search box and the user sessions

    The server action [askQuestion] of [src/lib/storage-debug.ts] with
    the tables [conversations] and [messages] of the first migration, the
    handler [handleSearch] of the search box of
    [src/components/file-upload.tsx], and [getOrCreateUser] of
    [src/lib/user-management.ts] with the SQL function
    [get_or_create_user]. *)

(** ** [conversations] and [messages] *)

Record Conversation := {
  conv_id : nat;
  conv_user_id : option UserId;
  conv_title : option string;
  conv_created_at : Timestamp
}.

Record AnswerSource := {
  source_chunk_id : string;
  source_document_title : string;
  source_relevance_score : Q;
  source_excerpt : string
}.

(** [SearchAnswerSchema]. *)
Record SearchAnswer := {
  answer : string;
  answer_confidence : Q;
  answer_sources : list AnswerSource;
  answer_follow_up_questions : list string
}.

(** The [metadata] column of [messages]: the default [{}], or what
    [askQuestion] stores with the assistant's message. *)
Inductive MessageMetadata : Type :=
  | MetaEmpty
  | MetaAnswer (answer_data : SearchAnswer) (search_query_id : nat).

Record Message := {
  msg_id : nat;
  msg_conversation_id : option nat;
  msg_role : string;
  msg_content : string;
  msg_metadata : MessageMetadata;
  msg_created_at : Timestamp
}.

(** The collaborators of [askQuestion]: the completion model behind
    [generateStructuredAnswer] with its output parser, read at the
    question and the context, and the text of the uuid that stands for a
    store identifier. *)
Record ChatEnv := {
  answerInvoke : string -> string -> Outcome SearchAnswer;
  uuid_text : nat -> string
}.

(** [MessageSchema] of [src/lib/schemas.ts] on a row of [messages] as the
    insert returns it: the conversation is a uuid, not [null], the role
    is one of three, and [created_at], a [TIMESTAMP WITH TIME ZONE]
    column, is checked by [z.string().datetime()]. *)
Definition MessageSchema_ok (m : Message) : bool :=
  zod_present (msg_conversation_id m)
  && bool_decide (msg_role m ∈ ["user"; "assistant"; "system"])
  && zod_datetime (timestamptz_text (msg_created_at m)).

(** [ChatResponseSchema.parse] on the successful response: the message,
    the conversation id, a uuid, and the answer, which the output parser
    of [generateStructuredAnswer] already read through
    [SearchAnswerSchema]. *)
Definition ChatResponseSchema_ok (m : Message) (conversation_id : string) : bool :=
  MessageSchema_ok m && is_uuid conversation_id.

(** The state [askQuestion] runs against: the world of the other server
    actions and the two tables of the chat. *)
Record ChatWorld := {
  chat_world : World;
  conversations : list Conversation;
  messages : list Message;
  chat_next_id : nat
}.

Definition ChatAction (A : Type) : Type := ChatWorld -> Outcome A * ChatWorld.

Definition chat_ret {A} (a : A) : ChatAction A := fun w => (Returned a, w).

Definition chat_throw {A} (e : Exn) : ChatAction A := fun w => (Thrown e, w).

Definition chat_bind {A B} (m : ChatAction A) (k : A -> ChatAction B) : ChatAction B :=
  fun w =>
    match m w with
    | (Returned a, w') => k a w'
    | (Thrown e, w') => (Thrown e, w')
    end.

Definition chat_try_catch {A} (m : ChatAction A) (handler : Exn -> ChatAction A)
    : ChatAction A :=
  fun w =>
    match m w with
    | (Returned a, w') => (Returned a, w')
    | (Thrown e, w') => handler e w'
    end.

(** A server action of the other part, run on the world inside. *)
Definition lift {A} (m : Action A) : ChatAction A :=
  fun w =>
    let '(o, w') := m (chat_world w) in
    (o, {| chat_world := w'; conversations := conversations w;
           messages := messages w; chat_next_id := chat_next_id w |}).

Notation "x <~ m ;; k" := (chat_bind m (fun x => k))
  (at level 100, m at next level, right associativity).

(** ** [ChatMessageSchema] *)

Record ValidatedChat := {
  cv_message : string;
  cv_conversation_id : option string;
  cv_user_id : string
}.

(** [ChatMessageSchema.parse]; the message names the first offending
    field. *)
Definition ChatMessageSchema_parse (message : option string)
    (conversation_id : option string) (user_id : option string)
    : Outcome ValidatedChat :=
  match message with
  | None => Thrown (JsError "ZodError: message")
  | Some m =>
      if negb ((1 <=? String.length m)%nat && (String.length m <=? 2000)%nat)
      then Thrown (JsError "ZodError: message")
      else if negb (match conversation_id with
                    | Some c => is_uuid c
                    | None => true
                    end)
      then Thrown (JsError "ZodError: conversation_id")
      else match user_id with
           | None => Thrown (JsError "ZodError: user_id")
           | Some u =>
               if negb (is_uuid u) then Thrown (JsError "ZodError: user_id")
               else Returned {| cv_message := m; cv_conversation_id := conversation_id;
                                cv_user_id := u |}
           end
  end.

(** [conversationId || undefined]. *)
Definition or_undefined (s : option string) : option string :=
  match s with
  | Some x => if decide (x = "") then None else Some x
  | None => None
  end.

(** ** The inserts of [askQuestion] *)

(** [supabase.from('conversations').insert({ user_id, title }).select().single()]:
    the new row, or the error of the foreign key on [users]. *)
Definition insert_conversation (E : Env) (user_id : string) (title : string)
    : ChatAction (SqlResult Conversation) :=
  fun w =>
    if decide (user_id ∈ users (db (chat_world w))) then
      let c := {| conv_id := chat_next_id w;
                  conv_user_id := Some user_id;
                  conv_title := Some title;
                  conv_created_at := time_source E (clock_reads (chat_world w)) |} in
      (Returned (SqlOk c),
       {| chat_world := with_clock_reads (chat_world w) (S (clock_reads (chat_world w)));
          conversations := conversations w ++ [c];
          messages := messages w;
          chat_next_id := S (chat_next_id w) |})
    else
      (Returned (SqlError "insert or update on table conversations violates foreign key constraint"), w).

(** The conversation a uuid text stands for. *)
Definition find_conversation (C : ChatEnv) (conversation_id : string)
    (l : list Conversation) : option Conversation :=
  List.find (fun c => bool_decide (uuid_text C (conv_id c) = conversation_id)) l.

(** [supabase.from('messages').insert({ conversation_id, role, content,
    metadata }).select().single()]: the new row, or the error of the
    foreign key on [conversations]. *)
Definition insert_message (E : Env) (C : ChatEnv) (conversation_id : string)
    (role content : string) (metadata : MessageMetadata)
    : ChatAction (SqlResult Message) :=
  fun w =>
    match find_conversation C conversation_id (conversations w) with
    | Some c =>
        let m := {| msg_id := chat_next_id w;
                    msg_conversation_id := Some (conv_id c);
                    msg_role := role;
                    msg_content := content;
                    msg_metadata := metadata;
                    msg_created_at := time_source E (clock_reads (chat_world w)) |} in
        (Returned (SqlOk m),
         {| chat_world := with_clock_reads (chat_world w) (S (clock_reads (chat_world w)));
            conversations := conversations w;
            messages := messages w ++ [m];
            chat_next_id := S (chat_next_id w) |})
    | None =>
        (Returned (SqlError "insert or update on table messages violates foreign key constraint"), w)
    end.

(** ** [generateStructuredAnswer] *)

(** [searchResults.map((result, index) => `[${index + 1}] ${result.chunk_text}`)
    .join('\n\n')]. *)
Definition answer_context (searchResults : list SearchRow) : string :=
  join_with (nl +:+ nl)
    (imap (fun index result =>
             "[" +:+ pretty (index + 1)%nat +:+ "] " +:+ row_chunk_text result)
          searchResults).

Definition generateStructuredAnswer (C : ChatEnv) (question : string)
    (searchResults : list SearchRow) : Outcome SearchAnswer :=
  answerInvoke C question (answer_context searchResults).

(** ** [askQuestion] *)

(** The form as [askQuestion] and the [searchDocuments] it calls read it:
    the fields [message] and [conversationId], and the fields of the
    search, [userId] among them. *)
Record ChatForm := {
  chat_message : option string;
  chat_conversationId : option string;
  chat_search : SearchForm
}.

Record ChatData := {
  chat_data_message : Message;
  chat_data_conversation_id : string;
  chat_data_answer : SearchAnswer
}.

Record ChatResponse := {
  chat_success : bool;
  chat_timestamp : Timestamp;
  chat_data : option ChatData;
  chat_error : option string
}.

(** [ChatResponseSchema.parse({ success: false, error })]: the timestamp
    is the schema's default. *)
Definition chat_failure (E : Env) (exn : Exn) : ChatAction ChatResponse :=
  now <~ lift (Date_now E) ;;
  chat_ret {| chat_success := false;
              chat_timestamp := now;
              chat_data := None;
              chat_error := Some (message_or exn "Chat failed") |}.

(** The second half of [askQuestion], from the search for context to
    the response, once the user's message is saved. *)
Definition answer_with_context (E : Env) (C : ChatEnv) (formData : ChatForm)
    (validatedData : ValidatedChat) (currentConversationId : string)
    : ChatAction ChatResponse :=
  searchResponse <~ lift (searchDocuments E (chat_search formData)) ;;
  match search_success searchResponse, search_data searchResponse with
  | true, Some data =>
      structuredAnswer <~ lift (await (generateStructuredAnswer C
                                         (cv_message validatedData)
                                         (data_results data))) ;;
      stored <~ insert_message E C currentConversationId "assistant"
                  (answer structuredAnswer)
                  (MetaAnswer structuredAnswer (data_query_id data)) ;;
      match stored with
      | SqlError msg =>
          chat_throw (JsError ("Assistant message save failed: " +:+ msg))
      | SqlOk assistantMessage =>
          if ChatResponseSchema_ok assistantMessage currentConversationId then
            now <~ lift (Date_now E) ;;
            chat_ret {| chat_success := true;
                        chat_timestamp := now;
                        chat_data :=
                          Some {| chat_data_message := assistantMessage;
                                  chat_data_conversation_id := currentConversationId;
                                  chat_data_answer := structuredAnswer |};
                        chat_error := None |}
          else chat_throw (JsError "ZodError: data")
      end
  | _, _ => chat_throw (JsError "Failed to find relevant context")
  end.

(** [askQuestion]; the revalidation of the page cache is left out. *)
Definition askQuestion (E : Env) (C : ChatEnv) (formData : ChatForm)
    : ChatAction ChatResponse :=
  chat_try_catch
    (let message := chat_message formData in
     let userId := form_user (chat_search formData) in
     let conversationId := chat_conversationId formData in
     validatedData <~ lift (await (ChatMessageSchema_parse message
                                     (or_undefined conversationId) userId)) ;;
     currentConversationId <~
       match cv_conversation_id validatedData with
       | Some id => chat_ret id
       | None =>
           created <~ insert_conversation E (cv_user_id validatedData)
                        (substring0 50 (cv_message validatedData) +:+ "...") ;;
           match created with
           | SqlError msg =>
               chat_throw (JsError ("Conversation creation failed: " +:+ msg))
           | SqlOk newConversation => chat_ret (uuid_text C (conv_id newConversation))
           end
       end ;;
     saved <~ insert_message E C currentConversationId "user"
                (cv_message validatedData) MetaEmpty ;;
     match saved with
     | SqlError msg => chat_throw (JsError ("Message save failed: " +:+ msg))
     | SqlOk _ => answer_with_context E C formData validatedData currentConversationId
     end)
    (fun exn => chat_failure E exn).

(** ** The search box *)

Inductive SearchMode : Type :=
  | mode_search
  | mode_chat.

(** What the handler does to the component's state. *)
Inductive SearchUpdate : Type :=
  | no_update
  | show_results (results : list SearchRow)
  | show_answer (response : ChatResponse).

(** The form [handleSearch] builds and hands to either action: the
    fields [query], [userId], [searchType], [maxResults] and
    [similarityThreshold], and no other. *)
Definition search_box_form (query : string) (userId : string) : ChatForm :=
  {| chat_message := None;
     chat_conversationId := None;
     chat_search :=
       {| form_query := Some query;
          form_user := Some userId;
          form_searchType := Some "semantic";
          form_maxResults := Some 10%Z;
          form_similarityThreshold := Some (7 # 10) |} |}.

(** [handleSearch]: the transition it starts, run to its end. *)
Definition handleSearch (E : Env) (C : ChatEnv) (searchType : SearchMode)
    (query : string) (userId : option string) : ChatAction SearchUpdate :=
  if decide (trim query = "") then chat_ret no_update
  else if negb (truthy_str userId) then chat_ret no_update
  else
    let formData := search_box_form query (str_or userId "") in
    chat_try_catch
      (match searchType with
       | mode_search =>
           response <~ lift (searchDocuments E (chat_search formData)) ;;
           match search_success response, search_data response with
           | true, Some data => chat_ret (show_results (data_results data))
           | _, _ => chat_ret no_update
           end
       | mode_chat =>
           response <~ askQuestion E C formData ;;
           match chat_success response, chat_data response with
           | true, Some _ => chat_ret (show_answer response)
           | _, _ => chat_ret no_update
           end
       end)
      (fun _ => chat_ret no_update).

(** ** [users], [get_or_create_user] and [getOrCreateUser] *)

(** A row of [users]; [session_id] is [UNIQUE NOT NULL]. *)
Record User := {
  user_id : nat;
  user_session_id : string;
  user_created_at : Timestamp;
  user_updated_at : Timestamp;
  user_last_activity : Timestamp
}.

Record UserTable := {
  user_rows : list User;
  user_next_id : nat
}.

(** [UPDATE users SET last_activity = ... WHERE id = ...], with the
    trigger that keeps [updated_at]. *)
Definition touch_user (id : nat) (last_activity now : Timestamp) (t : UserTable)
    : UserTable :=
  {| user_rows :=
       List.map (fun u => if decide (user_id u = id)
                          then {| user_id := user_id u;
                                  user_session_id := user_session_id u;
                                  user_created_at := user_created_at u;
                                  user_updated_at := now;
                                  user_last_activity := last_activity |}
                          else u)
                (user_rows t);
     user_next_id := user_next_id t |}.

(** [INSERT INTO users (session_id) VALUES (...)] on a table that holds
    no row of the session. *)
Definition add_user (session_id : string) (now : Timestamp) (t : UserTable)
    : User * UserTable :=
  let u := {| user_id := user_next_id t; user_session_id := session_id;
              user_created_at := now; user_updated_at := now;
              user_last_activity := now |} in
  (u, {| user_rows := user_rows t ++ [u]; user_next_id := S (user_next_id t) |}).

(** The SQL function [get_or_create_user]; [now] is [NOW()]. *)
Definition get_or_create_user (now : Timestamp) (t : UserTable)
    (session_id_param : string) : nat * UserTable :=
  match List.find (fun u => bool_decide (user_session_id u = session_id_param))
                  (user_rows t) with
  | None =>
      let '(u, t') := add_user session_id_param now t in (user_id u, t')
  | Some u => (user_id u, touch_user (user_id u) now now t)
  end.

(** [.select('id, session_id').eq('session_id', sessionId).single()]: the
    row when there is exactly one, an error otherwise. *)
Definition select_single_user (sessionId : string) (t : UserTable) : SqlResult User :=
  match List.filter (fun u => bool_decide (user_session_id u = sessionId))
                    (user_rows t) with
  | [u] => SqlOk u
  | _ => SqlError "JSON object requested, multiple (or no) rows returned"
  end.

(** [getOrCreateUser] of the client: [client_now] is [new Date()], [now]
    the clock of the store.  The function hands back the [id] and
    [session_id] of the row, or throws the error of the insert. *)
Definition getOrCreateUser (client_now now : Timestamp) (sessionId : string)
    (t : UserTable) : Outcome (nat * string) * UserTable :=
  match select_single_user sessionId t with
  | SqlOk existingUser =>
      (Returned (user_id existingUser, user_session_id existingUser),
       touch_user (user_id existingUser) client_now now t)
  | SqlError _ =>
      if existsb (fun u => bool_decide (user_session_id u = sessionId)) (user_rows t)
      then (Thrown (JsError "duplicate key value violates unique constraint users_session_id_key"), t)
      else
        let '(newUser, t') := add_user sessionId now t in
        (Returned (user_id newUser, user_session_id newUser), t')
  end.

(** ** The session manager *)

(** The state of [UserSessionManager]: the two refs and the three state
    variables. *)
Record Session := {
  initializationAttempted : bool;
  retryCount : nat;
  isInitialized : bool;
  userId : option nat;
  error_shown : option string
}.

Definition maxRetries : nat := 3.

(** One run of the effect, for the [uid] of the address and the outcome
    [getOrCreateUser] has for it: the next state, and whether the client
    is sent to an address with a newly generated id. *)
Definition initializeUser (urlUserId : option string)
    (getUser : string -> Outcome (nat * string)) (s : Session) : Session * bool :=
  if initializationAttempted s then (s, false)
  else
    if truthy_str urlUserId then
      match getUser (str_or urlUserId "") with
      | Returned user =>
          ({| initializationAttempted := true;
              retryCount := 0;
              isInitialized := true;
              userId := Some (fst user);
              error_shown := None |}, false)
      | Thrown _ =>
          if (maxRetries <=? S (retryCount s))%nat then
            ({| initializationAttempted := true;
                retryCount := S (retryCount s);
                isInitialized := true;
                userId := userId s;
                error_shown :=
                  Some "Failed to initialize user session. Please refresh the page." |},
             false)
          else
            ({| initializationAttempted := false;
                retryCount := S (retryCount s);
                isInitialized := isInitialized s;
                userId := userId s;
                error_shown := None |}, true)
      end
    else
      ({| initializationAttempted := false;
          retryCount := retryCount s;
          isInitialized := isInitialized s;
          userId := userId s;
          error_shown := None |}, true).

(** The runs of the effect for a sequence of addresses and outcomes. *)
Fixpoint initializeUser_runs
    (runs : list (option string * (string -> Outcome (nat * string))))
    (s : Session) : Session :=
  match runs with
  | [] => s
  | (uid, getUser) :: rest => initializeUser_runs rest (fst (initializeUser uid getUser s))
  end.

Definition initial_session : Session :=
  {| initializationAttempted := false; retryCount := 0; isInitialized := false;
     userId := None; error_shown := None |}.

(** ** [debugStorageAccess] *)

Record StorageDebugInfo := {
  bucketExists : bool;
  bucketIsPublic : bool;
  canUpload : bool;
  canRead : bool;
  testFileUrl : option string;
  errors : list string
}.

Record Bucket := {
  bucket_id : string;
  bucket_public : option bool
}.

Record HeadResponse := {
  response_ok : bool;
  response_status : nat;
  response_statusText : string
}.

(** What the diagnostic talks to: the list of buckets, the storage's
    answer to the upload of the test file and to its removal ([Thrown]:
    the request is rejected, [Some msg]: the storage refuses, [None]: it
    proceeds), the [HEAD] request on a public URL, and the text a
    template literal gives for a thrown value. *)
Record StorageEnv := {
  listBuckets : Outcome (SqlResult (list Bucket));
  upload_response : Outcome (option string);
  remove_response : Outcome (option string);
  fetch_head : string -> Outcome HeadResponse;
  exn_text : Exn -> string
}.

(** [result.errors.push(message)]. *)
Definition push_error (result : StorageDebugInfo) (message : string)
    : StorageDebugInfo :=
  {| bucketExists := bucketExists result;
     bucketIsPublic := bucketIsPublic result;
     canUpload := canUpload result;
     canRead := canRead result;
     testFileUrl := testFileUrl result;
     errors := errors result ++ [message] |}.

(** The test file: [new Blob(['test content'], { type: 'text/plain' })]. *)
Definition test_blob (name : string) : File :=
  {| file_name := name; file_type := "text/plain"; file_size := 12;
     file_text := "test content" |}.

(** The [HEAD] request on the public URL of the test file, with its own
    [try]/[catch]. *)
Definition check_public_url (S : StorageEnv) (url : string)
    (result : StorageDebugInfo) : StorageDebugInfo :=
  match fetch_head S url with
  | Returned response =>
      let result' :=
        {| bucketExists := bucketExists result;
           bucketIsPublic := bucketIsPublic result;
           canUpload := canUpload result;
           canRead := response_ok response;
           testFileUrl := testFileUrl result;
           errors := errors result |} in
      if response_ok response then result'
      else push_error result'
             ("Public URL not accessible: " +:+ pretty (response_status response)
              +:+ " " +:+ response_statusText response)
  | Thrown fetchError =>
      push_error result ("Failed to fetch public URL: " +:+ exn_text S fetchError)
  end.

(** The upload test, with its own [try]/[catch]: upload, public URL,
    [HEAD] request, removal. *)
Definition upload_test (E : Env) (S : StorageEnv) (testFileName : string)
    (result : StorageDebugInfo) : Action StorageDebugInfo :=
  fun w =>
    match upload_response S with
    | Thrown uploadError =>
        (Returned (push_error result ("Upload test error: " +:+ exn_text S uploadError)), w)
    | Returned (Some msg) =>
        (Returned (push_error result ("Upload test failed: " +:+ msg)), w)
    | Returned None =>
        match storage_upload testFileName (test_blob testFileName) w with
        | (Returned (SqlOk _), w1) =>
            let url := getPublicUrl E testFileName in
            let uploaded :=
              {| bucketExists := bucketExists result;
                 bucketIsPublic := bucketIsPublic result;
                 canUpload := true;
                 canRead := canRead result;
                 testFileUrl := Some url;
                 errors := errors result |} in
            let checked := check_public_url S url uploaded in
            match remove_response S with
            | Returned None =>
                (Returned checked, with_bucket w1 (delete testFileName (bucket w1)))
            | Returned (Some _) => (Returned checked, w1)
            | Thrown uploadError =>
                (Returned (push_error checked
                             ("Upload test error: " +:+ exn_text S uploadError)), w1)
            end
        | (Returned (SqlError msg), w1) =>
            (Returned (push_error result ("Upload test failed: " +:+ msg)), w1)
        | (Thrown uploadError, w1) =>
            (Returned (push_error result
                         ("Upload test error: " +:+ exn_text S uploadError)), w1)
        end
    end.

Definition debugStorageAccess (E : Env) (S : StorageEnv) : Action StorageDebugInfo :=
  let result :=
    {| bucketExists := false; bucketIsPublic := false; canUpload := false;
       canRead := false; testFileUrl := None; errors := [] |} in
  match listBuckets S with
  | Thrown exn => ret (push_error result ("General error: " +:+ exn_text S exn))
  | Returned (SqlError msg) =>
      ret (push_error result ("Failed to list buckets: " +:+ msg))
  | Returned (SqlOk buckets) =>
      match List.find (fun bucket => bool_decide (bucket_id bucket = "fainder")) buckets with
      | Some fainder =>
          let found :=
            {| bucketExists := true;
               bucketIsPublic := default false (bucket_public fainder);
               canUpload := false; canRead := false; testFileUrl := None;
               errors := [] |} in
          now <- Date_now E ;;
          upload_test E S ("test-" +:+ pretty now +:+ ".txt") found
      | None => ret (push_error result "Fainder bucket not found")
      end
  end.

(** ** Notions the properties are stated with *)

(** The key of the unique constraint on [document_tags]. *)
Definition dt_key (r : DocumentTag) : nat * nat := (dt_document_id r, dt_tag_id r).


(** A chunk with its document qualifies for a lookup, as the specification
    words it: it belongs to the user, it has an embedding whose similarity
    to the query, one minus the cosine distance, is strictly above the
    threshold, and its document matches the content types and meets the
    required tags when these are given. *)
Definition qualifies (dist : Vector -> Vector -> Q) (q : Vector) (u : UserId)
    (thr : Q) (content_types required_tags : option (list string))
    (r : Chunk * Document) : Prop :=
  chunk_user_id (fst r) = Some u
  /\ (exists e, chunk_embedding (fst r) = Some e /\ (thr < 1 - dist e q)%Q)
  /\ (forall l, content_types = Some l ->
        exists ct, doc_content_type (snd r) = Some ct /\ ct ∈ l)
  /\ (forall l, required_tags = Some l ->
        exists ts x, doc_auto_tags (snd r) = Some ts /\ x ∈ ts /\ x ∈ l).

(** The number of rows a lookup hands back; none when it fails. *)
Definition row_count (r : SqlResult (list SearchRow)) : nat :=
  match r with
  | SqlOk rows => length rows
  | SqlError _ => 0
  end.



(** The pipeline [uploadDocuments] starts for a file and its row. *)
Definition task_for (file : File) (d : Document) : Task :=
  if String.prefix "image/" (file_type file)
  then ImageTask (doc_id d) (default "" (doc_public_url d))
  else if bool_decide (file_type file = "text/plain")
  then TextTask (doc_id d) file
  else DocumentTask (doc_id d) file.

(** Identifiers handed out so far are below [next_id]. *)
Definition ids_fresh (db : Database) : Prop :=
  forall i, is_Some (documents db !! i) -> (i < next_id db)%nat.

(** A request the specification calls invalid: no file, no user id, or a
    file above the size limit. *)
Definition invalid_upload (formData : UploadForm) : Prop :=
  form_files formData = []
  \/ truthy_str (form_userId formData) = false
  \/ exists f, f ∈ only_files (form_files formData) /\ (maxSize < file_size f)%N.

(** The upload is refused and nothing is stored, created or started. *)
Definition rejected_untouched (E : Env) (formData : UploadForm) (w : World) : Prop :=
  exists resp w',
    uploadDocuments E formData w = (Returned resp, w')
    /\ upload_success resp = false
    /\ bucket w' = bucket w
    /\ db w' = db w
    /\ dispatched w' = dispatched w.

(** The row [uploadDocuments] creates for a file of a user. *)
Definition row_for (u : string) (file : File) (d : Document) : Prop :=
  doc_user_id d = Some u
  /\ doc_original_filename d = file_name file
  /\ doc_file_size d = file_size file
  /\ doc_mime_type d = file_type file
  /\ doc_status d = uploaded
  /\ doc_processed_at d = None.

(** The [documents] table after the rows [docs] are inserted in turn. *)
Definition insert_rows (m : gmap nat Document) (docs : list Document) : gmap nat Document :=
  List.fold_left (fun m d => <[doc_id d := d]> m) docs m.

(** The response of a lookup call against a store: the fault of the
    function when it has one, what the function gives otherwise. *)
Definition lookup_response (E : Env) (d : Database) (c : RpcCall) : RpcResponse :=
  match rpc_fault E (rpc_name c) with
  | Some msg => {| rpc_data := None; rpc_error := Some msg |}
  | None =>
      match c with
      | call_enhanced_similarity_search q u thr n cts ts =>
          match enhanced_similarity_search (cosine_distance E) d q u thr n cts ts with
          | SqlOk rows => {| rpc_data := Some rows; rpc_error := None |}
          | SqlError msg => {| rpc_data := None; rpc_error := Some msg |}
          end
      | call_similarity_search q u thr n =>
          match similarity_search (cosine_distance E) d q u thr n with
          | SqlOk rows => {| rpc_data := Some rows; rpc_error := None |}
          | SqlError msg => {| rpc_data := None; rpc_error := Some msg |}
          end
      | _ => {| rpc_data := None; rpc_error := None |}
      end
  end.

(** The form as [searchDocuments] reads it before validation. *)
Definition parsed_search (formData : SearchForm) : Outcome ValidatedSearch :=
  SearchFormSchema_parse (form_query formData) (form_user formData)
    (str_or (form_searchType formData) "semantic")
    (Z_or (form_maxResults formData) 10)
    (Q_or (form_similarityThreshold formData) (7 # 10)).

(** A lookup call made with both filters NULL. *)
Definition unfiltered (c : RpcCall) : Prop :=
  match c with
  | call_enhanced_similarity_search _ _ _ _ cts ts => cts = None /\ ts = None
  | _ => True
  end.

(** The [search_queries] row a search creates. *)
Definition new_query_row (w : World) (v : ValidatedSearch) (q : Vector) : SearchQuery :=
  {| sq_id := next_id (db w);
     sq_user_id := v_user_id v;
     sq_query_text := v_query v;
     sq_query_embedding := q;
     sq_query_type := v_search_type v;
     sq_similarity_threshold := v_similarity_threshold v;
     sq_max_results := v_max_results v;
     sq_results_count := 0;
     sq_response_time_ms := None |}.

(** The test of the file picker. *)
Definition oversized (file : File) : bool := (maxSize <? file_size file)%N.

(** What the file picker does with a selection: an alert per oversized
    file, and a request with the other files when there is one and the
    session has a user id. *)
Definition picker_outcome (userId : option string) (selected : list File)
    : list string * option UploadForm :=
  let kept := List.filter (fun f => negb (oversized f)) selected in
  let alerts := List.map too_large_alert (List.filter oversized selected) in
  match kept with
  | [] => (alerts, None)
  | _ =>
      if truthy_str userId
      then (alerts, Some {| form_files := List.map EntryFile kept;
                            form_userId := userId |})
      else ((alerts ++ ["Please wait while we initialize your session..."])%list, None)
  end.

(** A document up to its [auto_tags] column. *)
Definition modulo_tags (d : Document) : Document := set_auto_tags d None.

(** The statuses a document may move through, as the specification has
    them: from [uploaded] to [processing], on to [chunking] or
    [embedding], from [chunking] on to [embedding] or [processed], from
    [embedding] to [processed], and to [error] from any of the four states
    that are not final. *)
Definition transitionb (a b : Status) : bool :=
  match a, b with
  | uploaded, processing => true
  | processing, (chunking | embedding) => true
  | chunking, (embedding | processed) => true
  | embedding, processed => true
  | (uploaded | processing | chunking | embedding), error => true
  | _, _ => false
  end.

Fixpoint follows_path (s : Status) (l : list Status) : bool :=
  match l with
  | [] => true
  | s' :: l' => transitionb s s' && follows_path s' l'
  end.

Definition task_document (t : Task) : nat :=
  match t with
  | ImageTask id _ | TextTask id _ | DocumentTask id _ => id
  end.

(** The chunks of a document, in the order of the table. *)
Definition chunks_of (id : nat) (d : Database) : list Chunk :=
  List.filter (fun c => bool_decide (chunk_document_id c = Some id)) (document_chunks d).

(** The rows a chunk loop has added for a document: the first [k] pieces
    of the split, indexed from [i] on, all of them when the loop returns. *)
Definition chunk_rows (id i : nat) (pieces : list string) (returned : bool)
    (rows : list Chunk) : Prop :=
  exists k,
    List.map chunk_index rows = seq i k
    /\ List.map chunk_text rows = take k pieces
    /\ Forall (fun c => chunk_document_id c = Some id) rows
    /\ (k <= length pieces)%nat
    /\ (returned = true -> k = length pieces).

Definition has_returned {A} (o : Outcome A) : bool :=
  match o with
  | Returned _ => true
  | Thrown _ => false
  end.

(** What an action leaves alone: the status history and every document
    up to its [auto_tags]. *)
Record frame (w w' : World) : Prop := {
  frame_history : status_history w' = status_history w;
  frame_documents :
    forall i, modulo_tags <$> documents (db w') !! i
              = modulo_tags <$> documents (db w) !! i
}.

Definition silent {A} (m : Action A) : Prop := forall w, frame w (snd (m w)).

(** An action that adds no chunk. *)
Definition keeps_chunks {A} (m : Action A) : Prop :=
  forall w, document_chunks (db (snd (m w))) = document_chunks (db w).

(** The history one pipeline may write for its document, starting from
    the status [s0]: every write is for that document, follows the allowed
    path, and has [processed_at] set exactly when it writes [processed]. *)
Definition pipeline_history (id : nat) (s0 : Status) (writes : list StatusWrite) : Prop :=
  Forall (fun x => sw_document x = id
                   /\ (is_Some (sw_processed_at x) <-> sw_status x = processed))
         writes
  /\ follows_path s0 (List.map sw_status writes) = true.

(** What one run of a pipeline on a freshly uploaded document leaves
    behind: the statuses it wrote, the document in a final state, and the
    chunks it added, a prefix of the split of some text, all of it when the
    document ends [processed]. *)
Definition pipeline_outcome (E : Env) (id : nat) (w w' : World) : Prop :=
  exists writes rows d' text,
    status_history w' = (status_history w ++ writes)%list
    /\ pipeline_history id uploaded writes
    /\ documents (db w') !! id = Some d'
    /\ last (List.map sw_status writes) = Some (doc_status d')
    /\ (doc_status d' = processed \/ doc_status d' = error)
    /\ (is_Some (doc_processed_at d') <-> doc_status d' = processed)
    /\ document_chunks (db w') = (document_chunks (db w) ++ rows)%list
    /\ chunk_rows id 0 (List.map fst (textSplitter E text))
         (bool_decide (doc_status d' = processed)) rows.

(** The same collaborators with other faults of the database functions. *)
Definition set_rpc_fault (E : Env) (f : RpcName -> option string) : Env :=
  {| embedQuery := embedQuery E; textSplitter := textSplitter E;
     visionInvoke := visionInvoke E; JSON_parse := JSON_parse E;
     summaryInvoke := summaryInvoke E; cosine_distance := cosine_distance E;
     time_source := time_source E; getPublicUrl := getPublicUrl E;
     rpc_fault := f |}.

(** The same collaborators with the enhanced lookup out of order. *)
Definition without_enhanced (E : Env) (msg : string) : Env :=
  set_rpc_fault E
    (fun name => match name with
                 | fn_enhanced_similarity_search => Some msg
                 | _ => rpc_fault E name
                 end).

(** ** Sample data *)

Definition sample_user : UserId := "00000000-0000-0000-0000-000000000001".

Definition sample_env : Env :=
  {| embedQuery := fun s => Returned [inject_Z (Z.of_nat (String.length s)); 1%Q];
     textSplitter := fun s => [(s, [("loc", "1")])];
     visionInvoke := fun _ => Returned "**main_description:** A cat on a mat";
     JSON_parse := fun _ => None;
     summaryInvoke :=
       fun s => Returned {| sum_title := "Title"; sum_summary := substring0 20 s |};
     cosine_distance :=
       fun a b => match a, b with
                  | x :: _, y :: _ => if Qle_bool x y then ((y - x) / 100)%Q
                                      else ((x - y) / 100)%Q
                  | _, _ => 1%Q
                  end;
     time_source := fun n => (1000 + n)%nat;
     getPublicUrl := fun k => "https://store.example/fainder/" +:+ k;
     rpc_fault := fun _ => None |}.

Definition empty_db : Database :=
  {| users := {[ sample_user ]}; documents := ∅; document_chunks := [];
     tags := []; document_tags := []; search_queries := [];
     search_results := []; next_id := 1 |}.

Definition sample_world : World :=
  {| db := empty_db; bucket := ∅; dispatched := []; clock_reads := 0;
     rpc_log := []; status_history := [] |}.

Definition text_file : File :=
  {| file_name := "hello.txt"; file_type := "text/plain"; file_size := 11;
     file_text := "hello world" |}.

Definition image_file : File :=
  {| file_name := "cat.png"; file_type := "image/png"; file_size := 2048;
     file_text := "" |}.

(** A file of 20 MB. *)
Definition large_file : File :=
  {| file_name := "big.txt"; file_type := "text/plain";
     file_size := 20 * 1024 * 1024; file_text := "big" |}.

(** The row of a file just uploaded by the sample user. *)
Definition fresh_document (id : nat) (file : File) : Document :=
  {| doc_id := id;
     doc_user_id := Some sample_user;
     doc_filename := "1000-" +:+ file_name file;
     doc_original_filename := file_name file;
     doc_storage_path := "1000-" +:+ file_name file;
     doc_public_url := Some ("https://store.example/fainder/1000-" +:+ file_name file);
     doc_file_type :=
       if String.prefix "image/" (file_type file) then "image"
       else if bool_decide (file_type file = "text/plain") then "text"
       else "document";
     doc_file_size := file_size file;
     doc_mime_type := file_type file;
     doc_extracted_text := None;
     doc_title := None;
     doc_description := None;
     doc_status := uploaded;
     doc_processing_error := None;
     doc_processing_metadata :=
       MetaUploaded (String.prefix "image/" (file_type file)) (file_type file);
     doc_word_count := None;
     doc_character_count := None;
     doc_created_at := 1001;
     doc_processed_at := None;
     doc_content_type := None;
     doc_confidence_score := None;
     doc_image_analysis := None;
     doc_auto_tags := None |}.

(** A store that holds one document and nothing else. *)
Definition world_with (d : Document) : World :=
  {| db := {| users := {[ sample_user ]};
              documents := {[ doc_id d := d ]};
              document_chunks := [];
              tags := []; document_tags := []; search_queries := [];
              search_results := []; next_id := S (doc_id d) |};
     bucket := ∅; dispatched := []; clock_reads := 0;
     rpc_log := []; status_history := [] |}.

(** A store with a processed document of two chunks, tagged once. *)
Definition sample_chunk (id i : nat) (text : string) (v : Vector) : Chunk :=
  {| chunk_id := id; chunk_document_id := Some 1%nat;
     chunk_user_id := Some sample_user; chunk_index := i; chunk_text := text;
     chunk_metadata := []; chunk_word_count := None;
     chunk_character_count := None; chunk_embedding := Some v;
     chunk_embedded_at := Some 1002%nat |}.

Definition tagged_db : Database :=
  {| users := {[ sample_user ]};
     documents := {[ 1%nat := fresh_document 1 text_file ]};
     document_chunks := [sample_chunk 2 0 "hello" [5%Q; 1%Q];
                         sample_chunk 3 1 "world" [40%Q; 1%Q]];
     tags := [{| tag_id := 4; tag_name := "cat"; tag_category := None;
                 tag_description := None |}];
     document_tags := [{| dt_document_id := 1; dt_tag_id := 4;
                          dt_confidence := 5 # 10; dt_source := "ai" |}];
     search_queries := []; search_results := []; next_id := 5 |}.

Definition sample_search : SearchForm :=
  {| form_query := Some "hello world";
     form_user := Some sample_user;
     form_searchType := None;
     form_maxResults := Some 5%Z;
     form_similarityThreshold := Some (1 # 2) |}.

Definition sample_validated : ValidatedSearch :=
  {| v_query := "hello world"; v_user_id := sample_user;
     v_search_type := "semantic"; v_max_results := 5;
     v_similarity_threshold := 1 # 2 |}.

Definition sample_upload : UploadForm :=
  {| form_files := [EntryFile text_file; EntryFile image_file];
     form_userId := Some sample_user |}.

Definition no_response : UploadResponse :=
  {| upload_success := false; upload_timestamp := 0; upload_data := None;
     upload_error := None |}.

Definition returned_or {A} (d : A) (o : Outcome A) : A :=
  match o with
  | Returned a => a
  | Thrown _ => d
  end.

(** ** Further notions *)

(** A chunk row as the chunk loops write it for a document and its owner:
    it carries the embedding of its own text and the counts of that
    text. *)
Definition chunk_of_text (E : Env) (id : nat) (u : option UserId) (c : Chunk) : Prop :=
  chunk_document_id c = Some id
  /\ chunk_user_id c = u
  /\ (exists v, embedQuery E (chunk_text c) = Returned v /\ chunk_embedding c = Some v)
  /\ chunk_word_count c = Some (split_ws_length (chunk_text c))
  /\ chunk_character_count c = Some (String.length (chunk_text c))
  /\ is_Some (chunk_embedded_at c).

(** An action that leaves the whole store as it is. *)
Definition keeps_db {A} (m : Action A) : Prop :=
  forall w, db (snd (m w)) = db w.

(** An action that leaves the tables [tags] and [document_tags] as they
    are. *)
Definition keeps_tags {A} (m : Action A) : Prop :=
  forall w, tags (db (snd (m w))) = tags (db w)
            /\ document_tags (db (snd (m w))) = document_tags (db w).

(** The identifiers of the conversations are below [chat_next_id] and
    distinct identifiers have distinct uuid texts. *)
Definition conversations_fresh (C : ChatEnv) (cw : ChatWorld) : Prop :=
  Forall (fun c => (conv_id c < chat_next_id cw)%nat) (conversations cw)
  /\ forall i j, uuid_text C i = uuid_text C j -> i = j.

(** The form of a question as [askQuestion] validates it. *)
Definition parsed_chat (formData : ChatForm) : Outcome ValidatedChat :=
  ChatMessageSchema_parse (chat_message formData)
    (or_undefined (chat_conversationId formData))
    (form_user (chat_search formData)).

(** ** Sample data of the chat *)

Definition sample_chat_env : ChatEnv :=
  {| answerInvoke :=
       fun question context =>
         Returned {| answer := "See: " +:+ context;
                     answer_confidence := 9 # 10;
                     answer_sources := [];
                     answer_follow_up_questions := [] |};
     uuid_text := fun n => pretty n |}.

Definition sample_chat_world : ChatWorld :=
  {| chat_world := {| db := tagged_db; bucket := ∅; dispatched := [];
                      clock_reads := 0; rpc_log := []; status_history := [] |};
     conversations := []; messages := []; chat_next_id := 0 |}.

(** A question with its own query for the context. *)
Definition sample_question : ChatForm :=
  {| chat_message := Some "What does the file say?";
     chat_conversationId := None;
     chat_search := sample_search |}.

(** A question sent without a query. *)
Definition question_only : ChatForm :=
  {| chat_message := Some "What does the file say?";
     chat_conversationId := None;
     chat_search := {| form_query := None; form_user := Some sample_user;
                       form_searchType := None; form_maxResults := None;
                       form_similarityThreshold := None |} |}.

(** ** The states of the session manager *)

(** What holds of the session manager at every moment: at most three
    failures are counted; once initialized, no further attempt is
    pending and it shows either a user and no error, or the error after
    the third failure; before that it shows neither. *)
Definition session_ok (s : Session) : Prop :=
  (retryCount s <= maxRetries)%nat
  /\ if isInitialized s
     then initializationAttempted s = true
          /\ ((is_Some (userId s) /\ error_shown s = None /\ retryCount s = 0%nat)
              \/ (userId s = None
                  /\ error_shown s
                     = Some "Failed to initialize user session. Please refresh the page."
                  /\ retryCount s = maxRetries))
     else userId s = None /\ error_shown s = None /\ (retryCount s < maxRetries)%nat.

(** ** Sample data of the diagnostic and of the session manager *)

Definition sample_storage : StorageEnv :=
  {| listBuckets := Returned (SqlOk [{| bucket_id := "fainder";
                                        bucket_public := Some true |}]);
     upload_response := Returned None;
     remove_response := Returned None;
     fetch_head := fun _ => Returned {| response_ok := true; response_status := 200;
                                        response_statusText := "OK" |};
     exn_text := fun e => "Error: " +:+ message_or e "" |}.

(** A run of the effect whose call of [getOrCreateUser] fails. *)
Definition failing_run : option string * (string -> Outcome (nat * string)) :=
  (Some "k3x9", fun _ => Thrown (JsError "network error")).

(** * Properties *)

(** ** Rational comparisons *)

Lemma Qltb_lt (a b : Q) : Qltb a b = true <-> (a < b)%Q.
Proof.
  unfold Qltb. rewrite negb_true_iff. split.
  - intros H. apply Qnot_le_lt. intros Hle.
    apply Qle_bool_iff in Hle. congruence.
  - intros H. destruct (Qle_bool b a) eqn:Hb; [|reflexivity].
    apply Qle_bool_iff in Hb. exfalso. exact (Qlt_not_le _ _ H Hb).
Qed.

Lemma Qltb_ge (a b : Q) : Qltb a b = false <-> (b <= a)%Q.
Proof.
  unfold Qltb. rewrite negb_false_iff. apply Qle_bool_iff.
Qed.

Lemma GREATEST_Qmax (a b : Q) : GREATEST a b = Qmax a b.
Proof.
  unfold GREATEST, Qmax, GenericMinMax.gmax.
  destruct (Qcompare a b) eqn:Hc; destruct (Qltb a b) eqn:H; try reflexivity.
  - apply Qeq_alt in Hc. apply Qltb_lt in H. rewrite Hc in H.
    exfalso. exact (Qlt_irrefl _ H).
  - apply Qlt_alt in Hc. apply Qltb_ge in H.
    exfalso. exact (Qlt_not_le _ _ Hc H).
  - apply Qgt_alt in Hc. apply Qltb_lt in H.
    exfalso. exact (Qlt_not_le _ _ H (Qlt_le_weak _ _ Hc)).
Qed.

(** ** Tags *)

Lemma dt_key_is_spec d t r : dt_key_is d t r = true <-> dt_key r = (d, t).
Proof.
  unfold dt_key_is, dt_key. rewrite andb_true_iff, !bool_decide_eq_true.
  split; [intros [-> ->]; reflexivity | intros [= -> ->]; auto].
Qed.

Lemma toLowerCase_idemp s : toLowerCase (toLowerCase s) = toLowerCase s.
Proof.
  induction s as [|c s IH]; simpl; [reflexivity|]. rewrite IH. f_equal.
  destruct c as [[] [] [] [] [] [] [] []]; reflexivity.
Qed.

Lemma find_tag_by_name (l : list Tag) (t : Tag) (n : string) :
  NoDup (List.map tag_name l) -> t ∈ l -> tag_name t = n ->
  List.find (fun x => bool_decide (tag_name x = n)) l = Some t.
Proof.
  induction l as [|x l IH]; simpl; intros Hnd Hin Hn.
  - inversion Hin.
  - apply NoDup_cons in Hnd as [Hx Hnd].
    apply elem_of_cons in Hin as [->|Hin].
    + rewrite bool_decide_eq_true_2 by exact Hn. reflexivity.
    + rewrite bool_decide_eq_false_2; [apply IH; assumption|].
      intros Hxn. apply Hx. rewrite Hxn, <- Hn.
      apply list_elem_of_fmap. exists t. split; [reflexivity|exact Hin].
Qed.

Lemma find_tag_absent (l : list Tag) (n : string) :
  (forall t, t ∈ l -> tag_name t <> n) ->
  List.find (fun x => bool_decide (tag_name x = n)) l = None.
Proof.
  induction l as [|x l IH]; simpl; intros H; [reflexivity|].
  rewrite bool_decide_eq_false_2 by (apply H; left).
  apply IH. intros t Ht. apply H. right. exact Ht.
Qed.

Lemma filter_unique_key (l : list DocumentTag) (r : DocumentTag) d t :
  NoDup (List.map dt_key l) -> r ∈ l -> dt_key r = (d, t) ->
  List.filter (dt_key_is d t) l = [r].
Proof.
  induction l as [|x l IH]; simpl; intros Hnd Hin Hk.
  - inversion Hin.
  - apply NoDup_cons in Hnd as [Hx Hnd].
    assert (Hnone : forall y, y ∈ l -> dt_key y = (d, t) -> dt_key x <> (d, t)).
    { intros y Hy Hyk Hxk. apply Hx. rewrite Hxk, <- Hyk.
      apply list_elem_of_fmap. exists y. split; [reflexivity|exact Hy]. }
    apply elem_of_cons in Hin as [->|Hin].
    + rewrite (proj2 (dt_key_is_spec d t x) Hk). f_equal.
      clear IH Hnone. induction l as [|y l IHl]; simpl; [reflexivity|].
      apply NoDup_cons in Hnd as [_ Hnd].
      destruct (dt_key_is d t y) eqn:Hy.
      * exfalso. apply Hx. apply dt_key_is_spec in Hy. rewrite Hk, <- Hy. left.
      * apply IHl; [|exact Hnd]. intros H. apply Hx. right. exact H.
    + destruct (dt_key_is d t x) eqn:Hxk.
      * exfalso. apply dt_key_is_spec in Hxk. exact (Hnone r Hin Hk Hxk).
      * apply IH; assumption.
Qed.

Lemma dt_merge_key conf source r : dt_key (dt_merge conf source r) = dt_key r.
Proof. reflexivity. Qed.

Lemma filter_map_merge d t conf source (l : list DocumentTag) :
  List.filter (dt_key_is d t)
    (List.map (fun r => if dt_key_is d t r then dt_merge conf source r else r) l)
  = List.map (dt_merge conf source) (List.filter (dt_key_is d t) l).
Proof.
  induction l as [|x l IH]; simpl; [reflexivity|].
  destruct (dt_key_is d t x) eqn:Hx.
  - assert (Hm : dt_key_is d t (dt_merge conf source x) = true).
    { apply dt_key_is_spec. rewrite dt_merge_key. apply dt_key_is_spec, Hx. }
    rewrite Hm. simpl. f_equal. exact IH.
  - rewrite Hx. exact IH.
Qed.

Lemma map_merge_keys d t conf source (l : list DocumentTag) :
  List.map dt_key
    (List.map (fun r => if dt_key_is d t r then dt_merge conf source r else r) l)
  = List.map dt_key l.
Proof.
  rewrite List.map_map. apply List.map_ext. intros r.
  destruct (dt_key_is d t r); reflexivity.
Qed.

(** The insert of [add_document_tag] read with its conflict target on
    the columns. On a pair the document already has it keeps one row,
    whose confidence is the maximum of the old and the new one and whose
    source is the new one exactly when the new confidence is strictly
    higher; no association row is added. [get_or_create_tag] creates a
    name not seen before in lower case, names stay unique, and a name
    already present gives the existing tag back. *)
Lemma upsert_document_tag_merges (db : Database) (doc : nat) (name : string)
    (conf : Q) (source : string) (t : Tag) (r : DocumentTag) :
  NoDup (List.map tag_name (tags db)) ->
  NoDup (List.map dt_key (document_tags db)) ->
  t ∈ tags db -> tag_name t = LOWER name ->
  r ∈ document_tags db -> dt_document_id r = doc -> dt_tag_id r = tag_id t ->
  (exists db' r',
      upsert_document_tag db doc (tag_id t) conf source = SqlOk db'
      /\ tags db' = tags db
      /\ length (document_tags db') = length (document_tags db)
      /\ NoDup (List.map dt_key (document_tags db'))
      /\ List.filter (dt_key_is doc (tag_id t)) (document_tags db') = [r']
      /\ dt_confidence r' = Qmax (dt_confidence r) conf
      /\ ((dt_confidence r < conf)%Q -> dt_source r' = source)
      /\ ((conf <= dt_confidence r)%Q -> dt_source r' = dt_source r)
      /\ (forall x, x ∈ document_tags db -> dt_key x <> (doc, tag_id t) ->
          x ∈ document_tags db'))
  /\ (forall category description,
        get_or_create_tag db name category description = (tag_id t, db))
  /\ (forall fresh category description,
        (forall t', t' ∈ tags db -> tag_name t' <> LOWER fresh) ->
        exists t' db',
          get_or_create_tag db fresh category description = (tag_id t', db')
          /\ tags db' = (tags db ++ [t'])%list
          /\ tag_name t' = LOWER fresh
          /\ LOWER (tag_name t') = tag_name t'
          /\ document_tags db' = document_tags db
          /\ NoDup (List.map tag_name (tags db'))).
Proof.
  intros Hnames Hkeys Ht Hname Hr Hd Htid.
  assert (Hfind : List.find (fun x => bool_decide (tag_name x = LOWER name)) (tags db)
                  = Some t) by (apply find_tag_by_name; assumption).
  assert (Hk : dt_key r = (doc, tag_id t)) by (unfold dt_key; congruence).
  split; [|split].
  - exists (set_document_tags db
              (List.map (fun x => if dt_key_is doc (tag_id t) x
                                  then dt_merge conf source x else x)
                        (document_tags db))),
           (dt_merge conf source r).
    split.
    { unfold upsert_document_tag.
      assert (He : existsb (dt_key_is doc (tag_id t)) (document_tags db) = true).
      { apply existsb_exists. exists r. split.
        - apply list_elem_of_In, Hr.
        - apply dt_key_is_spec, Hk. }
      rewrite He. reflexivity. }
    simpl. repeat split.
    + apply List.length_map.
    + rewrite map_merge_keys. exact Hkeys.
    + rewrite filter_map_merge, (filter_unique_key _ r) by assumption. reflexivity.
    + apply GREATEST_Qmax.
    + intros Hlt. apply Qltb_lt in Hlt. rewrite Hlt. reflexivity.
    + intros Hle. apply Qltb_ge in Hle. rewrite Hle. reflexivity.
    + intros x Hx Hxk. apply list_elem_of_fmap. exists x. split; [|exact Hx].
      destruct (dt_key_is doc (tag_id t) x) eqn:E; [|reflexivity].
      apply dt_key_is_spec in E. contradiction.
  - intros category description. unfold get_or_create_tag. rewrite Hfind. reflexivity.
  - intros fresh category description Hfresh.
    eexists {| tag_id := next_id db; tag_name := LOWER fresh;
               tag_category := category; tag_description := description |}, _.
    split.
    { unfold get_or_create_tag. rewrite find_tag_absent by exact Hfresh. reflexivity. }
    simpl. repeat split.
    + apply toLowerCase_idemp.
    + rewrite List.map_app. simpl. apply NoDup_app. split; [exact Hnames|]. split.
      * intros n Hn Hn'. apply list_elem_of_singleton in Hn'. subst n.
        apply list_elem_of_fmap in Hn as [t' [Hn Ht']].
        exact (Hfresh t' Ht' (eq_sym Hn)).
      * apply NoDup_singleton.
Qed.

(** Every call of [add_document_tag] raises on the name [tag_id]. *)
Lemma add_document_tag_error (d : Database) (doc : nat) (name : string)
    (conf : Q) (source : string) :
  add_document_tag d doc name conf source
  = SqlError "column reference tag_id is ambiguous".
Proof.
  unfold add_document_tag. destruct (get_or_create_tag d name None None). reflexivity.
Qed.

(** C5, as the code has it. [add_document_tag] declares a variable
    [tag_id] and names the column [tag_id] in its conflict target, so its
    insert raises. On the store where document 1 carries the tag cat at
    0.5 from ai, attaching Cat at 0.9 from vision raises; the caller is
    handed the error and the row keeps 0.5 and ai, where the insert read
    with its conflict target on the columns leaves the one row at 0.9 and
    vision. Attaching a name not seen before raises as well, and the tag
    is not created, though [get_or_create_tag] alone creates it in lower
    case. *)
Theorem add_document_tag_raises :
  let w := with_db sample_world tagged_db in
  let old_row := {| dt_document_id := 1; dt_tag_id := 4;
                    dt_confidence := 5 # 10; dt_source := "ai" |} in
  let merged_row := {| dt_document_id := 1; dt_tag_id := 4;
                       dt_confidence := 9 # 10; dt_source := "vision" |} in
  let call := call_add_document_tag 1 "Cat" (9 # 10) "vision" in
  let fresh := call_add_document_tag 1 "Dog" (9 # 10) "vision" in
  add_document_tag tagged_db 1 "Cat" (9 # 10) "vision"
  = SqlError "column reference tag_id is ambiguous"
  /\ fst (rpc sample_env call w)
     = Returned {| rpc_data := None;
                   rpc_error := Some "column reference tag_id is ambiguous" |}
  /\ db (snd (rpc sample_env call w)) = tagged_db
  /\ document_tags (db (snd (rpc sample_env call w))) = [old_row]
  /\ upsert_document_tag tagged_db 1 4 (9 # 10) "vision"
     = SqlOk (set_document_tags tagged_db [merged_row])
  /\ fst (rpc sample_env fresh w)
     = Returned {| rpc_data := None;
                   rpc_error := Some "column reference tag_id is ambiguous" |}
  /\ List.map tag_name (tags (db (snd (rpc sample_env fresh w)))) = ["cat"]
  /\ List.map tag_name (tags (snd (get_or_create_tag tagged_db "Dog" None None)))
     = ["cat"; "dog"].
Proof.
  cbv zeta. unfold rpc. cbn [rpc_fault rpc_name sample_env].
  rewrite !add_document_tag_error.
  repeat split; reflexivity.
Qed.

(** ** The similarity lookups *)

Lemma filter_sublist {A} (P : A -> bool) (l : list A) :
  List.filter P l `sublist_of` l.
Proof.
  induction l as [|x l IH]; simpl; [constructor|].
  destruct (P x); [apply sublist_skip|apply sublist_cons]; exact IH.
Qed.

Lemma filter_length_mono {A} (P1 P2 : A -> bool) (l : list A) :
  (forall x, P2 x = true -> P1 x = true) ->
  (length (List.filter P2 l) <= length (List.filter P1 l))%nat.
Proof.
  intros H. induction l as [|x l IH]; simpl; [lia|].
  destruct (P2 x) eqn:E2.
  - rewrite (H x E2). simpl. lia.
  - destruct (P1 x); simpl; lia.
Qed.

Global Instance key_le_total : Total key_le.
Proof.
  intros [x|] [y|]; simpl; auto.
  destruct (Qlt_le_dec y x) as [H|H]; [right; apply Qlt_le_weak, H|left; exact H].
Qed.

Global Instance key_le_trans : Transitive key_le.
Proof.
  intros [x|] [y|] [z|]; simpl; try tauto. apply Qle_trans.
Qed.

Lemma sql_holds_and (a b : sql_bool) :
  sql_holds (sql_and a b) = sql_holds a && sql_holds b.
Proof. destruct a as [[]|], b as [[]|]; reflexivity. Qed.

Section LookupFacts.
Variable dist : Vector -> Vector -> Q.

Global Instance closer_total q : Total (closer dist q).
Proof. intros a b. unfold closer. apply key_le_total. Qed.

Global Instance closer_trans q : Transitive (closer dist q).
Proof. intros a b c. unfold closer. apply key_le_trans. Qed.

(** What [ORDER BY] followed by [LIMIT] keeps of the rows that pass the
    [WHERE] clause. *)
Lemma order_limit_shape (q : Vector) (P : Chunk * Document -> bool)
    (J : list (Chunk * Document)) (n : nat) :
  let picked := take n (merge_sort (closer dist q) (List.filter P J)) in
  picked ⊆+ J
  /\ (forall r, r ∈ picked -> P r = true)
  /\ StronglySorted (closer dist q) picked
  /\ length picked = min n (length (List.filter P J))
  /\ (forall r, r ∈ J -> P r = true -> r ∉ picked ->
      forall p, p ∈ picked -> closer dist q p r).
Proof.
  intros picked. subst picked.
  set (F := List.filter P J). set (S := merge_sort (closer dist q) F).
  assert (HS : StronglySorted (closer dist q) S)
    by apply (StronglySorted_merge_sort _).
  assert (HP : S ≡ₚ F) by apply merge_sort_Permutation.
  rewrite <- (take_drop n S) in HS.
  repeat split.
  - transitivity S; [apply sublist_submseteq, sublist_take|].
    transitivity F; [apply Permutation_submseteq, HP|].
    apply sublist_submseteq, filter_sublist.
  - intros r Hr.
    assert (Hin : r ∈ F).
    { rewrite <- HP. eapply elem_of_submseteq; [exact Hr|].
      apply sublist_submseteq, sublist_take. }
    apply list_elem_of_In, List.filter_In in Hin. tauto.
  - eapply StronglySorted_app_1_l, HS.
  - rewrite length_take. f_equal. apply Permutation_length, HP.
  - intros r HrJ HrP Hnot p Hp.
    assert (Hin : r ∈ S).
    { rewrite HP. apply list_elem_of_In, List.filter_In.
      split; [apply list_elem_of_In, HrJ|exact HrP]. }
    rewrite <- (take_drop n S) in Hin. apply elem_of_app in Hin as [Hin|Hin].
    + contradiction.
    + eapply StronglySorted_app_1_elem_of; eauto.
Qed.

Lemma holds_where_user u r :
  sql_holds (where_user u r) = true <-> chunk_user_id (fst r) = Some u.
Proof.
  unfold where_user. destruct (chunk_user_id (fst r)) as [u'|]; simpl.
  - destruct (bool_decide (u' = u)) eqn:H.
    + apply bool_decide_eq_true in H. subst. tauto.
    + apply bool_decide_eq_false in H. split; [discriminate|]. intros [=]. auto.
  - split; discriminate.
Qed.

Lemma holds_where_similar q thr r :
  sql_holds (where_embedded r) && sql_holds (where_similar dist q thr r) = true
  <-> exists e, chunk_embedding (fst r) = Some e /\ (thr < 1 - dist e q)%Q.
Proof.
  unfold where_embedded, where_similar, similarity_to, distance_to.
  destruct (chunk_embedding (fst r)) as [e|]; simpl.
  - destruct (Qltb thr (1 - dist e q)) eqn:H.
    + apply Qltb_lt in H. split; [eauto|]. intros _.
      reflexivity.
    + apply Qltb_ge in H. split; [discriminate|].
      intros (e' & [= <-] & Hlt). exfalso. exact (Qlt_not_le _ _ Hlt H).
  - split; [discriminate|]. intros (e & [=] & _).
Qed.

Lemma holds_where_content_types cts r :
  sql_holds (where_content_types cts r) = true
  <-> (forall l, cts = Some l ->
         exists ct, doc_content_type (snd r) = Some ct /\ ct ∈ l).
Proof.
  unfold where_content_types, sql_eq_any. destruct cts as [l|]; simpl.
  - destruct (doc_content_type (snd r)) as [x|]; simpl.
    + destruct (bool_decide (x ∈ l)) eqn:Hx; simpl.
      * apply bool_decide_eq_true in Hx. split; [|reflexivity].
        intros _ l' [= <-]. eauto.
      * apply bool_decide_eq_false in Hx. split; [discriminate|].
        intros H. destruct (H l eq_refl) as (ct & [= <-] & Hin). contradiction.
    + split; [discriminate|]. intros H.
      destruct (H l eq_refl) as (ct & [=] & _).
  - split; [|reflexivity]. intros _ l [=].
Qed.

Lemma holds_where_required_tags tags r :
  sql_holds (where_required_tags tags r) = true
  <-> (forall l, tags = Some l ->
         exists ts x, doc_auto_tags (snd r) = Some ts /\ x ∈ ts /\ x ∈ l).
Proof.
  unfold where_required_tags, sql_overlap. destruct tags as [l|]; simpl.
  - destruct (doc_auto_tags (snd r)) as [ts|]; simpl.
    + destruct (existsb (fun x => bool_decide (x ∈ l)) ts) eqn:Hx; simpl.
      * apply existsb_exists in Hx as (x & Hin & Hx).
        apply bool_decide_eq_true in Hx. split; [|reflexivity].
        intros _ l' [= <-]. exists ts, x. rewrite list_elem_of_In. auto.
      * split; [discriminate|]. intros H.
        destruct (H l eq_refl) as (ts' & x & [= <-] & Hin & Hl).
        assert (existsb (fun x => bool_decide (x ∈ l)) ts = true); [|congruence].
        apply existsb_exists. exists x. rewrite <- list_elem_of_In.
        split; [exact Hin|apply bool_decide_eq_true, Hl].
    + split; [discriminate|]. intros H.
      destruct (H l eq_refl) as (ts' & x & [=] & _).
  - split; [|reflexivity]. intros _ l [=].
Qed.

Lemma where_enhanced_qualifies q u thr cts tags r :
  sql_holds (enhanced_similarity_search_where dist q u thr cts tags r) = true
  <-> qualifies dist q u thr cts tags r.
Proof.
  unfold enhanced_similarity_search_where, qualifies.
  rewrite !sql_holds_and, !andb_true_iff, <- holds_where_user,
    <- holds_where_content_types, <- holds_where_required_tags,
    <- holds_where_similar, andb_true_iff.
  tauto.
Qed.

(** With both filters NULL the enhanced [WHERE] clause is the basic one. *)
Lemma where_null_filters q u thr r :
  sql_holds (enhanced_similarity_search_where dist q u thr None None r)
  = sql_holds (similarity_search_where dist q u thr r).
Proof.
  unfold enhanced_similarity_search_where, similarity_search_where,
    where_content_types, where_required_tags. simpl.
  destruct (where_user u r) as [[]|], (where_embedded r) as [[]|],
    (where_similar dist q thr r) as [[]|]; reflexivity.
Qed.

Lemma enhanced_null_filters db q u thr n :
  enhanced_similarity_search dist db q u thr n None None
  = similarity_search dist db q u thr n.
Proof.
  unfold enhanced_similarity_search, similarity_search.
  destruct (n <? 0)%Z; [reflexivity|]. do 4 f_equal.
  apply List.filter_ext. intros r. apply where_null_filters.
Qed.

End LookupFacts.





Lemma take_length_mono {A} (n : nat) (l1 l2 : list A) :
  (length l2 <= length l1)%nat -> (length (take n l2) <= length (take n l1))%nat.
Proof. rewrite !length_take. lia. Qed.

Lemma lookup_count_mono dist db q n (P1 P2 : Chunk * Document -> bool) :
  (forall r, P2 r = true -> P1 r = true) ->
  (length (List.map (select_row dist q)
            (take n (merge_sort (closer dist q)
                       (List.filter P2 (chunks_join_documents db)))))
   <= length (List.map (select_row dist q)
            (take n (merge_sort (closer dist q)
                       (List.filter P1 (chunks_join_documents db))))))%nat.
Proof.
  intros H. rewrite !List.length_map. apply take_length_mono.
  rewrite !(Permutation_length (merge_sort_Permutation _ _)).
  apply filter_length_mono, H.
Qed.

Lemma where_threshold_mono dist q u t1 t2 cts tags r :
  (t1 <= t2)%Q ->
  qualifies dist q u t2 cts tags r -> qualifies dist q u t1 cts tags r.
Proof.
  intros Ht (Hu & (e & He & Hs) & Hc & Hg).
  split; [exact Hu|]. split; [|split; assumption].
  exists e. split; [exact He|]. eapply Qle_lt_trans; eauto.
Qed.

(** C6. For a fixed query, user and corpus, a higher threshold never
    gives more rows, for the basic and for the enhanced lookup. *)
Theorem threshold_antitone (dist : Vector -> Vector -> Q) (db : Database)
    (q : Vector) (u : UserId) (t1 t2 : Q) (n : Z)
    (content_types required_tags : option (list string)) :
  (t1 <= t2)%Q ->
  (row_count (similarity_search dist db q u t2 n)
   <= row_count (similarity_search dist db q u t1 n))%nat
  /\ (row_count (enhanced_similarity_search dist db q u t2 n content_types required_tags)
      <= row_count (enhanced_similarity_search dist db q u t1 n content_types required_tags))%nat.
Proof.
  intros Ht.
  assert (He : forall cts tags,
    (row_count (enhanced_similarity_search dist db q u t2 n cts tags)
     <= row_count (enhanced_similarity_search dist db q u t1 n cts tags))%nat).
  { intros cts tags. unfold enhanced_similarity_search.
    destruct (n <? 0)%Z; simpl; [lia|].
    apply lookup_count_mono. intros r.
    rewrite !where_enhanced_qualifies. apply where_threshold_mono, Ht. }
  split; [|apply He].
  rewrite <- !enhanced_null_filters. apply He.
Qed.

(** ** Upload *)

Lemma upload_one_returned E u file w d w' :
  upload_one E u file w = (Returned d, w') ->
  row_for u file d
  /\ doc_id d = next_id (db w)
  /\ next_id (db w') = S (next_id (db w))
  /\ documents (db w') = <[doc_id d := d]> (documents (db w))
  /\ dispatched w' = (dispatched w ++ [task_for file d])%list
  /\ doc_storage_path d = doc_filename d
  /\ bucket w !! doc_filename d = None
  /\ bucket w' = <[doc_filename d := file]> (bucket w).
Proof.
  unfold upload_one, bind, Date_now, storage_upload, insert_document, dispatch,
    throw, ret, task_for.
  cbn [db bucket dispatched clock_reads with_clock_reads with_bucket with_db
       with_dispatched with_status_history].
  destruct (bucket w !! _) eqn:Hb; [discriminate|].
  cbn [db bucket dispatched clock_reads with_clock_reads with_bucket with_db
       with_dispatched with_status_history].
  destruct (decide (u ∈ users (db w))); [|discriminate].
  cbn [db bucket dispatched clock_reads with_clock_reads with_bucket with_db
       with_dispatched with_status_history doc_id doc_public_url].
  destruct (String.prefix "image/" (file_type file));
    [|destruct (bool_decide (file_type file = "text/plain"))];
    intros [= <- <-]; cbn; repeat split; try reflexivity; try exact Hb;
    destruct (decide _); reflexivity.
Qed.

Lemma upload_each_returned E u files : forall acc w res w',
  upload_each E u files acc w = (Returned res, w') ->
  exists docs,
    res = (acc ++ docs)%list
    /\ Forall2 (row_for u) files docs
    /\ List.map doc_id docs = seq (next_id (db w)) (length files)
    /\ documents (db w') = insert_rows (documents (db w)) docs
    /\ dispatched w' = (dispatched w ++ zip_with task_for files docs)%list.
Proof.
  induction files as [|file rest IH]; intros acc w res w'; simpl.
  - intros [= <- <-]. exists []. rewrite app_nil_r.
    repeat split; [constructor|symmetry; apply app_nil_r].
  - unfold bind at 1.
    destruct (upload_one E u file w) as [[d|e] w1] eqn:H1; [|discriminate].
    intros H2. apply IH in H2 as (docs & -> & Hrows & Hids & Hdocs & Hdisp).
    apply upload_one_returned in H1 as (Hrow & Hid & Hnext & Hd1 & Hdisp1 & _).
    exists (d :: docs). split; [rewrite <- app_assoc; reflexivity|].
    split; [constructor; assumption|].
    split; [simpl; rewrite Hids, Hnext, Hid; reflexivity|].
    split; [rewrite Hdocs, Hd1; reflexivity|].
    rewrite Hdisp, Hdisp1, <- app_assoc. reflexivity.
Qed.

Lemma insert_rows_lookup_other (docs : list Document) : forall m i,
  i ∉ List.map doc_id docs -> insert_rows m docs !! i = m !! i.
Proof.
  induction docs as [|d docs IH]; intros m i Hi; simpl; [reflexivity|].
  rewrite IH by (intros H; apply Hi; right; exact H).
  apply lookup_insert_ne. intros Heq. subst i. apply Hi. left.
Qed.

Lemma insert_rows_lookup (docs : list Document) : forall m d,
  NoDup (List.map doc_id docs) -> d ∈ docs -> insert_rows m docs !! doc_id d = Some d.
Proof.
  induction docs as [|x docs IH]; intros m d Hnd Hin; simpl in *.
  - inversion Hin.
  - apply NoDup_cons in Hnd as [Hx Hnd].
    apply elem_of_cons in Hin as [->|Hin].
    + rewrite insert_rows_lookup_other by exact Hx. apply lookup_insert_eq.
    + apply IH; assumption.
Qed.

(** C10. A successful upload of [N >= 1] files creates one new row per
    file, in the state [uploaded], and starts one pipeline per file; its
    response carries the first of these rows and no other. *)
Theorem upload_returns_first_document (E : Env) (formData : UploadForm)
    (w w' : World) (resp : UploadResponse) :
  ids_fresh (db w) ->
  only_files (form_files formData) <> [] ->
  uploadDocuments E formData w = (Returned resp, w') ->
  upload_success resp = true ->
  exists first docs,
    Forall2 (row_for (str_or (form_userId formData) ""))
      (only_files (form_files formData)) docs
    /\ NoDup (List.map doc_id docs)
    /\ (forall d, d ∈ docs ->
          documents (db w) !! doc_id d = None
          /\ documents (db w') !! doc_id d = Some d)
    /\ dispatched w'
       = (dispatched w ++ zip_with task_for (only_files (form_files formData)) docs)%list
    /\ head docs = Some first
    /\ upload_data resp
       = Some {| upload_document := Some first; upload_processing_started := true |}
    /\ upload_error resp = None.
Proof.
  intros Hfresh Hfiles Hrun Hok.
  unfold uploadDocuments, try_catch, bind in Hrun.
  destruct (decide (form_files formData = [])) as [Hnil|_].
  { rewrite Hnil in Hfiles. contradiction. }
  cbn [ret throw] in Hrun.
  destruct (truthy_str (form_userId formData)); cbn [ret throw] in Hrun.
  2:{ unfold Date_now in Hrun. injection Hrun as <- <-. discriminate. }
  destruct (upload_each E _ _ [] w) as [[res|e] w1] eqn:Heach.
  2:{ unfold Date_now in Hrun. injection Hrun as <- <-. discriminate. }
  apply upload_each_returned in Heach as (docs & -> & Hrows & Hids & Hdocs & Hdisp).
  unfold Date_now in Hrun. cbn in Hrun. injection Hrun as <- <-.
  assert (Hnd : NoDup (List.map doc_id docs)) by (rewrite Hids; apply NoDup_seq).
  destruct docs as [|first docs].
  { apply Forall2_nil_inv_r in Hrows. contradiction. }
  exists first, (first :: docs).
  split; [exact Hrows|]. split; [exact Hnd|].
  split.
  { intros d Hd. cbn [db with_clock_reads]. rewrite Hdocs. split.
    - destruct (documents (db w) !! doc_id d) eqn:Hl; [|reflexivity].
      assert (Hlt : (doc_id d < next_id (db w))%nat) by (apply Hfresh; eauto).
      assert (Hin : doc_id d ∈ List.map doc_id (first :: docs))
        by (apply list_elem_of_fmap; eauto).
      rewrite Hids in Hin. apply elem_of_seq in Hin. lia.
    - apply insert_rows_lookup; assumption. }
  split; [exact Hdisp|].
  repeat split.
Qed.

(** ** Search *)

Lemma rpc_enhanced E q u thr n cts ts w :
  rpc E (call_enhanced_similarity_search q u thr n cts ts) w
  = (Returned (lookup_response E (db w) (call_enhanced_similarity_search q u thr n cts ts)),
     with_rpc_log w (rpc_log w ++ [call_enhanced_similarity_search q u thr n cts ts])).
Proof.
  unfold rpc, lookup_response. destruct (rpc_fault E _); [reflexivity|].
  destruct (enhanced_similarity_search _ _ _ _ _ _ _ _); reflexivity.
Qed.

Lemma rpc_basic E q u thr n w :
  rpc E (call_similarity_search q u thr n) w
  = (Returned (lookup_response E (db w) (call_similarity_search q u thr n)),
     with_rpc_log w (rpc_log w ++ [call_similarity_search q u thr n])).
Proof.
  unfold rpc, lookup_response. destruct (rpc_fault E _); [reflexivity|].
  destruct (similarity_search _ _ _ _ _ _); reflexivity.
Qed.

(** The lookup with its fallback, case by case. *)
Lemma similarity_lookup_run E q v w :
  let enhanced := call_enhanced_similarity_search q (v_user_id v)
                    (v_similarity_threshold v) (v_max_results v) None None in
  let basic := call_similarity_search q (v_user_id v)
                 (v_similarity_threshold v) (v_max_results v) in
  similarity_lookup E q v w
  = match rpc_error (lookup_response E (db w) enhanced) with
    | None =>
        (Returned (data_or_empty (lookup_response E (db w) enhanced)),
         with_rpc_log w (rpc_log w ++ [enhanced]))
    | Some _ =>
        match rpc_error (lookup_response E (db w) basic) with
        | None =>
            (Returned (data_or_empty (lookup_response E (db w) basic)),
             with_rpc_log w (rpc_log w ++ [enhanced; basic]))
        | Some msg =>
            (Thrown (JsError ("Similarity search failed: "
                              +:+ ("Both enhanced and basic search failed: " +:+ msg))),
             with_rpc_log w (rpc_log w ++ [enhanced; basic]))
        end
    end.
Proof.
  intros enhanced basic. subst enhanced basic.
  unfold similarity_lookup, try_catch, bind.
  rewrite rpc_enhanced.
  destruct (rpc_error (lookup_response E (db w) (call_enhanced_similarity_search _ _ _ _ _ _)));
    [|reflexivity].
  rewrite rpc_basic. cbn [db with_rpc_log rpc_log].
  rewrite <- app_assoc.
  destruct (rpc_error (lookup_response E (db w) (call_similarity_search _ _ _ _)));
    reflexivity.
Qed.

(** A row of a lookup carries [created_at] as the store writes it, so
    [SearchResultSchema] refuses it, whatever its other fields. *)
Lemma SearchResultSchema_refuses (r : SearchRow) : SearchResultSchema_ok r = false.
Proof. unfold SearchResultSchema_ok. apply andb_false_r. Qed.

Lemma SearchResponseSchema_refuses (r : SearchRow) (rows : list SearchRow) :
  SearchResponseSchema_ok (r :: rows) = false.
Proof.
  unfold SearchResponseSchema_ok. simpl. rewrite SearchResultSchema_refuses. reflexivity.
Qed.

Lemma SearchResponseSchema_ok_nil (rows : list SearchRow) :
  SearchResponseSchema_ok rows = true <-> rows = [].
Proof.
  destruct rows as [|r rows]; [split; reflexivity|].
  rewrite SearchResponseSchema_refuses. split; discriminate.
Qed.

Lemma searchResultsToInsert_rows (id : nat) (rows : list SearchRow) :
  length (searchResultsToInsert id rows) = length rows
  /\ forall i r, rows !! i = Some r ->
       searchResultsToInsert id rows !! i
       = Some {| sr_search_query_id := id;
                 sr_chunk_id := row_chunk_id r;
                 sr_similarity_score := row_similarity r;
                 sr_rank_position := i + 1 |}.
Proof.
  unfold searchResultsToInsert. split; [apply length_imap|].
  intros i r H. rewrite list_lookup_imap, H. reflexivity.
Qed.

Lemma searchDocuments_start E formData w v q :
  parsed_search formData = Returned v ->
  embedQuery E (v_query v) = Returned q ->
  v_user_id v ∈ users (db w) ->
  searchDocuments E formData w
  = let w1 := with_db (with_clock_reads w (S (clock_reads w)))
                (insert_search_query_row (db w) (new_query_row w v q)) in
    try_catch
      (searchResults <- similarity_lookup E q v ;;
       endTime <- Date_now E ;;
       let responseTime :=
         (Z.of_nat endTime - Z.of_nat (time_source E (clock_reads w)))%Z in
       update_search_query (next_id (db w)) (length searchResults) responseTime ;;;
       (match searchResults with
        | [] => ret tt
        | _ => insert_search_results
                 (searchResultsToInsert (next_id (db w)) searchResults)
        end) ;;;
       if SearchResponseSchema_ok searchResults then
         now <- Date_now E ;;
         ret {| search_success := true;
                search_timestamp := now;
                search_data :=
                  Some {| data_results := searchResults;
                          data_query_id := next_id (db w);
                          data_total_results := length searchResults;
                          data_response_time_ms := responseTime |};
                search_error := None |}
       else throw (JsError "ZodError: results"))
      (fun exn =>
         now <- Date_now E ;;
         ret {| search_success := false;
                search_timestamp := now;
                search_data := None;
                search_error := Some (message_or exn "Search failed") |})
      w1.
Proof.
  intros Hparse Hembed Huser.
  unfold searchDocuments, parsed_search in *.
  unfold try_catch at 1. unfold bind at 1. unfold await at 1. rewrite Hparse.
  unfold bind at 1. unfold Date_now at 1.
  unfold bind at 1. unfold await at 1. rewrite Hembed.
  unfold bind at 1. unfold insert_search_query at 1.
  cbn [db with_clock_reads].
  destruct (decide (v_user_id v ∈ users (db w))); [|contradiction].
  reflexivity.
Qed.

Lemma parsed_search_limit formData v :
  parsed_search formData = Returned v -> (1 <= v_max_results v <= 50)%Z.
Proof.
  unfold parsed_search, SearchFormSchema_parse.
  destruct (form_query formData), (form_user formData); try discriminate.
  repeat (match goal with
          | |- context [if negb ?b then _ else _] => destruct b eqn:?; simpl
          end; try discriminate).
  intros [= <-]. simpl. lia.
Qed.

Lemma similarity_search_same_tables dist d1 d2 q u thr n :
  documents d1 = documents d2 -> document_chunks d1 = document_chunks d2 ->
  similarity_search dist d1 q u thr n = similarity_search dist d2 q u thr n.
Proof.
  intros H1 H2. unfold similarity_search, chunks_join_documents.
  rewrite H1, H2. reflexivity.
Qed.

Lemma basic_lookup_available E d q u thr n :
  rpc_fault E fn_similarity_search = None -> (0 <= n)%Z ->
  exists rows,
    similarity_search (cosine_distance E) d q u thr n = SqlOk rows
    /\ lookup_response E d (call_similarity_search q u thr n)
       = {| rpc_data := Some rows; rpc_error := None |}.
Proof.
  intros Hf Hn. unfold lookup_response. simpl. rewrite Hf.
  unfold similarity_search. destruct (n <? 0)%Z eqn:Hneg.
  - apply Z.ltb_lt in Hneg. lia.
  - eexists. split; reflexivity.
Qed.

(** C2, as the code has it. When the enhanced lookup fails,
    [searchDocuments] calls the basic lookup with the same threshold and
    limit, and if that fails too the search answers with an error that
    names both failures. If the basic lookup answers, its rows are counted
    in the query's [results_count] and recorded as [search_results] in
    rank order; they are returned only when there are none. A row of the
    lookup carries the document's [created_at] as the store writes it,
    which [SearchResponseSchema] refuses: a search whose fallback found
    rows answers with the schema's error and no data. *)
Theorem search_falls_back (E : Env) (formData : SearchForm) (w : World)
    (v : ValidatedSearch) (q : Vector) (msg : string) :
  parsed_search formData = Returned v ->
  embedQuery E (v_query v) = Returned q ->
  v_user_id v ∈ users (db w) ->
  rpc_fault E fn_enhanced_similarity_search = Some msg ->
  let enhanced := call_enhanced_similarity_search q (v_user_id v)
                    (v_similarity_threshold v) (v_max_results v) None None in
  let basic := call_similarity_search q (v_user_id v)
                 (v_similarity_threshold v) (v_max_results v) in
  let out := searchDocuments E formData w in
  rpc_log (snd out) = (rpc_log w ++ [enhanced; basic])%list
  /\ (forall msg2, rpc_fault E fn_similarity_search = Some msg2 ->
        exists ts,
          fst out
          = Returned
              {| search_success := false; search_timestamp := ts;
                 search_data := None;
                 search_error :=
                   Some ("Similarity search failed: "
                         +:+ ("Both enhanced and basic search failed: " +:+ msg2)) |})
  /\ (rpc_fault E fn_similarity_search = None ->
        exists rows query added,
          similarity_search (cosine_distance E) (db w) q (v_user_id v)
            (v_similarity_threshold v) (v_max_results v) = SqlOk rows
          /\ last (search_queries (db (snd out))) = Some query
          /\ sq_id query = next_id (db w)
          /\ sq_results_count query = length rows
          /\ search_results (db (snd out)) = (search_results (db w) ++ added)%list
          /\ length added = length rows
          /\ (forall i r, rows !! i = Some r ->
                added !! i = Some {| sr_search_query_id := next_id (db w);
                                     sr_chunk_id := row_chunk_id r;
                                     sr_similarity_score := row_similarity r;
                                     sr_rank_position := i + 1 |})
          /\ (rows = [] ->
                exists ts rt,
                  fst out
                  = Returned
                      {| search_success := true; search_timestamp := ts;
                         search_data :=
                           Some {| data_results := [];
                                   data_query_id := next_id (db w);
                                   data_total_results := 0;
                                   data_response_time_ms := rt |};
                         search_error := None |})
          /\ (rows <> [] ->
                exists ts issues,
                  fst out
                  = Returned
                      {| search_success := false; search_timestamp := ts;
                         search_data := None;
                         search_error := Some issues |})).
Proof.
  intros Hparse Hembed Huser Hfault enhanced basic out.
  pose proof (parsed_search_limit _ _ Hparse) as Hlimit.
  pose proof (searchDocuments_start E formData w v q Hparse Hembed Huser) as Hrun.
  cbv zeta in Hrun. unfold try_catch at 1 in Hrun. unfold bind at 1 in Hrun.
  rewrite similarity_lookup_run in Hrun. cbv zeta in Hrun. fold enhanced basic in Hrun.
  set (d1 := db (with_db (with_clock_reads w (S (clock_reads w)))
                   (insert_search_query_row (db w) (new_query_row w v q)))) in *.
  assert (He : rpc_error (lookup_response E d1 enhanced) = Some msg).
  { unfold lookup_response, enhanced. simpl. rewrite Hfault. reflexivity. }
  rewrite He in Hrun.
  destruct (rpc_fault E fn_similarity_search) as [msg2|] eqn:Hbasic.
  - assert (Hb : rpc_error (lookup_response E d1 basic) = Some msg2).
    { unfold lookup_response, basic. simpl. rewrite Hbasic. reflexivity. }
    rewrite Hb in Hrun. unfold bind, Date_now, ret in Hrun. subst out. rewrite Hrun.
    split; [reflexivity|]. split; [|discriminate].
    intros ? [= <-]. eexists. reflexivity.
  - destruct (basic_lookup_available E d1 q (v_user_id v) (v_similarity_threshold v)
                (v_max_results v) Hbasic) as (rows & Hrows & Hresp); [lia|].
    fold basic in Hresp. rewrite Hresp in Hrun.
    cbn [rpc_error rpc_data data_or_empty default from_option] in Hrun.
    unfold id in Hrun.
    rewrite (similarity_search_same_tables _ _ (db w)) in Hrows by reflexivity.
    unfold bind, Date_now, update_search_query, insert_search_results, ret, throw in Hrun.
    subst d1.
    cbn [db with_db with_clock_reads with_rpc_log clock_reads rpc_log
         search_queries set_search_queries insert_search_query_row] in Hrun.
    pose proof (searchResultsToInsert_rows (next_id (db w)) rows) as [Hlen Hadded].
    assert (Hlast : forall l,
      last (List.map
              (fun r => if decide (sq_id r = next_id (db w))
                        then backfill (length rows)
                               (Z.of_nat (time_source E (S (clock_reads w)))
                                - Z.of_nat (time_source E (clock_reads w))) r
                        else r)
              (l ++ [new_query_row w v q]))
      = Some (backfill (length rows)
                (Z.of_nat (time_source E (S (clock_reads w)))
                 - Z.of_nat (time_source E (clock_reads w)))
                (new_query_row w v q))).
    { intros l. rewrite List.map_app. simpl.
      destruct (decide (next_id (db w) = next_id (db w))); [|contradiction].
      apply last_snoc. }
    subst out. split; [|split; [discriminate|]].
    + destruct rows as [|row rows];
        [cbn [SearchResponseSchema_ok forallb] in Hrun
        |rewrite SearchResponseSchema_refuses in Hrun];
        rewrite Hrun; reflexivity.
    + intros _. exists rows. eexists _, (searchResultsToInsert (next_id (db w)) rows).
      split; [exact Hrows|].
      destruct rows as [|row rows];
        [cbn [SearchResponseSchema_ok forallb] in Hrun
        |rewrite SearchResponseSchema_refuses in Hrun];
        rewrite Hrun;
        cbn [fst snd db with_db with_clock_reads with_rpc_log rpc_log
             search_queries search_results set_search_queries set_search_results
             insert_search_query_row];
        (split; [apply Hlast|]); (split; [reflexivity|]); (split; [reflexivity|]);
        (split; [try reflexivity; symmetry; apply app_nil_r|]);
        (split; [exact Hlen|]); (split; [exact Hadded|]);
        (split; intros Hx; try congruence; eexists; eexists; reflexivity).
Qed.

(** A search that does not reach the lookup: the form is refused, the
    query cannot be embedded, or the query row cannot be created. *)
Lemma searchDocuments_refused E formData w :
  (forall v q, parsed_search formData = Returned v ->
     embedQuery E (v_query v) = Returned q -> v_user_id v ∉ users (db w)) ->
  exists e n,
    searchDocuments E formData w
    = (Returned {| search_success := false;
                   search_timestamp := time_source E n;
                   search_data := None;
                   search_error := Some (message_or e "Search failed") |},
       with_clock_reads w (S n))
    /\ forall E', time_source E' = time_source E -> embedQuery E' = embedQuery E ->
       searchDocuments E' formData w = searchDocuments E formData w.
Proof.
  intros H. unfold searchDocuments, try_catch, bind, await.
  fold (parsed_search formData).
  destruct (parsed_search formData) as [v|e] eqn:Hp.
  2:{ exists e, (clock_reads w). split; [reflexivity|].
      intros E' Ht He. unfold Date_now. rewrite Ht. reflexivity. }
  unfold Date_now at 1. cbn [clock_reads with_clock_reads].
  destruct (embedQuery E (v_query v)) as [q|e] eqn:Hq.
  2:{ exists e, (S (clock_reads w)). split; [reflexivity|].
      intros E' Ht He. unfold Date_now. rewrite Ht, He, Hq. reflexivity. }
  specialize (H v q eq_refl Hq).
  unfold insert_search_query at 1. cbn [db with_clock_reads].
  destruct (decide (v_user_id v ∈ users (db w))); [contradiction|].
  eexists _, (S (clock_reads w)). split; [reflexivity|].
  intros E' Ht He. unfold Date_now, insert_search_query. rewrite Ht, He, Hq.
  cbn [db with_clock_reads].
  destruct (decide (v_user_id v ∈ users (db w))); [contradiction|]. reflexivity.
Qed.

Lemma searchDocuments_cases E formData w :
  (exists v q, parsed_search formData = Returned v
               /\ embedQuery E (v_query v) = Returned q
               /\ v_user_id v ∈ users (db w))
  \/ (forall v q, parsed_search formData = Returned v ->
        embedQuery E (v_query v) = Returned q -> v_user_id v ∉ users (db w)).
Proof.
  destruct (parsed_search formData) as [v|e]; [|right; discriminate].
  destruct (embedQuery E (v_query v)) as [q|e] eqn:Hq.
  2:{ right. intros v' q' [= <-]. rewrite Hq. discriminate. }
  destruct (decide (v_user_id v ∈ users (db w))) as [Hu|Hu].
  - left. eauto.
  - right. intros v' q' [= <-] _. exact Hu.
Qed.

Lemma searchDocuments_calls E formData w :
  exists calls,
    rpc_log (snd (searchDocuments E formData w)) = (rpc_log w ++ calls)%list
    /\ Forall unfiltered calls.
Proof.
  destruct (searchDocuments_cases E formData w) as [(v & q & Hp & Hq & Hu)|Hno].
  - rewrite (searchDocuments_start E formData w v q Hp Hq Hu).
    cbv zeta. unfold try_catch, bind at 1. rewrite similarity_lookup_run. cbv zeta.
    set (enhanced := call_enhanced_similarity_search _ _ _ _ _ _).
    set (basic := call_similarity_search _ _ _ _).
    assert (H1 : Forall unfiltered [enhanced]) by (repeat constructor).
    assert (H2 : Forall unfiltered [enhanced; basic]) by (repeat constructor).
    unfold bind, Date_now, update_search_query, insert_search_results, ret, throw.
    destruct (rpc_error (lookup_response E _ enhanced));
      [destruct (rpc_error (lookup_response E _ basic))|].
    + eexists. split; [reflexivity|exact H2].
    + destruct (data_or_empty _); destruct (SearchResponseSchema_ok _);
        (eexists; split; [reflexivity|exact H2]).
    + destruct (data_or_empty _); destruct (SearchResponseSchema_ok _);
        (eexists; split; [reflexivity|exact H1]).
  - destruct (searchDocuments_refused E formData w Hno) as (e & n & -> & _).
    exists []. split; [symmetry; apply app_nil_r|constructor].
Qed.

(** C9. A search that reaches the lookup calls the enhanced lookup, with
    the validated threshold and limit and both filters NULL, and, the
    function being there, makes no other call; its rows, the same as
    those of the basic lookup, are the ones the search records. No search
    ever passes a filter. With NULL filters the enhanced lookup is the
    basic lookup, rows and order; so a search whose enhanced lookup is out
    of order, served by the fallback, answers and stores what the search
    served by the enhanced lookup does. *)
Theorem enhanced_path_is_basic_path (E : Env) (formData : SearchForm) (w : World)
    (msg : string) :
  rpc_fault E fn_enhanced_similarity_search = None ->
  rpc_fault E fn_similarity_search = None ->
  (forall v q,
      parsed_search formData = Returned v ->
      embedQuery E (v_query v) = Returned q ->
      v_user_id v ∈ users (db w) ->
      let out := searchDocuments E formData w in
      rpc_log (snd out)
      = (rpc_log w
         ++ [call_enhanced_similarity_search q (v_user_id v)
               (v_similarity_threshold v) (v_max_results v) None None])%list
      /\ exists rows added,
           enhanced_similarity_search (cosine_distance E) (db w) q (v_user_id v)
             (v_similarity_threshold v) (v_max_results v) None None = SqlOk rows
           /\ similarity_search (cosine_distance E) (db w) q (v_user_id v)
                (v_similarity_threshold v) (v_max_results v) = SqlOk rows
           /\ search_results (db (snd out)) = (search_results (db w) ++ added)%list
           /\ List.map sr_chunk_id added = List.map row_chunk_id rows
           /\ List.map sr_similarity_score added = List.map row_similarity rows)
  /\ (forall E0 formData0 w0, exists calls,
      rpc_log (snd (searchDocuments E0 formData0 w0)) = (rpc_log w0 ++ calls)%list
      /\ Forall unfiltered calls)
  /\ (forall dist d q u thr n,
        enhanced_similarity_search dist d q u thr n None None
        = similarity_search dist d q u thr n)
  /\ fst (searchDocuments (without_enhanced E msg) formData w)
     = fst (searchDocuments E formData w)
  /\ db (snd (searchDocuments (without_enhanced E msg) formData w))
     = db (snd (searchDocuments E formData w)).
Proof.
  intros Hen Hba.
  assert (Hmain : forall v q,
            parsed_search formData = Returned v ->
            embedQuery E (v_query v) = Returned q ->
            v_user_id v ∈ users (db w) ->
            exists rows,
              similarity_search (cosine_distance E) (db w) q (v_user_id v)
                (v_similarity_threshold v) (v_max_results v) = SqlOk rows
              /\ rpc_log (snd (searchDocuments E formData w))
                 = (rpc_log w
                    ++ [call_enhanced_similarity_search q (v_user_id v)
                          (v_similarity_threshold v) (v_max_results v) None None])%list
              /\ search_results (db (snd (searchDocuments E formData w)))
                 = (search_results (db w)
                    ++ searchResultsToInsert (next_id (db w)) rows)%list
              /\ fst (searchDocuments (without_enhanced E msg) formData w)
                 = fst (searchDocuments E formData w)
              /\ db (snd (searchDocuments (without_enhanced E msg) formData w))
                 = db (snd (searchDocuments E formData w))).
  { intros v q Hp Hq Hu.
    pose proof (parsed_search_limit _ _ Hp) as Hlimit.
    pose proof (searchDocuments_start E formData w v q Hp Hq Hu) as Hrun.
    pose proof (searchDocuments_start (without_enhanced E msg) formData w v q Hp Hq Hu)
      as Hrun'.
    cbv zeta in Hrun, Hrun'.
    unfold try_catch at 1 in Hrun. unfold bind at 1 in Hrun.
    unfold try_catch at 1 in Hrun'. unfold bind at 1 in Hrun'.
    rewrite similarity_lookup_run in Hrun, Hrun'. cbv zeta in Hrun, Hrun'.
    set (d1 := db (with_db (with_clock_reads w (S (clock_reads w)))
                     (insert_search_query_row (db w) (new_query_row w v q)))) in *.
    set (enhanced := call_enhanced_similarity_search q (v_user_id v)
                       (v_similarity_threshold v) (v_max_results v) None None) in *.
    set (basic := call_similarity_search q (v_user_id v)
                    (v_similarity_threshold v) (v_max_results v)) in *.
    destruct (basic_lookup_available E d1 q (v_user_id v) (v_similarity_threshold v)
                (v_max_results v) Hba) as (rows & Hrows & Hresp); [lia|].
    fold basic in Hresp.
    assert (H1 : lookup_response E d1 enhanced
                 = {| rpc_data := Some rows; rpc_error := None |}).
    { unfold lookup_response, enhanced. simpl.
      rewrite Hen, enhanced_null_filters, Hrows. reflexivity. }
    assert (H2 : rpc_error (lookup_response (without_enhanced E msg) d1 enhanced)
                 = Some msg) by reflexivity.
    assert (H3 : lookup_response (without_enhanced E msg) d1 basic
                 = {| rpc_data := Some rows; rpc_error := None |}).
    { rewrite <- Hresp. unfold lookup_response, basic. simpl. rewrite Hba. reflexivity. }
    rewrite H1 in Hrun. rewrite H2, H3 in Hrun'.
    cbn [rpc_error rpc_data data_or_empty default from_option] in Hrun, Hrun'.
    unfold id, bind, Date_now, update_search_query, insert_search_results, ret, throw
      in Hrun, Hrun'.
    cbn [time_source without_enhanced set_rpc_fault] in Hrun'.
    rewrite (similarity_search_same_tables _ _ (db w)) in Hrows by reflexivity.
    exists rows. split; [exact Hrows|].
    rewrite Hrun, Hrun'.
    destruct rows as [|row rows];
      [cbn [SearchResponseSchema_ok forallb]|rewrite SearchResponseSchema_refuses];
      cbn [fst snd db with_db with_clock_reads with_rpc_log rpc_log
           search_queries search_results set_search_queries set_search_results
           insert_search_query_row];
      (split; [reflexivity|]);
      (split; [try reflexivity; symmetry; apply app_nil_r|]);
      split; reflexivity. }
  split.
  { intros v q Hp Hq Hu out.
    destruct (Hmain v q Hp Hq Hu) as (rows & Hrows & Hlog & Hres & _).
    split; [exact Hlog|].
    exists rows, (searchResultsToInsert (next_id (db w)) rows).
    split; [rewrite enhanced_null_filters; exact Hrows|].
    split; [exact Hrows|]. split; [exact Hres|].
    unfold searchResultsToInsert.
    split; apply list_eq; intros i; rewrite !list_lookup_fmap, list_lookup_imap;
      destruct (rows !! i); reflexivity. }
  split; [intros; apply searchDocuments_calls|].
  split; [intros; apply enhanced_null_filters|].
  destruct (searchDocuments_cases E formData w) as [(v & q & Hp & Hq & Hu)|Hno].
  - destruct (Hmain v q Hp Hq Hu) as (_ & _ & _ & _ & H4 & H5). split; assumption.
  - destruct (searchDocuments_refused E formData w Hno) as (e & n & _ & Hsame).
    rewrite (Hsame (without_enhanced E msg)) by reflexivity. split; reflexivity.
Qed.

(** ** Validation of an upload *)

Lemma validate_files_filter (selected : list File) :
  validate_files selected
  = (List.map too_large_alert (List.filter oversized selected),
     List.filter (fun f => negb (oversized f)) selected).
Proof.
  induction selected as [|f l IH]; simpl; [reflexivity|].
  rewrite IH. unfold oversized. destruct (maxSize <? file_size f)%N; reflexivity.
Qed.

(** C8, as the code has it. A request without files or without a user id
    is refused by [uploadDocuments] before anything is stored, created or
    started, with the message of the check that failed. The size limit is
    the file picker's: it raises an alert for every file above 10 MB and
    leaves it out of the request, which goes on with the other files. *)
Theorem upload_validation (E : Env) (formData : UploadForm) (w : World) :
  form_files formData = [] \/ truthy_str (form_userId formData) = false ->
  uploadDocuments E formData w
  = (Returned
       {| upload_success := false;
          upload_timestamp := time_source E (clock_reads w);
          upload_data := None;
          upload_error :=
            Some (if decide (form_files formData = [])
                  then "No files provided" else "User ID is required") |},
     with_clock_reads w (S (clock_reads w)))
  /\ rejected_untouched E formData w
  /\ (forall userId selected,
        handleFileSelect userId (Some selected) = picker_outcome userId selected).
Proof.
  intros Hbad.
  assert (Hrun : uploadDocuments E formData w
    = (Returned
         {| upload_success := false;
            upload_timestamp := time_source E (clock_reads w);
            upload_data := None;
            upload_error :=
              Some (if decide (form_files formData = [])
                    then "No files provided" else "User ID is required") |},
       with_clock_reads w (S (clock_reads w)))).
  { unfold uploadDocuments, try_catch, bind.
    destruct (decide (form_files formData = [])) as [Hnil|Hsome]; [reflexivity|].
    destruct Hbad as [Hnil|Hu]; [contradiction|].
    rewrite Hu. reflexivity. }
  split; [exact Hrun|]. split.
  - eexists _, _. split; [exact Hrun|]. repeat split.
  - intros userId selected. unfold handleFileSelect, picker_outcome, uploadFile.
    rewrite validate_files_filter.
    destruct (List.filter (fun f => negb (oversized f)) selected); [reflexivity|].
    destruct (truthy_str userId); [|reflexivity].
    rewrite app_nil_r. reflexivity.
Qed.

(** C8 as stated fails: a file above the size limit sent to
    [uploadDocuments] is stored, gets its row and its pipeline. *)
Lemma upload_oversized_not_rejected :
  ~ (forall E formData w, invalid_upload formData -> rejected_untouched E formData w).
Proof.
  intros H.
  destruct (H sample_env
              {| form_files := [EntryFile large_file];
                 form_userId := Some sample_user |}
              sample_world) as (resp & w' & Hrun & Hrej & _).
  - right. right. exists large_file. split; [left|reflexivity].
  - vm_compute in Hrun. injection Hrun as <- _. discriminate Hrej.
Qed.

(** ** The background pipelines *)

Lemma frame_refl w : frame w w.
Proof. split; reflexivity. Qed.

Lemma frame_trans w1 w2 w3 : frame w1 w2 -> frame w2 w3 -> frame w1 w3.
Proof.
  intros [H1 H2] [H3 H4]. split; [congruence|].
  intros i. rewrite H4. apply H2.
Qed.

Lemma silent_ret {A} (a : A) : silent (ret a).
Proof. intros w. apply frame_refl. Qed.

Lemma silent_throw {A} (e : Exn) : silent (@throw A e).
Proof. intros w. apply frame_refl. Qed.

Lemma silent_await {A} (o : Outcome A) : silent (await o).
Proof. intros w. apply frame_refl. Qed.

Lemma silent_bind {A B} (m : Action A) (k : A -> Action B) :
  silent m -> (forall a, silent (k a)) -> silent (bind m k).
Proof.
  intros Hm Hk w. unfold bind. specialize (Hm w).
  destruct (m w) as [[a|e] w1]; simpl in *; [|exact Hm].
  eapply frame_trans; [exact Hm|apply Hk].
Qed.

Lemma silent_try_catch {A} (m : Action A) (h : Exn -> Action A) :
  silent m -> (forall e, silent (h e)) -> silent (try_catch m h).
Proof.
  intros Hm Hh w. unfold try_catch. specialize (Hm w).
  destruct (m w) as [[a|e] w1]; simpl in *; [exact Hm|].
  eapply frame_trans; [exact Hm|apply Hh].
Qed.

Lemma silent_for_each {A} (f : A -> Action unit) (l : list A) :
  (forall a, silent (f a)) -> silent (for_each f l).
Proof.
  intros Hf. induction l as [|x l IH]; simpl; [apply silent_ret|].
  apply silent_bind; [apply Hf|intros _; exact IH].
Qed.

Lemma silent_Date_now E : silent (Date_now E).
Proof. intros w. split; reflexivity. Qed.

Lemma silent_select_document id : silent (select_document id).
Proof. intros w. apply frame_refl. Qed.

Lemma silent_insert_chunk id u i text md v t : silent (insert_chunk id u i text md v t).
Proof. intros w. split; reflexivity. Qed.

Lemma modulo_tags_set_auto_tags d a : modulo_tags (set_auto_tags d a) = modulo_tags d.
Proof. reflexivity. Qed.

Lemma silent_rpc E c : silent (rpc E c).
Proof.
  intros w. unfold rpc. destruct (rpc_fault E (rpc_name c)); [split; reflexivity|].
  destruct c as [q u thr n cts ts|q u thr n|d name conf source|d].
  - destruct (enhanced_similarity_search _ _ _ _ _ _ _ _); split; reflexivity.
  - destruct (similarity_search _ _ _ _ _ _); split; reflexivity.
  - rewrite add_document_tag_error. split; reflexivity.
  - split; [reflexivity|]. intros i. simpl. rewrite lookup_alter.
    destruct (decide (d = i)) as [->|Hne].
    + destruct (documents (db w) !! i); reflexivity.
    + reflexivity.
Qed.

Lemma chunk_rows_nil id i pieces : chunk_rows id i pieces false [].
Proof.
  exists 0%nat. repeat split; try reflexivity; [constructor|lia|discriminate].
Qed.

Lemma chunk_rows_cons id i piece pieces returned c rows :
  chunk_index c = i -> chunk_text c = piece -> chunk_document_id c = Some id ->
  chunk_rows id (S i) pieces returned rows ->
  chunk_rows id i (piece :: pieces) returned (c :: rows).
Proof.
  intros Hi Ht Hd (k & Hidx & Htxt & Hall & Hk & Hret).
  exists (S k). simpl. rewrite Hi, Ht, Hidx, Htxt.
  split; [reflexivity|]. split; [reflexivity|].
  split; [constructor; assumption|]. split; [lia|].
  intros H. rewrite (Hret H). reflexivity.
Qed.

Lemma embed_and_insert_run E id u md : forall chunks i w,
  let r := embed_and_insert E id u md i chunks w in
  frame w (snd r)
  /\ (exists rows,
        document_chunks (db (snd r)) = (document_chunks (db w) ++ rows)%list
        /\ chunk_rows id i (List.map fst chunks) (has_returned (fst r)) rows)
  /\ ((forall c, c ∈ chunks -> exists v, embedQuery E (fst c) = Returned v) ->
      fst r = Returned tt).
Proof.
  induction chunks as [|chunk rest IH]; intros i w; simpl.
  - split; [apply frame_refl|]. split; [|reflexivity].
    exists []. split; [symmetry; apply app_nil_r|].
    exists 0%nat. split; [reflexivity|]. split; [reflexivity|].
    split; [constructor|]. split; [simpl; lia|reflexivity].
  - unfold bind, await, select_document, Date_now, insert_chunk. cbv beta iota zeta.
    destruct (embedQuery E (fst chunk)) as [v|e] eqn:Hv.
    2:{ simpl. split; [apply frame_refl|]. split.
        - exists []. split; [symmetry; apply app_nil_r|apply chunk_rows_nil].
        - intros H. destruct (H chunk) as [v Hv']; [left|]. congruence. }
    set (w1 := with_db _ _).
    destruct (IH (S i) w1) as (Hf & (rows & Hrows & Hcr) & Hall).
    cbv zeta in Hf, Hrows, Hcr, Hall.
    split; [|split].
    + eapply frame_trans; [|exact Hf]. split; reflexivity.
    + eexists (_ :: rows). split.
      * rewrite Hrows. subst w1. simpl. rewrite <- app_assoc. reflexivity.
      * apply chunk_rows_cons; try reflexivity. exact Hcr.
    + intros H. apply Hall. intros c Hc. apply H. right. exact Hc.
Qed.

Lemma embed_and_insert_document_run E id : forall chunks i w,
  let r := embed_and_insert_document E id i chunks w in
  frame w (snd r)
  /\ (exists rows,
        document_chunks (db (snd r)) = (document_chunks (db w) ++ rows)%list
        /\ chunk_rows id i (List.map fst chunks) (has_returned (fst r)) rows)
  /\ ((forall c, c ∈ chunks -> exists v, embedQuery E (fst c) = Returned v) ->
      fst r = Returned tt).
Proof.
  induction chunks as [|chunk rest IH]; intros i w; simpl.
  - split; [apply frame_refl|]. split; [|reflexivity].
    exists []. split; [symmetry; apply app_nil_r|].
    exists 0%nat. split; [reflexivity|]. split; [reflexivity|].
    split; [constructor|]. split; [simpl; lia|reflexivity].
  - unfold bind, await, select_document, Date_now, insert_chunk. cbv beta iota zeta.
    destruct (embedQuery E (fst chunk)) as [v|e] eqn:Hv.
    2:{ simpl. split; [apply frame_refl|]. split.
        - exists []. split; [symmetry; apply app_nil_r|apply chunk_rows_nil].
        - intros H. destruct (H chunk) as [v Hv']; [left|]. congruence. }
    set (w1 := with_db _ _).
    destruct (IH (S i) w1) as (Hf & (rows & Hrows & Hcr) & Hall).
    cbv zeta in Hf, Hrows, Hcr, Hall.
    split; [|split].
    + eapply frame_trans; [|exact Hf]. split; reflexivity.
    + eexists (_ :: rows). split.
      * rewrite Hrows. subst w1. simpl. rewrite <- app_assoc. reflexivity.
      * apply chunk_rows_cons; try reflexivity. exact Hcr.
    + intros H. apply Hall. intros c Hc. apply H. right. exact Hc.
Qed.

Lemma createDocuments_texts E text md :
  List.map fst (createDocuments E text md) = List.map fst (textSplitter E text).
Proof.
  unfold createDocuments. rewrite List.map_map. reflexivity.
Qed.

(** [createChunksForDocument]: documents and history are left alone and
    the rows added are a prefix of the split, in order. *)
Lemma createChunksForDocument_run E id text md w :
  let r := createChunksForDocument E id text md w in
  frame w (snd r)
  /\ (exists rows,
        document_chunks (db (snd r)) = (document_chunks (db w) ++ rows)%list
        /\ chunk_rows id 0 (List.map fst (textSplitter E text))
             (has_returned (fst r)) rows)
  /\ (is_Some (documents (db w) !! id) ->
      (forall c, c ∈ textSplitter E text -> exists v, embedQuery E (fst c) = Returned v) ->
      fst r = Returned tt).
Proof.
  unfold createChunksForDocument, try_catch, bind, select_document.
  destruct (documents (db w) !! id) as [d|] eqn:Hd.
  - destruct (embed_and_insert_run E id (doc_user_id d) md
                (createDocuments E text md) 0 w) as (Hf & (rows & Hrows & Hcr) & Hall).
    rewrite createDocuments_texts in Hcr.
    destruct (embed_and_insert E id (doc_user_id d) md 0 (createDocuments E text md) w)
      as [[[]|e] w1] eqn:Hrun; simpl in *.
    + split; [exact Hf|]. split; [eauto|]. reflexivity.
    + split; [exact Hf|]. split; [eauto|]. intros _ H.
      assert (Thrown e = Returned tt); [|discriminate].
      apply Hall. intros c Hc. unfold createDocuments in Hc.
      apply list_elem_of_fmap in Hc as (c0 & -> & Hc0). simpl. apply H, Hc0.
  - simpl. split; [apply frame_refl|]. split.
    + exists []. split; [symmetry; apply app_nil_r|apply chunk_rows_nil].
    + intros [? [=]].
Qed.

Lemma keeps_chunks_ret {A} (a : A) : keeps_chunks (ret a).
Proof. intros w. reflexivity. Qed.

Lemma keeps_chunks_bind {A B} (m : Action A) (k : A -> Action B) :
  keeps_chunks m -> (forall a, keeps_chunks (k a)) -> keeps_chunks (bind m k).
Proof.
  intros Hm Hk w. unfold bind. specialize (Hm w).
  destruct (m w) as [[a|e] w1]; simpl in *; [|exact Hm].
  rewrite Hk. exact Hm.
Qed.

Lemma keeps_chunks_for_each {A} (f : A -> Action unit) (l : list A) :
  (forall a, keeps_chunks (f a)) -> keeps_chunks (for_each f l).
Proof.
  intros Hf. induction l as [|x l IH]; simpl; [apply keeps_chunks_ret|].
  apply keeps_chunks_bind; [apply Hf|intros _; exact IH].
Qed.

Lemma keeps_chunks_rpc E c : keeps_chunks (rpc E c).
Proof.
  intros w. unfold rpc. destruct (rpc_fault E (rpc_name c)); [reflexivity|].
  destruct c as [q u thr n cts ts|q u thr n|d name conf source|d].
  - destruct (enhanced_similarity_search _ _ _ _ _ _ _ _); reflexivity.
  - destruct (similarity_search _ _ _ _ _ _); reflexivity.
  - rewrite add_document_tag_error. reflexivity.
  - reflexivity.
Qed.

(** The tag steps of the image pipeline always return, write no status
    and add no chunk. *)
Lemma tag_steps_run E id a w :
  let m := add_vision_tags E id a ;;;
           add_category_tags E id a ;;;
           rpc E (call_update_document_auto_tags id) in
  exists r w', m w = (Returned r, w')
               /\ frame w w'
               /\ document_chunks (db w') = document_chunks (db w).
Proof.
  intros m.
  assert (Hret : forall (l : list string) (f : string -> Action unit) w0,
            (forall x w1, exists w2, f x w1 = (Returned tt, w2)) ->
            exists w2, for_each f l w0 = (Returned tt, w2)).
  { induction l as [|x l IH]; intros f w0 Hf; simpl; [eexists; reflexivity|].
    unfold bind. destruct (Hf x w0) as [w1 ->]. apply IH, Hf. }
  assert (Hrpc : forall c w1, exists r w2, rpc E c w1 = (Returned r, w2)).
  { intros c w1. unfold rpc. destruct (rpc_fault E (rpc_name c)); [eauto|].
    destruct c; repeat (match goal with
                        | |- context [match ?x with _ => _ end] => destruct x
                        end); eauto. }
  assert (Hv : exists w1, add_vision_tags E id a w = (Returned tt, w1)).
  { unfold add_vision_tags. destruct (an_tags a); [|eexists; reflexivity].
    apply Hret. intros x w1. destruct (1 <? String.length x)%nat; [|eexists; reflexivity].
    unfold bind. destruct (Hrpc (call_add_document_tag id (trim (toLowerCase x))
                                   (confidence_or_default a) "vision") w1)
      as (r & w2 & ->). eexists; reflexivity. }
  destruct Hv as [w1 Hv].
  assert (Hc : exists w2, add_category_tags E id a w1 = (Returned tt, w2)).
  { unfold add_category_tags. destruct (an_categories a); [|eexists; reflexivity].
    apply Hret. intros x w2. destruct (decide (x = "")); [eexists; reflexivity|].
    unfold bind. destruct (Hrpc (call_add_document_tag id (trim (toLowerCase x))
                                   (9 # 10) "vision") w2)
      as (r & w3 & ->). eexists; reflexivity. }
  destruct Hc as [w2 Hc].
  destruct (Hrpc (call_update_document_auto_tags id) w2) as (r & w3 & Hr).
  assert (Hs : silent m /\ keeps_chunks m).
  { subst m. split.
    - apply silent_bind; [|intros _; apply silent_bind; [|intros _; apply silent_rpc]].
      + unfold add_vision_tags. destruct (an_tags a); [|apply silent_ret].
        apply silent_for_each. intros x. destruct (1 <? String.length x)%nat;
          [|apply silent_ret].
        apply silent_bind; [apply silent_rpc|intros _; apply silent_ret].
      + unfold add_category_tags. destruct (an_categories a); [|apply silent_ret].
        apply silent_for_each. intros x. destruct (decide (x = ""));
          [apply silent_ret|].
        apply silent_bind; [apply silent_rpc|intros _; apply silent_ret].
    - apply keeps_chunks_bind;
        [|intros _; apply keeps_chunks_bind; [|intros _; apply keeps_chunks_rpc]].
      + unfold add_vision_tags. destruct (an_tags a); [|apply keeps_chunks_ret].
        apply keeps_chunks_for_each. intros x. destruct (1 <? String.length x)%nat;
          [|apply keeps_chunks_ret].
        apply keeps_chunks_bind; [apply keeps_chunks_rpc|intros _; apply keeps_chunks_ret].
      + unfold add_category_tags. destruct (an_categories a); [|apply keeps_chunks_ret].
        apply keeps_chunks_for_each. intros x. destruct (decide (x = ""));
          [apply keeps_chunks_ret|].
        apply keeps_chunks_bind; [apply keeps_chunks_rpc|intros _; apply keeps_chunks_ret]. }
  destruct Hs as [Hs Hk].
  assert (Hm : m w = (Returned r, w3)).
  { subst m. unfold bind. rewrite Hv, Hc. exact Hr. }
  exists r, w3. split; [exact Hm|].
  specialize (Hs w). specialize (Hk w). rewrite Hm in Hs, Hk. split; assumption.
Qed.

Lemma frame_lookup w w' id d :
  frame w w' -> documents (db w) !! id = Some d ->
  exists d', documents (db w') !! id = Some d' /\ modulo_tags d' = modulo_tags d.
Proof.
  intros [_ H] Hd. specialize (H id). rewrite Hd in H.
  destruct (documents (db w') !! id) as [d'|]; [|discriminate].
  exists d'. split; [reflexivity|]. apply (inj Some). exact H.
Qed.

Lemma modulo_tags_fields d d' :
  modulo_tags d' = modulo_tags d ->
  doc_status d' = doc_status d
  /\ doc_processed_at d' = doc_processed_at d
  /\ doc_confidence_score d' = doc_confidence_score d
  /\ doc_description d' = doc_description d
  /\ doc_image_analysis d' = doc_image_analysis d
  /\ doc_processing_error d' = doc_processing_error d.
Proof.
  intros H.
  pose proof (f_equal doc_status H). pose proof (f_equal doc_processed_at H).
  pose proof (f_equal doc_confidence_score H). pose proof (f_equal doc_description H).
  pose proof (f_equal doc_image_analysis H). pose proof (f_equal doc_processing_error H).
  simpl in *. repeat split; assumption.
Qed.

(** An update of a document that exists: its row after the update, the
    status written, nothing else touched. *)
Lemma update_document_run id l w d :
  documents (db w) !! id = Some d ->
  exists w',
    update_document id (patch l) w = (Returned tt, w')
    /\ documents (db w') !! id = Some (patch l d)
    /\ status_history w'
       = (status_history w
          ++ [{| sw_document := id; sw_status := doc_status (patch l d);
                 sw_processed_at := doc_processed_at (patch l d) |}])%list
    /\ document_chunks (db w') = document_chunks (db w).
Proof.
  intros Hd. unfold update_document. eexists. split; [reflexivity|].
  cbn [db with_db with_status_history status_history documents set_documents
       document_chunks].
  rewrite lookup_alter_eq, Hd. simpl. repeat split.
Qed.

Lemma history_entry_ok id s p :
  (is_Some p <-> s = processed) ->
  sw_document {| sw_document := id; sw_status := s; sw_processed_at := p |} = id
  /\ (is_Some (sw_processed_at {| sw_document := id; sw_status := s;
                                  sw_processed_at := p |})
      <-> sw_status {| sw_document := id; sw_status := s; sw_processed_at := p |}
          = processed).
Proof. intros H. split; [reflexivity|exact H]. Qed.

Lemma not_processed_iff (s : Status) :
  s <> processed -> (is_Some (@None Timestamp) <-> s = processed).
Proof. intros H. split; [intros [? [=]]|contradiction]. Qed.

Lemma processed_iff (t : Timestamp) : is_Some (Some t) <-> processed = processed.
Proof. split; eauto. Qed.

Lemma processTextFileAsync_outcome E id file w d :
  documents (db w) !! id = Some d ->
  doc_status d = uploaded -> doc_processed_at d = None ->
  pipeline_outcome E id w (snd (processTextFileAsync E id file w)).
Proof.
  intros Hd Hs Hp. unfold processTextFileAsync, try_catch, bind.
  destruct (update_document_run id [set_status processing] w d Hd)
    as (w1 & -> & Hd1 & Hh1 & Hc1).
  destruct (update_document_run id
              [set_extracted_text (file_text file); set_content_type "text";
               set_status chunking; set_word_count (split_ws_length (file_text file));
               set_character_count (String.length (file_text file))] w1 _ Hd1)
    as (w2 & -> & Hd2 & Hh2 & Hc2).
  destruct (createChunksForDocument_run E id (file_text file)
              [("type", "text"); ("filename", file_name file)] w2)
    as (Hf & (rows & Hrows & Hcr) & _).
  destruct (createChunksForDocument E id (file_text file) _ w2) as [[[]|e] w3];
    cbn [fst snd has_returned] in *;
    destruct (frame_lookup _ _ _ _ Hf Hd2) as (d3 & Hd3 & Hm3);
    apply modulo_tags_fields in Hm3 as (Hs3 & Hp3 & _);
    cbn in Hs3, Hp3; rewrite Hp in Hp3.
  - unfold Date_now.
    destruct (update_document_run id
                [set_status processed; set_processed_at (time_source E (clock_reads w3))]
                (with_clock_reads w3 (S (clock_reads w3))) d3 Hd3)
      as (w4 & -> & Hd4 & Hh4 & Hc4).
    cbn [snd]. eexists _, rows, _, (file_text file).
    split.
    { rewrite Hh4. cbn [status_history with_clock_reads].
      rewrite (frame_history _ _ Hf), Hh2, Hh1, <- !app_assoc. reflexivity. }
    cbn. rewrite Hp.
    split.
    { split; [|reflexivity].
      repeat (constructor; [apply history_entry_ok;
                            first [apply processed_iff
                                  |apply not_processed_iff; discriminate]|]).
      constructor. }
    split; [exact Hd4|]. cbn.
    split; [reflexivity|]. split; [left; reflexivity|]. split; [apply processed_iff|].
    split; [rewrite Hc4; cbn; rewrite Hrows, Hc2, Hc1; reflexivity|].
    exact Hcr.
  - destruct (update_document_run id
                [set_status error;
                 set_processing_error (message_or e "Text processing failed")]
                w3 d3 Hd3)
      as (w4 & -> & Hd4 & Hh4 & Hc4).
    cbn [snd]. eexists _, rows, _, (file_text file).
    split.
    { rewrite Hh4, (frame_history _ _ Hf), Hh2, Hh1, <- !app_assoc. reflexivity. }
    cbn. rewrite Hp, Hp3.
    split.
    { split; [|reflexivity].
      repeat (constructor; [apply history_entry_ok;
                            first [apply processed_iff
                                  |apply not_processed_iff; discriminate]|]).
      constructor. }
    split; [exact Hd4|]. cbn.
    split; [reflexivity|]. split; [right; reflexivity|].
    split; [rewrite Hp3; apply not_processed_iff; discriminate|].
    split; [rewrite Hc4, Hrows, Hc2, Hc1; reflexivity|].
    exact Hcr.
Qed.

Lemma tag_steps_then E id a w :
  exists w',
    frame w w'
    /\ document_chunks (db w') = document_chunks (db w)
    /\ forall B (k : Action B),
         (add_vision_tags E id a ;;;
          add_category_tags E id a ;;;
          rpc E (call_update_document_auto_tags id) ;;;
          k) w = k w'.
Proof.
  destruct (tag_steps_run E id a w) as (r & w' & Hm & Hf & Hc).
  exists w'. split; [exact Hf|]. split; [exact Hc|].
  intros B k. cbv zeta in Hm. unfold bind in *.
  destruct (add_vision_tags E id a w) as [[[]|e1] w1]; [|discriminate].
  destruct (add_category_tags E id a w1) as [[[]|e2] w2]; [|discriminate].
  rewrite Hm. reflexivity.
Qed.

Ltac history_ok :=
  split; [|reflexivity];
  repeat (constructor; [apply history_entry_ok;
                        first [apply processed_iff
                              |apply not_processed_iff; discriminate]|]);
  constructor.

Lemma processDocumentAsync_outcome E id file w d :
  documents (db w) !! id = Some d ->
  doc_status d = uploaded -> doc_processed_at d = None ->
  pipeline_outcome E id w (snd (processDocumentAsync E id file w)).
Proof.
  intros Hd Hs Hp. unfold processDocumentAsync, try_catch, bind.
  destruct (update_document_run id [set_status processing] w d Hd)
    as (w1 & -> & Hd1 & Hh1 & Hc1).
  unfold await at 1.
  destruct (extractTextFromFile file) as [text|e].
  2:{ destruct (update_document_run id
                  [set_status error; set_processing_error (message_or e "Processing failed")]
                  w1 _ Hd1) as (w2 & -> & Hd2 & Hh2 & Hc2).
      cbn [snd]. eexists _, [], _, "".
      split; [rewrite Hh2, Hh1, <- !app_assoc; reflexivity|].
      cbn. rewrite Hp.
      split; [history_ok|]. split; [exact Hd2|]. cbn.
      split; [reflexivity|]. split; [right; reflexivity|].
      split; [rewrite Hp; apply not_processed_iff; discriminate|].
      split; [rewrite Hc2, Hc1; symmetry; apply app_nil_r|apply chunk_rows_nil]. }
  destruct (update_document_run id
              [set_extracted_text text; set_content_type "document";
               set_status chunking; set_word_count (split_ws_length text);
               set_character_count (String.length text)] w1 _ Hd1)
    as (w2 & -> & Hd2 & Hh2 & Hc2).
  destruct (update_document_run id [set_status embedding] w2 _ Hd2)
    as (w3 & -> & Hd3 & Hh3 & Hc3).
  set (md := [("document_id", pretty id); ("filename", file_name file);
              ("file_type", file_type file)]).
  destruct (embed_and_insert_document_run E id (createDocuments E text md) 0 w3)
    as (Hf & (rows & Hrows & Hcr) & _).
  rewrite createDocuments_texts in Hcr.
  destruct (embed_and_insert_document E id 0 (createDocuments E text md) w3)
    as [[[]|e] w4];
    cbn [fst snd has_returned] in *;
    destruct (frame_lookup _ _ _ _ Hf Hd3) as (d4 & Hd4 & Hm4);
    apply modulo_tags_fields in Hm4 as (Hs4 & Hp4 & _);
    cbn in Hs4, Hp4; rewrite Hp in Hp4.
  - unfold generateDocumentSummary, await.
    destruct (summaryInvoke E (substring0 4000 text)) as [summary|e].
    + unfold Date_now.
      destruct (update_document_run id
                  [set_status processed; set_title (sum_title summary);
                   set_description (sum_summary summary);
                   set_processed_at (time_source E (clock_reads w4));
                   set_processing_metadata
                     (MetaSummary summary (length (createDocuments E text md)))]
                  (with_clock_reads w4 (S (clock_reads w4))) d4 Hd4)
        as (w5 & -> & Hd5 & Hh5 & Hc5).
      cbn [snd]. eexists _, rows, _, text.
      split.
      { rewrite Hh5. cbn [status_history with_clock_reads].
        rewrite (frame_history _ _ Hf), Hh3, Hh2, Hh1, <- !app_assoc. reflexivity. }
      cbn. rewrite Hp.
      split; [history_ok|]. split; [exact Hd5|]. cbn.
      split; [reflexivity|]. split; [left; reflexivity|]. split; [apply processed_iff|].
      split; [rewrite Hc5; cbn; rewrite Hrows, Hc3, Hc2, Hc1; reflexivity|].
      exact Hcr.
    + destruct (update_document_run id
                  [set_status error; set_processing_error (message_or e "Processing failed")]
                  w4 d4 Hd4) as (w5 & -> & Hd5 & Hh5 & Hc5).
      cbn [snd]. eexists _, rows, _, text.
      split.
      { rewrite Hh5, (frame_history _ _ Hf), Hh3, Hh2, Hh1, <- !app_assoc. reflexivity. }
      cbn. rewrite Hp, Hp4.
      split; [history_ok|]. split; [exact Hd5|]. cbn.
      split; [reflexivity|]. split; [right; reflexivity|].
      split; [rewrite Hp4; apply not_processed_iff; discriminate|].
      split; [rewrite Hc5, Hrows, Hc3, Hc2, Hc1; reflexivity|].
      destruct Hcr as (k & H1 & H2 & H3 & H4 & _).
      exists k. repeat split; try assumption. discriminate.
  - destruct (update_document_run id
                [set_status error; set_processing_error (message_or e "Processing failed")]
                w4 d4 Hd4) as (w5 & -> & Hd5 & Hh5 & Hc5).
    cbn [snd]. eexists _, rows, _, text.
    split.
    { rewrite Hh5, (frame_history _ _ Hf), Hh3, Hh2, Hh1, <- !app_assoc. reflexivity. }
    cbn. rewrite Hp, Hp4.
    split; [history_ok|]. split; [exact Hd5|]. cbn.
    split; [reflexivity|]. split; [right; reflexivity|].
    split; [rewrite Hp4; apply not_processed_iff; discriminate|].
    split; [rewrite Hc5, Hrows, Hc3, Hc2, Hc1; reflexivity|].
    exact Hcr.
Qed.

Lemma processImageAsync_outcome E id url w d :
  documents (db w) !! id = Some d ->
  doc_status d = uploaded -> doc_processed_at d = None ->
  pipeline_outcome E id w (snd (processImageAsync E id url w)).
Proof.
  intros Hd Hs Hp. unfold processImageAsync, try_catch. unfold bind at 1.
  destruct (update_document_run id [set_status processing] w d Hd)
    as (w1 & -> & Hd1 & Hh1 & Hc1).
  unfold bind at 1. unfold await at 1.
  destruct (visionInvoke E url) as [text|e].
  2:{ destruct (update_document_run id
                  [set_status error;
                   set_processing_error (message_or e "Enhanced image processing failed")]
                  w1 _ Hd1) as (w2 & -> & Hd2 & Hh2 & Hc2).
      cbn [snd]. eexists _, [], _, "".
      split; [rewrite Hh2, Hh1, <- !app_assoc; reflexivity|].
      cbn. rewrite Hp.
      split; [history_ok|]. split; [exact Hd2|]. cbn.
      split; [reflexivity|]. split; [right; reflexivity|].
      split; [rewrite Hp; apply not_processed_iff; discriminate|].
      split; [rewrite Hc2, Hc1; symmetry; apply app_nil_r|apply chunk_rows_nil]. }
  cbv zeta. set (a := parse_analysis E text).
  unfold bind at 1. unfold Date_now at 1.
  unfold bind at 1.
  match goal with
  | |- context [update_document id (patch ?l) (with_clock_reads w1 ?n)] =>
      destruct (update_document_run id l (with_clock_reads w1 n) _ Hd1)
        as (w2 & -> & Hd2 & Hh2 & Hc2)
  end.
  destruct (tag_steps_then E id a w2) as (w3 & Hf3 & Hc3 & ->).
  destruct (frame_lookup _ _ _ _ Hf3 Hd2) as (d3 & Hd3 & Hm3).
  unfold bind at 1.
  destruct (createChunksForDocument_run E id (searchable_content a)
              (image_metadata a) w3) as (Hf & (rows & Hrows & Hcr) & _).
  destruct (createChunksForDocument E id (searchable_content a) _ w3) as [[[]|e] w4];
    cbn [fst snd has_returned] in *;
    destruct (frame_lookup _ _ _ _ Hf Hd3) as (d4 & Hd4 & Hm4);
    rewrite Hm3 in Hm4;
    apply modulo_tags_fields in Hm4 as (Hs4 & Hp4 & _);
    cbn in Hs4, Hp4; rewrite Hp in Hp4.
  - unfold bind, Date_now.
    destruct (update_document_run id
                [set_status processed; set_processed_at (time_source E (clock_reads w4))]
                (with_clock_reads w4 (S (clock_reads w4))) d4 Hd4)
      as (w5 & -> & Hd5 & Hh5 & Hc5).
    cbn [snd]. eexists _, rows, _, (searchable_content a).
    split.
    { rewrite Hh5. cbn [status_history with_clock_reads].
      rewrite (frame_history _ _ Hf), (frame_history _ _ Hf3), Hh2.
      cbn [status_history with_clock_reads]. rewrite Hh1, <- !app_assoc. reflexivity. }
    cbn. rewrite Hp.
    split; [history_ok|]. split; [exact Hd5|]. cbn.
    split; [reflexivity|]. split; [left; reflexivity|]. split; [apply processed_iff|].
    split; [rewrite Hc5; cbn; rewrite Hrows, Hc3, Hc2; cbn; rewrite Hc1; reflexivity|].
    exact Hcr.
  - destruct (update_document_run id
                [set_status error;
                 set_processing_error (message_or e "Enhanced image processing failed")]
                w4 d4 Hd4) as (w5 & -> & Hd5 & Hh5 & Hc5).
    cbn [snd]. eexists _, rows, _, (searchable_content a).
    split.
    { rewrite Hh5, (frame_history _ _ Hf), (frame_history _ _ Hf3), Hh2.
      cbn [status_history with_clock_reads]. rewrite Hh1, <- !app_assoc. reflexivity. }
    cbn. rewrite Hp, Hp4.
    split; [history_ok|]. split; [exact Hd5|]. cbn.
    split; [reflexivity|]. split; [right; reflexivity|].
    split; [rewrite Hp4; apply not_processed_iff; discriminate|].
    split; [rewrite Hc5, Hrows, Hc3, Hc2; cbn; rewrite Hc1; reflexivity|].
    exact Hcr.
Qed.

Lemma run_task_outcome E t w d :
  documents (db w) !! task_document t = Some d ->
  doc_status d = uploaded -> doc_processed_at d = None ->
  pipeline_outcome E (task_document t) w (snd (run_task E t w)).
Proof.
  destruct t as [id url|id file|id file]; simpl; intros Hd Hs Hp.
  - eapply processImageAsync_outcome; eassumption.
  - eapply processTextFileAsync_outcome; eassumption.
  - eapply processDocumentAsync_outcome; eassumption.
Qed.

(** C1. The statuses a pipeline writes for its document, from [uploaded]
    on, follow the path uploaded, processing, chunking or embedding, ...,
    processed, or jump to error from a state that is not final; no step
    leaves [processed] or [error]; [processed_at] is set exactly in the
    writes, and in the final row, whose status is [processed]; and the run
    ends in one of the two final states. *)
Theorem status_follows_pipeline (E : Env) (t : Task) (w : World) (d : Document) :
  documents (db w) !! task_document t = Some d ->
  doc_status d = uploaded ->
  doc_processed_at d = None ->
  let w' := snd (run_task E t w) in
  (exists writes d',
      status_history w' = (status_history w ++ writes)%list
      /\ Forall (fun x => sw_document x = task_document t
                          /\ (is_Some (sw_processed_at x) <-> sw_status x = processed))
           writes
      /\ follows_path uploaded (List.map sw_status writes) = true
      /\ documents (db w') !! task_document t = Some d'
      /\ last (List.map sw_status writes) = Some (doc_status d')
      /\ (doc_status d' = processed \/ doc_status d' = error)
      /\ (is_Some (doc_processed_at d') <-> doc_status d' = processed))
  /\ (forall s, transitionb processed s = false /\ transitionb error s = false).
Proof.
  intros Hd Hs Hp w'. split; [|intros s; split; reflexivity].
  destruct (run_task_outcome E t w d Hd Hs Hp)
    as (writes & rows & d' & text & H1 & [H2 H3] & H4 & H5 & H6 & H7 & _).
  exists writes, d'. repeat split; try assumption; apply H7.
Qed.

Lemma filter_own_chunks id (rows : list Chunk) :
  Forall (fun c => chunk_document_id c = Some id) rows ->
  List.filter (fun c => bool_decide (chunk_document_id c = Some id)) rows = rows.
Proof.
  induction 1 as [|c rows Hc _ IH]; simpl; [reflexivity|].
  rewrite bool_decide_eq_true_2 by exact Hc. f_equal. exact IH.
Qed.

(** C4. The chunks a pipeline persists for its document carry the indexes
    0, 1, ..., k-1 in the order of the table, their texts are the first
    [k] pieces of the splitter in its order, and they are all the pieces
    when the document ends [processed]. *)
Theorem chunk_indexes_contiguous (E : Env) (t : Task) (w : World) (d : Document) :
  documents (db w) !! task_document t = Some d ->
  doc_status d = uploaded ->
  doc_processed_at d = None ->
  chunks_of (task_document t) (db w) = [] ->
  let w' := snd (run_task E t w) in
  exists text k,
    List.map chunk_index (chunks_of (task_document t) (db w')) = seq 0 k
    /\ List.map chunk_text (chunks_of (task_document t) (db w'))
       = take k (List.map fst (textSplitter E text))
    /\ document_chunks (db w')
       = (document_chunks (db w) ++ chunks_of (task_document t) (db w'))%list
    /\ (forall d', documents (db w') !! task_document t = Some d' ->
        doc_status d' = processed -> k = length (textSplitter E text)).
Proof.
  intros Hd Hs Hp Hnone w'.
  destruct (run_task_outcome E t w d Hd Hs Hp)
    as (writes & rows & d' & text & _ & _ & H4 & _ & _ & _ & H8 & H9).
  destruct H9 as (k & Hidx & Htxt & Hown & Hk & Hall).
  assert (Hmine : chunks_of (task_document t) (db w') = rows).
  { unfold chunks_of in *. subst w'. rewrite H8, List.filter_app, Hnone.
    apply filter_own_chunks, Hown. }
  exists text, k. rewrite Hmine.
  split; [exact Hidx|]. split; [exact Htxt|]. split; [exact H8|].
  intros d'' Hd'' Hproc. subst w'. rewrite H4 in Hd''. injection Hd'' as <-.
  rewrite <- (List.length_map fst). apply Hall. apply bool_decide_eq_true, Hproc.
Qed.



(** ** The properties on the sample data *)



Lemma threshold_antitone_witness :
  (row_count (similarity_search (cosine_distance sample_env) tagged_db [11%Q; 1%Q]
                sample_user (8 # 10) 10)
   <= row_count (similarity_search (cosine_distance sample_env) tagged_db [11%Q; 1%Q]
                   sample_user (1 # 2) 10))%nat.
Proof.
  apply (threshold_antitone (cosine_distance sample_env) tagged_db [11%Q; 1%Q]
           sample_user (1 # 2) (8 # 10) 10 None None).
  discriminate.
Defined.

Lemma status_follows_pipeline_witness :
  exists writes d',
    status_history (snd (run_task sample_env (TextTask 1 text_file)
                           (world_with (fresh_document 1 text_file))))
    = writes
    /\ List.map sw_status writes = [processing; chunking; processed]
    /\ follows_path uploaded (List.map sw_status writes) = true
    /\ documents (db (snd (run_task sample_env (TextTask 1 text_file)
                             (world_with (fresh_document 1 text_file))))) !! 1%nat
       = Some d'
    /\ doc_status d' = processed.
Proof.
  destruct (status_follows_pipeline sample_env (TextTask 1 text_file)
              (world_with (fresh_document 1 text_file)) (fresh_document 1 text_file))
    as [(writes & d' & H1 & _ & H3 & H4 & H5 & _) _].
  - reflexivity.
  - reflexivity.
  - reflexivity.
  - exists writes, d'.
    assert (Hw : writes
                 = status_history
                     (snd (run_task sample_env (TextTask 1 text_file)
                             (world_with (fresh_document 1 text_file)))))
      by (symmetry; exact H1).
    subst writes.
    split; [reflexivity|]. split; [reflexivity|]. split; [exact H3|].
    split; [exact H4|].
    assert (Hl : last (List.map sw_status
                         (status_history
                            (snd (run_task sample_env (TextTask 1 text_file)
                                    (world_with (fresh_document 1 text_file))))))
                 = Some processed) by reflexivity.
    rewrite Hl in H5. congruence.
Defined.

Lemma chunk_indexes_contiguous_witness :
  exists text k,
    List.map chunk_index
      (chunks_of 1 (db (snd (run_task sample_env (TextTask 1 text_file)
                               (world_with (fresh_document 1 text_file))))))
    = seq 0 k
    /\ List.map chunk_text
         (chunks_of 1 (db (snd (run_task sample_env (TextTask 1 text_file)
                                  (world_with (fresh_document 1 text_file))))))
       = take k (List.map fst (textSplitter sample_env text)).
Proof.
  destruct (chunk_indexes_contiguous sample_env (TextTask 1 text_file)
              (world_with (fresh_document 1 text_file)) (fresh_document 1 text_file))
    as (text & k & H1 & H2 & _).
  - reflexivity.
  - reflexivity.
  - reflexivity.
  - reflexivity.
  - exists text, k. split; assumption.
Defined.


Lemma search_falls_back_witness :
  let w := {| db := tagged_db; bucket := ∅; dispatched := [];
              clock_reads := 0; rpc_log := []; status_history := [] |} in
  let out := searchDocuments (without_enhanced sample_env "function not found")
               sample_search w in
  exists rows ts issues,
    similarity_search (cosine_distance sample_env) tagged_db [11%Q; 1%Q] sample_user
      (1 # 2) 5 = SqlOk rows
    /\ List.map row_chunk_id rows = [2; 3]%nat
    /\ List.map sr_chunk_id (search_results (db (snd out))) = [2; 3]%nat
    /\ option_map sq_results_count (last (search_queries (db (snd out)))) = Some 2%nat
    /\ fst out
       = Returned {| search_success := false; search_timestamp := ts;
                     search_data := None;
                     search_error := Some issues |}.
Proof.
  intros w out.
  destruct (search_falls_back (without_enhanced sample_env "function not found")
              sample_search w sample_validated [11%Q; 1%Q] "function not found")
    as (_ & _ & H).
  - reflexivity.
  - reflexivity.
  - vm_compute. reflexivity.
  - reflexivity.
  - destruct (H eq_refl) as (rows & query & added & H1 & H2 & _ & H4 & H5 & _ & _ & _ & H9).
    destruct H9 as (ts & issues & Hts).
    { intros ->. vm_compute in H1. discriminate H1. }
    exists rows, ts, issues. split; [exact H1|].
    split; [vm_compute in H1; injection H1 as <-; reflexivity|].
    split; [reflexivity|].
    split; [reflexivity|].
    exact Hts.
Defined.

Lemma enhanced_path_is_basic_path_witness :
  let w := {| db := tagged_db; bucket := ∅; dispatched := [];
              clock_reads := 0; rpc_log := []; status_history := [] |} in
  rpc_log (snd (searchDocuments sample_env sample_search w))
  = [call_enhanced_similarity_search [11%Q; 1%Q] sample_user (1 # 2) 5 None None]
  /\ fst (searchDocuments (without_enhanced sample_env "function not found")
            sample_search w)
     = fst (searchDocuments sample_env sample_search w).
Proof.
  intros w.
  destruct (enhanced_path_is_basic_path sample_env sample_search w
              "function not found") as (H1 & _ & _ & H4 & _); [reflexivity|reflexivity|].
  split; [|exact H4].
  destruct (H1 sample_validated [11%Q; 1%Q]) as [Hlog _];
    [reflexivity|reflexivity|vm_compute; reflexivity|].
  exact Hlog.
Defined.

Lemma upload_validation_witness :
  uploadDocuments sample_env {| form_files := []; form_userId := Some sample_user |}
    sample_world
  = (Returned {| upload_success := false; upload_timestamp := 1000;
                 upload_data := None; upload_error := Some "No files provided" |},
     with_clock_reads sample_world 1).
Proof.
  apply (upload_validation sample_env
           {| form_files := []; form_userId := Some sample_user |} sample_world).
  left. reflexivity.
Defined.

Lemma sample_world_fresh : ids_fresh (db sample_world).
Proof. intros i [x Hx]. simpl in Hx. rewrite lookup_empty in Hx. discriminate. Qed.

Lemma upload_returns_first_document_witness :
  exists first docs,
    length docs = 2%nat
    /\ head docs = Some first
    /\ doc_original_filename first = "hello.txt"
    /\ upload_data (returned_or no_response
                      (fst (uploadDocuments sample_env sample_upload sample_world)))
       = Some {| upload_document := Some first; upload_processing_started := true |}
    /\ length (dispatched (snd (uploadDocuments sample_env sample_upload sample_world)))
       = 2%nat.
Proof.
  destruct (upload_returns_first_document sample_env sample_upload sample_world
              (snd (uploadDocuments sample_env sample_upload sample_world))
              (returned_or no_response
                 (fst (uploadDocuments sample_env sample_upload sample_world))))
    as (first & docs & H1 & _ & _ & H4 & H5 & H6 & _).
  - exact sample_world_fresh.
  - discriminate.
  - vm_compute. reflexivity.
  - vm_compute. reflexivity.
  - exists first, docs.
    pose proof (Forall2_length _ _ _ H1) as Hlen.
    split; [symmetry; exact Hlen|]. split; [exact H5|].
    split.
    { destruct docs as [|x docs]; [discriminate|]. injection H5 as ->.
      apply Forall2_cons_1 in H1 as [(_ & H & _) _]. exact H. }
    split; [exact H6|].
    rewrite H4, length_app, length_zip_with, <- Hlen. reflexivity.
Defined.

(** * Further properties of the code *)

(** ** Tag functions *)

Lemma find_tag_app_new (l : list Tag) (t : Tag) (n : string) :
  List.find (fun x => bool_decide (tag_name x = n)) l = None -> tag_name t = n ->
  List.find (fun x => bool_decide (tag_name x = n)) (l ++ [t]) = Some t.
Proof.
  induction l as [|x l IH]; simpl; intros Hnone Hn.
  - rewrite bool_decide_eq_true_2 by exact Hn. reflexivity.
  - destruct (bool_decide (tag_name x = n)); [discriminate|]. apply IH; assumption.
Qed.

(** Looking a name up again, in any letter case, gives the tag the first
    call found or created and leaves the store as that call left it. *)
Theorem get_or_create_tag_again (db : Database) (name name' : string)
    (c d c' d' : option string) :
  LOWER name' = LOWER name ->
  get_or_create_tag (snd (get_or_create_tag db name c d)) name' c' d'
  = get_or_create_tag db name c d.
Proof.
  intros Hl. unfold get_or_create_tag at 2 3.
  destruct (List.find _ (tags db)) as [t|] eqn:Hf; simpl.
  - unfold get_or_create_tag. rewrite Hl, Hf. reflexivity.
  - unfold get_or_create_tag. simpl. rewrite Hl.
    erewrite find_tag_app_new; [reflexivity|exact Hf|reflexivity].
Qed.

(** A call of [add_document_tag] through the store's API writes
    nothing: the caller is handed an error, the one of the function when
    it is there to run, and the store is as before: no tag is created and
    no tag row is inserted or merged; only the call is logged. *)
Theorem add_document_tag_never_writes (E : Env) (w : World) (doc : nat)
    (name : string) (conf : Q) (source : string) :
  let call := call_add_document_tag doc name conf source in
  (exists msg,
      rpc E call w
      = (Returned {| rpc_data := None; rpc_error := Some msg |},
         with_rpc_log w (rpc_log w ++ [call])))
  /\ db (snd (rpc E call w)) = db w
  /\ db (snd (rpc E call (snd (rpc E call w)))) = db w.
Proof.
  assert (H : forall w0,
            exists msg,
              rpc E (call_add_document_tag doc name conf source) w0
              = (Returned {| rpc_data := None; rpc_error := Some msg |},
                 with_rpc_log w0
                   (rpc_log w0 ++ [call_add_document_tag doc name conf source]))).
  { intros w0. unfold rpc. cbn [rpc_name].
    destruct (rpc_fault E fn_add_document_tag); [eexists; reflexivity|].
    rewrite add_document_tag_error. eexists; reflexivity. }
  cbv zeta. split; [apply H|].
  destruct (H w) as [m1 H1]. rewrite H1. cbn [snd].
  destruct (H (with_rpc_log w (rpc_log w ++ [call_add_document_tag doc name conf source])))
    as [m2 H2].
  rewrite H2. split; reflexivity.
Qed.

Lemma get_or_create_tag_again_witness :
  get_or_create_tag (snd (get_or_create_tag tagged_db "Bird" None None)) "BIRD" None None
  = get_or_create_tag tagged_db "Bird" None None.
Proof.
  apply (get_or_create_tag_again tagged_db "Bird" "BIRD"). reflexivity.
Defined.

Global Instance more_confident_total : Total more_confident.
Proof.
  intros a b. unfold more_confident.
  destruct (Qlt_le_dec (dt_confidence (fst a)) (dt_confidence (fst b))) as [H|H];
    [right; apply Qlt_le_weak, H|left; exact H].
Qed.

Global Instance more_confident_trans : Transitive more_confident.
Proof.
  intros a b c. unfold more_confident. intros H1 H2. eapply Qle_trans; eassumption.
Qed.

Lemma document_tag_rows_spec (db : Database) (doc : nat) (r : DocumentTag * Tag) :
  r ∈ document_tag_rows db doc
  <-> fst r ∈ document_tags db /\ snd r ∈ tags db
      /\ dt_tag_id (fst r) = tag_id (snd r)
      /\ dt_document_id (fst r) = doc
      /\ (3 # 10 <= dt_confidence (fst r))%Q.
Proof.
  unfold document_tag_rows.
  rewrite list_elem_of_In, List.filter_In, List.in_flat_map, andb_true_iff,
    bool_decide_eq_true, Qle_bool_iff.
  split.
  - intros [(dt & Hdt & Hin) [Hd Hc]].
    apply List.in_map_iff in Hin as (t & <- & Ht).
    apply List.filter_In in Ht as [Ht Hid]. apply bool_decide_eq_true in Hid.
    simpl in *. rewrite !list_elem_of_In. auto.
  - intros (Hdt & Ht & Hid & Hd & Hc). split; [|auto].
    exists (fst r). split; [apply list_elem_of_In, Hdt|].
    apply List.in_map_iff. exists (snd r). split; [destruct r; reflexivity|].
    apply List.filter_In. split; [apply list_elem_of_In, Ht|].
    apply bool_decide_eq_true, Hid.
Qed.

(** [update_document_auto_tags] rewrites the [auto_tags] of one document
    and nothing else: the new value lists the names of the tags attached to
    it with confidence at least 0.3, most confident first, and is NULL when
    there is none. *)
Theorem update_document_auto_tags_result (db : Database) (doc : nat) (d : Document) :
  documents db !! doc = Some d ->
  let db' := update_document_auto_tags db doc in
  exists rows,
    documents db' !! doc
    = Some (set_auto_tags d (ARRAY_AGG (List.map (fun r => tag_name (snd r)) rows)))
    /\ StronglySorted more_confident rows
    /\ (forall r, r ∈ rows
          <-> fst r ∈ document_tags db /\ snd r ∈ tags db
              /\ dt_tag_id (fst r) = tag_id (snd r)
              /\ dt_document_id (fst r) = doc
              /\ (3 # 10 <= dt_confidence (fst r))%Q)
    /\ (forall i, i <> doc -> documents db' !! i = documents db !! i)
    /\ tags db' = tags db
    /\ document_tags db' = document_tags db
    /\ document_chunks db' = document_chunks db.
Proof.
  intros Hd db'. exists (merge_sort more_confident (document_tag_rows db doc)).
  split.
  { subst db'. unfold update_document_auto_tags. simpl.
    rewrite lookup_alter_eq, Hd. reflexivity. }
  split; [apply (StronglySorted_merge_sort _)|].
  split.
  { intros r. rewrite merge_sort_Permutation. apply document_tag_rows_spec. }
  split.
  { intros i Hi. subst db'. unfold update_document_auto_tags. simpl.
    apply lookup_alter_ne. auto. }
  repeat split.
Qed.

Lemma update_document_auto_tags_result_witness :
  documents (update_document_auto_tags tagged_db 1) !! 1%nat
  = Some (set_auto_tags (fresh_document 1 text_file) (Some ["cat"])).
Proof.
  destruct (update_document_auto_tags_result tagged_db 1 (fresh_document 1 text_file))
    as (rows & H & _); [reflexivity|].
  reflexivity.
Defined.

(** A document that does not exist: [update_document_auto_tags] leaves
    the whole store as it is. *)
Lemma update_document_auto_tags_missing (db : Database) (doc : nat) :
  documents db !! doc = None -> update_document_auto_tags db doc = db.
Proof.
  intros H. unfold update_document_auto_tags.
  assert (Ha : forall f, alter f doc (documents db) = documents db).
  { intros f. apply map_eq. intros i. rewrite lookup_alter.
    destruct (decide (doc = i)) as [<-|]; [rewrite H|]; reflexivity. }
  rewrite Ha. destruct db; reflexivity.
Qed.

(** ** Search *)

Lemma parsed_search_bounds formData v :
  parsed_search formData = Returned v ->
  form_query formData = Some (v_query v)
  /\ form_user formData = Some (v_user_id v)
  /\ (3 <= String.length (v_query v) <= 500)%nat
  /\ is_uuid (v_user_id v) = true
  /\ v_search_type v ∈ ["semantic"; "keyword"; "hybrid"]
  /\ (1 <= v_max_results v <= 50)%Z
  /\ (0 <= v_similarity_threshold v <= 1)%Q
  /\ v_search_type v = str_or (form_searchType formData) "semantic"
  /\ v_max_results v = Z_or (form_maxResults formData) 10
  /\ v_similarity_threshold v = Q_or (form_similarityThreshold formData) (7 # 10).
Proof.
  unfold parsed_search, SearchFormSchema_parse.
  destruct (form_query formData) as [q|], (form_user formData) as [u|]; try discriminate.
  destruct ((3 <=? String.length q)%nat && (String.length q <=? 500)%nat) eqn:H1;
    simpl; [|discriminate].
  destruct (is_uuid u) eqn:H2; simpl; [|discriminate].
  destruct (bool_decide (_ ∈ _)) eqn:H3; simpl; [|discriminate].
  destruct ((1 <=? _)%Z && (_ <=? 50)%Z) eqn:H4; simpl; [|discriminate].
  destruct (Qle_bool 0 _ && Qle_bool _ 1) eqn:H5; simpl; [|discriminate].
  intros [= <-]. simpl.
  apply andb_true_iff in H1 as [H1 H1'], H4 as [H4 H4'], H5 as [H5 H5'].
  apply Nat.leb_le in H1, H1'. apply Z.leb_le in H4, H4'.
  apply Qle_bool_iff in H5, H5'. apply bool_decide_eq_true in H3.
  repeat split; auto.
Qed.

(** What a search that reaches the lookup leaves behind, given what the
    lookup did. *)
Lemma searchDocuments_finish E formData w v q :
  parsed_search formData = Returned v ->
  embedQuery E (v_query v) = Returned q ->
  v_user_id v ∈ users (db w) ->
  let w1 := with_db (with_clock_reads w (S (clock_reads w)))
              (insert_search_query_row (db w) (new_query_row w v q)) in
  forall out calls,
    similarity_lookup E q v w1 = (out, with_rpc_log w1 (rpc_log w ++ calls)) ->
    let r := searchDocuments E formData w in
    let rt := (Z.of_nat (time_source E (S (clock_reads w)))
               - Z.of_nat (time_source E (clock_reads w)))%Z in
    rpc_log (snd r) = (rpc_log w ++ calls)%list
    /\ users (db (snd r)) = users (db w)
    /\ documents (db (snd r)) = documents (db w)
    /\ document_chunks (db (snd r)) = document_chunks (db w)
    /\ tags (db (snd r)) = tags (db w)
    /\ document_tags (db (snd r)) = document_tags (db w)
    /\ bucket (snd r) = bucket w
    /\ dispatched (snd r) = dispatched w
    /\ status_history (snd r) = status_history w
    /\ match out with
       | Thrown e =>
           search_queries (db (snd r))
           = (search_queries (db w) ++ [new_query_row w v q])%list
           /\ search_results (db (snd r)) = search_results (db w)
           /\ exists ts,
                fst r = Returned {| search_success := false; search_timestamp := ts;
                                    search_data := None;
                                    search_error := Some (message_or e "Search failed") |}
       | Returned rows =>
           search_queries (db (snd r))
           = List.map (fun r => if decide (sq_id r = next_id (db w))
                                then backfill (length rows) rt r else r)
               (search_queries (db w) ++ [new_query_row w v q])
           /\ search_results (db (snd r))
              = (search_results (db w)
                 ++ searchResultsToInsert (next_id (db w)) rows)%list
           /\ exists ts,
                fst r
                = Returned
                    (if SearchResponseSchema_ok rows
                     then {| search_success := true; search_timestamp := ts;
                             search_data :=
                               Some {| data_results := rows;
                                       data_query_id := next_id (db w);
                                       data_total_results := length rows;
                                       data_response_time_ms := rt |};
                             search_error := None |}
                     else {| search_success := false; search_timestamp := ts;
                             search_data := None;
                             search_error := Some "ZodError: results" |})
       end.
Proof.
  intros Hparse Hembed Huser w1 out calls Hlook r rt.
  pose proof (searchDocuments_start E formData w v q Hparse Hembed Huser) as Hrun.
  cbv zeta in Hrun. fold w1 in Hrun.
  unfold try_catch at 1 in Hrun. unfold bind at 1 in Hrun.
  rewrite Hlook in Hrun. subst r.
  destruct out as [rows|e].
  - unfold bind, Date_now, update_search_query, insert_search_results, ret, throw in Hrun.
    subst w1.
    cbn [db with_db with_clock_reads with_rpc_log clock_reads rpc_log
         search_queries set_search_queries insert_search_query_row] in Hrun.
    destruct rows as [|row rows];
      destruct (SearchResponseSchema_ok _) eqn:Hok;
      rewrite Hrun; cbn;
      repeat (split; [reflexivity|]);
      try (split; [symmetry; apply app_nil_r|]);
      eexists; reflexivity.
  - unfold bind, Date_now, ret in Hrun. rewrite Hrun. subst w1. cbn.
    repeat (split; [reflexivity|]). eexists; reflexivity.
Qed.

(** The lookup leaves the world as it found it but for the log of calls,
    and its rows are those of the basic lookup on the store. *)
Lemma similarity_lookup_outcome E q v w :
  (0 <= v_max_results v)%Z ->
  exists out calls,
    similarity_lookup E q v w = (out, with_rpc_log w (rpc_log w ++ calls))
    /\ Forall unfiltered calls
    /\ (forall rows, out = Returned rows ->
          similarity_search (cosine_distance E) (db w) q (v_user_id v)
            (v_similarity_threshold v) (v_max_results v) = SqlOk rows).
Proof.
  intros Hn. rewrite similarity_lookup_run. cbv zeta.
  set (enhanced := call_enhanced_similarity_search _ _ _ _ _ _).
  set (basic := call_similarity_search _ _ _ _).
  assert (He : similarity_search (cosine_distance E) (db w) q (v_user_id v)
                 (v_similarity_threshold v) (v_max_results v)
               = SqlOk (List.map (select_row (cosine_distance E) q)
                          (take (Z.to_nat (v_max_results v))
                             (merge_sort (closer (cosine_distance E) q)
                                (List.filter
                                   (fun r => sql_holds
                                      (similarity_search_where (cosine_distance E) q
                                         (v_user_id v) (v_similarity_threshold v) r))
                                   (chunks_join_documents (db w))))))).
  { unfold similarity_search. destruct (v_max_results v <? 0)%Z eqn:Hneg; [|reflexivity].
    apply Z.ltb_lt in Hneg. lia. }
  assert (H1 : Forall unfiltered [enhanced]) by (repeat constructor).
  assert (H2 : Forall unfiltered [enhanced; basic]) by (repeat constructor).
  unfold lookup_response. simpl.
  destruct (rpc_fault E fn_enhanced_similarity_search) as [m|]; simpl.
  - destruct (rpc_fault E fn_similarity_search) as [m2|]; simpl.
    + eexists _, _. split; [reflexivity|]. split; [exact H2|]. discriminate.
    + rewrite He. simpl. eexists _, _. split; [reflexivity|]. split; [exact H2|].
      intros rows [= <-]. reflexivity.
  - rewrite enhanced_null_filters, He. simpl.
    eexists _, _. split; [reflexivity|]. split; [exact H1|].
    intros rows [= <-]. reflexivity.
Qed.

(** The rows of the basic lookup: no more than the limit, each with a
    similarity strictly above the threshold, each of a chunk of the user
    and of a document of the store. *)
Lemma similarity_search_rows dist d q u thr n rows :
  similarity_search dist d q u thr n = SqlOk rows ->
  (0 <= n)%Z
  /\ (length rows <= Z.to_nat n)%nat
  /\ Forall (fun r => exists s, row_similarity r = Some s /\ (thr < s)%Q) rows
  /\ Forall (fun r => exists c i doc,
               c ∈ document_chunks d /\ chunk_id c = row_chunk_id r
               /\ chunk_user_id c = Some u
               /\ chunk_document_id c = Some i /\ documents d !! i = Some doc
               /\ row_document_id r = Some i) rows.
Proof.
  unfold similarity_search. destruct (n <? 0)%Z eqn:Hn; [discriminate|].
  apply Z.ltb_ge in Hn. intros [= <-].
  destruct (order_limit_shape dist q
              (fun r => sql_holds (similarity_search_where dist q u thr r))
              (chunks_join_documents d) (Z.to_nat n)) as (Hsub & Hall & _ & Hlen & _).
  cbv zeta in Hsub, Hall, Hlen.
  split; [exact Hn|]. split; [rewrite length_map, Hlen; lia|].
  split; apply Forall_forall; intros r Hr0;
    apply list_elem_of_fmap in Hr0 as ([c doc] & -> & Hr);
    pose proof (Hall _ Hr) as Hw;
    unfold similarity_search_where in Hw;
    rewrite !sql_holds_and, !andb_true_iff in Hw;
    destruct Hw as [Hu Hs].
  - apply andb_true_iff in Hs.
    apply (proj1 (holds_where_similar dist q thr (c, doc))) in Hs as (e & He & Hlt).
    exists (1 - dist e q)%Q. split; [|exact Hlt].
    simpl in *. unfold similarity_to, distance_to. simpl. rewrite He. reflexivity.
  - apply holds_where_user in Hu. simpl in Hu.
    pose proof (elem_of_submseteq _ _ _ Hr Hsub) as Hj.
    unfold chunks_join_documents in Hj.
    apply list_elem_of_omap in Hj as (c' & Hc' & Hj).
    destruct (chunk_document_id c') as [i|] eqn:Hi; [|discriminate].
    destruct (documents d !! i) as [doc'|] eqn:Hd; [|discriminate].
    injection Hj as <- <-.
    exists c', i, doc'. simpl. auto 10.
Qed.

(** A search changes nothing but its own two tables and the log of
    calls: users, documents, chunks, tags, stored files, started
    pipelines and statuses are as before, whatever the form holds; the
    recorded results of earlier searches are kept. *)
Theorem searchDocuments_read_only (E : Env) (formData : SearchForm) (w : World) :
  let w' := snd (searchDocuments E formData w) in
  users (db w') = users (db w)
  /\ documents (db w') = documents (db w)
  /\ document_chunks (db w') = document_chunks (db w)
  /\ tags (db w') = tags (db w)
  /\ document_tags (db w') = document_tags (db w)
  /\ bucket w' = bucket w
  /\ dispatched w' = dispatched w
  /\ status_history w' = status_history w
  /\ (exists l, search_results (db w') = (search_results (db w) ++ l)%list).
Proof.
  destruct (searchDocuments_cases E formData w) as [(v & q & Hp & He & Hu)|Href].
  - destruct (parsed_search_bounds _ _ Hp) as (_ & _ & _ & _ & _ & Hmax & _).
    set (w1 := with_db (with_clock_reads w (S (clock_reads w)))
                 (insert_search_query_row (db w) (new_query_row w v q))).
    destruct (similarity_lookup_outcome E q v w1) as (out & calls & Hlook & _ & _);
      [lia|].
    pose proof (searchDocuments_finish E formData w v q Hp He Hu out calls Hlook) as H.
    cbv zeta in H.
    destruct H as (_ & H1 & H2 & H3 & H4 & H5 & H6 & H7 & H8 & H9).
    cbv zeta. repeat (split; [assumption|]).
    destruct out as [rows|e]; destruct H9 as (_ & Hres & _).
    + eauto.
    + exists []. rewrite app_nil_r. exact Hres.
  - destruct (searchDocuments_refused E formData w Href) as (e & n & Hrun & _).
    rewrite Hrun. cbn. repeat (split; [reflexivity|]).
    exists []; rewrite app_nil_r; auto.
Qed.

Lemma backfill_last (id n : nat) (rt : Z) (l : list SearchQuery) (r : SearchQuery) :
  sq_id r = id ->
  last (List.map (fun r => if decide (sq_id r = id) then backfill n rt r else r)
          (l ++ [r]))
  = Some (backfill n rt r).
Proof.
  intros Hid. rewrite List.map_app. simpl.
  destruct (decide (sq_id r = id)); [|contradiction]. apply last_snoc.
Qed.

(** What a search that reports success did: it reached a lookup, and
    the lookup found no row. *)
Lemma searchDocuments_success_run E formData w resp w' :
  searchDocuments E formData w = (Returned resp, w') ->
  search_success resp = true ->
  exists v q ts,
    parsed_search formData = Returned v
    /\ embedQuery E (v_query v) = Returned q
    /\ v_user_id v ∈ users (db w)
    /\ resp = {| search_success := true; search_timestamp := ts;
                 search_data :=
                   Some {| data_results := [];
                           data_query_id := next_id (db w);
                           data_total_results := 0;
                           data_response_time_ms :=
                             Z.of_nat (time_source E (S (clock_reads w)))
                             - Z.of_nat (time_source E (clock_reads w)) |};
                 search_error := None |}
    /\ search_results (db w') = search_results (db w)
    /\ search_queries (db w')
       = List.map (fun r => if decide (sq_id r = next_id (db w))
                            then backfill 0
                                   (Z.of_nat (time_source E (S (clock_reads w)))
                                    - Z.of_nat (time_source E (clock_reads w))) r
                            else r)
           (search_queries (db w) ++ [new_query_row w v q]).
Proof.
  intros Hrun Hok.
  destruct (searchDocuments_cases E formData w) as [(v & q & Hp & He & Hu)|Href].
  - destruct (parsed_search_bounds _ _ Hp) as (_ & _ & _ & _ & _ & Hmax & _).
    set (w1 := with_db (with_clock_reads w (S (clock_reads w)))
                 (insert_search_query_row (db w) (new_query_row w v q))).
    destruct (similarity_lookup_outcome E q v w1) as (out & calls & Hlook & _ & _);
      [lia|].
    pose proof (searchDocuments_finish E formData w v q Hp He Hu out calls Hlook) as H.
    cbv zeta in H. rewrite Hrun in H. cbn [fst snd] in H.
    destruct H as (_ & _ & _ & _ & _ & _ & _ & _ & _ & H9).
    destruct out as [rows|e].
    + destruct H9 as (Hq & Hr & ts & Hfst). injection Hfst as Hfst.
      destruct (SearchResponseSchema_ok rows) eqn:Hschema;
        [|subst resp; discriminate].
      apply SearchResponseSchema_ok_nil in Hschema. subst rows.
      exists v, q, ts. rewrite app_nil_r in Hr. auto 10.
    + destruct H9 as (_ & _ & ts & Hfst). injection Hfst as ->. discriminate.
  - destruct (searchDocuments_refused E formData w Href) as (e & n & Hrun' & _).
    rewrite Hrun' in Hrun. injection Hrun as <- _. discriminate.
Qed.

(** A search reports success only when its lookup found nothing. The
    response then holds no result and the count zero, nothing is recorded
    in [search_results], and the query row carries the count zero and the
    response time of the answer. A search whose lookup finds a row
    records it and never reports success. *)
Theorem searchDocuments_success_only_empty (E : Env) (formData : SearchForm)
    (w : World) (resp : SearchResponse) :
  fst (searchDocuments E formData w) = Returned resp ->
  search_success resp = true ->
  let w' := snd (searchDocuments E formData w) in
  exists v q data query,
    parsed_search formData = Returned v
    /\ embedQuery E (v_query v) = Returned q
    /\ v_user_id v ∈ users (db w)
    /\ search_data resp = Some data /\ search_error resp = None
    /\ data_results data = []
    /\ data_total_results data = 0%nat
    /\ data_query_id data = next_id (db w)
    /\ search_results (db w') = search_results (db w)
    /\ last (search_queries (db w')) = Some query
    /\ sq_id query = next_id (db w)
    /\ sq_query_text query = v_query v
    /\ sq_results_count query = 0%nat
    /\ sq_response_time_ms query = Some (data_response_time_ms data).
Proof.
  intros Hresp Hok. cbv zeta.
  destruct (searchDocuments E formData w) as [o w'] eqn:Hrun.
  cbn [fst snd] in *. subst o.
  destruct (searchDocuments_success_run E formData w resp w' Hrun Hok)
    as (v & q & ts & Hp & He & Hu & -> & Hres & Hqueries).
  exists v, q. eexists _, _.
  split; [exact Hp|]. split; [exact He|]. split; [exact Hu|].
  split; [reflexivity|]. split; [reflexivity|]. split; [reflexivity|].
  split; [reflexivity|]. split; [reflexivity|]. split; [exact Hres|].
  split; [rewrite Hqueries; apply backfill_last; reflexivity|].
  cbn. auto.
Qed.

(** A search whose form passes validation, whose query is embedded and
    whose user exists writes one query row, and the row stays even if
    both lookups fail. *)
Theorem search_query_recorded (E : Env) (formData : SearchForm) (w : World)
    (v : ValidatedSearch) (q : Vector) :
  parsed_search formData = Returned v ->
  embedQuery E (v_query v) = Returned q ->
  v_user_id v ∈ users (db w) ->
  let w' := snd (searchDocuments E formData w) in
  length (search_queries (db w')) = S (length (search_queries (db w)))
  /\ next_id (db w') = S (next_id (db w))
  /\ exists r, last (search_queries (db w')) = Some r
                /\ sq_id r = next_id (db w) /\ sq_user_id r = v_user_id v
                /\ sq_query_text r = v_query v /\ sq_query_embedding r = q
                /\ sq_similarity_threshold r = v_similarity_threshold v
                /\ sq_max_results r = v_max_results v.
Proof.
  intros Hp He Hu.
  destruct (parsed_search_bounds _ _ Hp) as (_ & _ & _ & _ & _ & Hmax & _).
  set (w1 := with_db (with_clock_reads w (S (clock_reads w)))
               (insert_search_query_row (db w) (new_query_row w v q))).
  destruct (similarity_lookup_outcome E q v w1) as (out & calls & Hlook & _ & _);
    [lia|].
  pose proof (searchDocuments_finish E formData w v q Hp He Hu out calls Hlook) as H.
  cbv zeta in H. destruct H as (_ & _ & _ & _ & _ & _ & _ & _ & _ & H9).
  pose proof (searchDocuments_start E formData w v q Hp He Hu) as Hrun.
  cbv zeta in Hrun. fold w1 in Hrun.
  unfold try_catch at 1 in Hrun. unfold bind at 1 in Hrun.
  rewrite Hlook in Hrun. cbv zeta.
  destruct out as [rows|e].
  - destruct H9 as (Hq & _). rewrite Hq.
    split; [rewrite length_map, length_app; simpl; lia|].
    split.
    + unfold bind, Date_now, update_search_query, insert_search_results, ret, throw
        in Hrun.
      destruct rows as [|row rows];
        destruct (SearchResponseSchema_ok _);
        rewrite Hrun; reflexivity.
    + eexists. split; [apply backfill_last; reflexivity|].
      simpl. auto 10.
  - destruct H9 as (Hq & _). rewrite Hq.
    split; [rewrite length_app; simpl; lia|].
    split.
    + unfold bind, Date_now, ret in Hrun. rewrite Hrun. reflexivity.
    + eexists. split; [apply last_snoc|]. simpl. auto 10.
Qed.

(** In every other case (the form is refused, the embedding fails or the
    user is unknown) the search answers with an error, calls no lookup
    and leaves the store as it was. *)
Theorem search_refused_untouched (E : Env) (formData : SearchForm) (w : World) :
  (forall v q, parsed_search formData = Returned v ->
     embedQuery E (v_query v) = Returned q -> v_user_id v ∉ users (db w)) ->
  let r := searchDocuments E formData w in
  db (snd r) = db w /\ rpc_log (snd r) = rpc_log w
  /\ bucket (snd r) = bucket w /\ dispatched (snd r) = dispatched w
  /\ exists resp, fst r = Returned resp /\ search_success resp = false
                   /\ search_data resp = None /\ is_Some (search_error resp).
Proof.
  intros Hno.
  destruct (searchDocuments_refused E formData w Hno) as (e & n & Hrun & _).
  cbv zeta. rewrite Hrun. cbn. repeat (split; [reflexivity|]).
  eexists. split; [reflexivity|]. simpl. eauto.
Qed.

(** A threshold or a result count that is missing or zero is replaced by
    the default before validation: a search cannot ask for threshold 0,
    and the lookup is then called with 0.7 and 10. *)
Theorem search_falsy_defaults (E : Env) (formData : SearchForm) (w : World)
    (v : ValidatedSearch) (q : Vector) :
  parsed_search formData = Returned v ->
  embedQuery E (v_query v) = Returned q ->
  v_user_id v ∈ users (db w) ->
  (form_similarityThreshold formData = None
   \/ exists t, form_similarityThreshold formData = Some t /\ (t == 0)%Q) ->
  (form_maxResults formData = None \/ form_maxResults formData = Some 0%Z) ->
  v_similarity_threshold v = 7 # 10
  /\ v_max_results v = 10%Z
  /\ exists calls,
       rpc_log (snd (searchDocuments E formData w))
       = (rpc_log w
          ++ call_enhanced_similarity_search q (v_user_id v) (7 # 10) 10 None None
             :: calls)%list.
Proof.
  intros Hp He Hu Ht Hm.
  destruct (parsed_search_bounds _ _ Hp)
    as (_ & _ & _ & _ & _ & Hmax & _ & _ & Hvm & Hvt).
  assert (Hthr : v_similarity_threshold v = 7 # 10).
  { rewrite Hvt. unfold Q_or. destruct Ht as [->|(t & -> & Ht)]; [reflexivity|].
    apply Qeq_bool_iff in Ht. rewrite Ht. reflexivity. }
  assert (Hn : v_max_results v = 10%Z).
  { rewrite Hvm. destruct Hm as [->| ->]; reflexivity. }
  split; [exact Hthr|]. split; [exact Hn|].
  set (w1 := with_db (with_clock_reads w (S (clock_reads w)))
               (insert_search_query_row (db w) (new_query_row w v q))).
  pose proof (similarity_lookup_run E q v w1) as Hlook. cbv zeta in Hlook.
  assert (Hout : exists out calls,
            similarity_lookup E q v w1
            = (out, with_rpc_log w1
                      (rpc_log w
                       ++ call_enhanced_similarity_search q (v_user_id v) (7 # 10) 10
                            None None :: calls))).
  { rewrite Hlook. rewrite <- Hthr, <- Hn.
    destruct (rpc_error _); [destruct (rpc_error _)|]; eexists _, _; reflexivity. }
  destruct Hout as (out & calls & Hout).
  pose proof (searchDocuments_finish E formData w v q Hp He Hu out _ Hout) as H.
  cbv zeta in H. destruct H as (Hlog & _).
  exists calls. exact Hlog.
Qed.


Lemma searchDocuments_success_only_empty_witness :
  exists data,
    option_map search_data
      (Some (returned_or
               {| search_success := false; search_timestamp := 0;
                  search_data := None; search_error := None |}
               (fst (searchDocuments sample_env sample_search sample_world))))
    = Some (Some data)
    /\ data_results data = []
    /\ search_results (db (snd (searchDocuments sample_env sample_search sample_world)))
       = [].
Proof.
  pose (resp := returned_or
                  {| search_success := false; search_timestamp := 0;
                     search_data := None; search_error := None |}
                  (fst (searchDocuments sample_env sample_search sample_world))).
  destruct (searchDocuments_success_only_empty sample_env sample_search sample_world resp)
    as (v & q & data & query & _ & _ & _ & Hd & _ & Hrows & _ & _ & Hres & _).
  - vm_compute. reflexivity.
  - vm_compute. reflexivity.
  - exists data. split; [simpl; fold resp; rewrite Hd; reflexivity|].
    split; [exact Hrows|exact Hres].
Defined.

Lemma search_query_recorded_witness :
  length (search_queries
            (db (snd (searchDocuments (without_enhanced
                                         (set_rpc_fault sample_env
                                            (fun _ => Some "function not found"))
                                         "function not found")
                        sample_search
                        {| db := tagged_db; bucket := ∅; dispatched := [];
                           clock_reads := 0; rpc_log := []; status_history := [] |}))))
  = 1%nat.
Proof.
  apply (search_query_recorded _ sample_search
           {| db := tagged_db; bucket := ∅; dispatched := [];
              clock_reads := 0; rpc_log := []; status_history := [] |}
           sample_validated [11%Q; 1%Q]).
  - reflexivity.
  - reflexivity.
  - vm_compute. reflexivity.
Defined.

Lemma search_refused_untouched_witness :
  db (snd (searchDocuments sample_env
             {| form_query := Some "hi"; form_user := Some sample_user;
                form_searchType := None; form_maxResults := None;
                form_similarityThreshold := None |}
             sample_world))
  = db sample_world.
Proof.
  apply (search_refused_untouched sample_env
           {| form_query := Some "hi"; form_user := Some sample_user;
              form_searchType := None; form_maxResults := None;
              form_similarityThreshold := None |}
           sample_world).
  intros v q Hp. vm_compute in Hp. discriminate Hp.
Defined.

Lemma search_falsy_defaults_witness :
  v_similarity_threshold
    {| v_query := "hello world"; v_user_id := sample_user;
       v_search_type := "semantic"; v_max_results := 10;
       v_similarity_threshold := 7 # 10 |} = 7 # 10.
Proof.
  apply (search_falsy_defaults sample_env
           {| form_query := Some "hello world"; form_user := Some sample_user;
              form_searchType := None; form_maxResults := Some 0%Z;
              form_similarityThreshold := Some 0%Q |}
           {| db := tagged_db; bucket := ∅; dispatched := [];
              clock_reads := 0; rpc_log := []; status_history := [] |}
           _ [11%Q; 1%Q]).
  - reflexivity.
  - reflexivity.
  - vm_compute. reflexivity.
  - right. exists 0%Q. split; reflexivity.
  - right. reflexivity.
Defined.

(** ** The chunk loops and the pipelines *)

(** The loop of [createChunksForDocument] stops at the first piece whose
    embedding fails, with that failure; the rows of the pieces before it
    are written, each with the embedding of its own text. *)
Lemma embed_and_insert_rows E id u md : forall chunks i w,
  let r := embed_and_insert E id u md i chunks w in
  exists rows k,
    document_chunks (db (snd r)) = (document_chunks (db w) ++ rows)%list
    /\ documents (db (snd r)) = documents (db w)
    /\ rpc_log (snd r) = rpc_log w
    /\ status_history (snd r) = status_history w
    /\ Forall (chunk_of_text E id u) rows
    /\ List.map chunk_text rows = List.map fst (take k chunks)
    /\ List.map chunk_metadata rows
       = List.map (fun c => spread md (snd c)) (take k chunks)
    /\ List.map chunk_index rows = seq i k
    /\ List.map chunk_id rows = seq (next_id (db w)) k
    /\ match fst r with
       | Returned _ => k = length chunks
       | Thrown e => exists c, chunks !! k = Some c /\ embedQuery E (fst c) = Thrown e
       end.
Proof.
  induction chunks as [|c rest IH]; intros i w; cbv zeta.
  - exists [], 0%nat. simpl. rewrite app_nil_r. auto 12.
  - simpl. unfold bind, await, Date_now, insert_chunk. cbv beta iota zeta.
    destruct (embedQuery E (fst c)) as [v|e] eqn:Hv.
    + match goal with
      | |- context [embed_and_insert E id u md (S i) rest ?w1] =>
          pose proof (IH (S i) w1) as IH1; cbv zeta in IH1;
          set (r1 := embed_and_insert E id u md (S i) rest w1) in *
      end.
      destruct IH1 as (rows & k & H1 & H2 & H3 & H4 & H5 & H6 & H7 & H8 & H9 & H10).
      eexists (_ :: rows), (S k).
      rewrite H1, H2, H3, H4. simpl.
      split; [rewrite <- app_assoc; reflexivity|].
      split; [reflexivity|]. split; [reflexivity|]. split; [reflexivity|].
      split.
      { constructor; [|exact H5]. unfold chunk_of_text. simpl.
        split; [reflexivity|]. split; [reflexivity|].
        split; [eauto|]. split; [reflexivity|]. split; [reflexivity|]. eauto. }
      split; [f_equal; exact H6|]. split; [f_equal; exact H7|].
      split; [f_equal; exact H8|]. split; [f_equal; exact H9|].
      destruct (fst r1); [f_equal; exact H10|exact H10].
    + exists [], 0%nat. simpl. rewrite app_nil_r.
      repeat (split; [reflexivity|]). split; [constructor|].
      repeat (split; [reflexivity|]). exists c. auto.
Qed.

(** [createChunksForDocument] on a document of the store. *)
Lemma createChunksForDocument_rows E id text md w d :
  documents (db w) !! id = Some d ->
  let r := createChunksForDocument E id text md w in
  let pieces := createDocuments E text md in
  exists rows k,
    document_chunks (db (snd r)) = (document_chunks (db w) ++ rows)%list
    /\ documents (db (snd r)) = documents (db w)
    /\ rpc_log (snd r) = rpc_log w
    /\ status_history (snd r) = status_history w
    /\ Forall (chunk_of_text E id (doc_user_id d)) rows
    /\ List.map chunk_text rows = take k (List.map fst (textSplitter E text))
    /\ List.map chunk_index rows = seq 0 k
    /\ match fst r with
       | Returned _ => k = length (textSplitter E text)
       | Thrown e => exists t, List.map fst (textSplitter E text) !! k = Some t
                               /\ embedQuery E t = Thrown e
       end.
Proof.
  intros Hd. cbv zeta.
  assert (Hrun : createChunksForDocument E id text md w
                 = embed_and_insert E id (doc_user_id d) md 0
                     (createDocuments E text md) w).
  { unfold createChunksForDocument, try_catch, bind, select_document, throw.
    rewrite Hd.
    destruct (embed_and_insert _ _ _ _ _ _ _) as [[a|e] w']; reflexivity. }
  rewrite Hrun.
  destruct (embed_and_insert_rows E id (doc_user_id d) md
              (createDocuments E text md) 0 w)
    as (rows & k & H1 & H2 & H3 & H4 & H5 & H6 & _ & H8 & _ & H10).
  cbv zeta in *.
  exists rows, k.
  rewrite <- List.firstn_map, createDocuments_texts in H6.
  repeat (split; [assumption|]).
  destruct (fst (embed_and_insert _ _ _ _ _ _ _)) as [[]|e].
  - unfold createDocuments in H10. rewrite length_map in H10. exact H10.
  - destruct H10 as (c & Hc & He). exists (fst c). split; [|exact He].
    rewrite <- createDocuments_texts with (md := md).
    change (List.map fst (createDocuments E text md))
      with (fst <$> createDocuments E text md).
    rewrite list_lookup_fmap, Hc. reflexivity.
Qed.

Lemma update_document_rest id f w :
  let w' := snd (update_document id f w) in
  rpc_log w' = rpc_log w
  /\ document_chunks (db w') = document_chunks (db w)
  /\ users (db w') = users (db w)
  /\ tags (db w') = tags (db w)
  /\ document_tags (db w') = document_tags (db w)
  /\ next_id (db w') = next_id (db w)
  /\ bucket w' = bucket w
  /\ dispatched w' = dispatched w
  /\ clock_reads w' = clock_reads w
  /\ (forall i, i <> id -> documents (db w') !! i = documents (db w) !! i).
Proof.
  cbv zeta. unfold update_document. simpl.
  repeat (split; [reflexivity|]).
  intros i Hi. apply lookup_alter_ne. congruence.
Qed.

Lemma update_document_log id f w w' :
  update_document id f w = (Returned tt, w') -> rpc_log w' = rpc_log w.
Proof.
  intros H. pose proof (update_document_rest id f w) as H'. cbv zeta in H'.
  rewrite H in H'. apply H'.
Qed.

Lemma processTextFileAsync_run (E : Env) (id : nat) (file : File) (w : World)
    (d : Document) :
  documents (db w) !! id = Some d ->
  let w' := snd (processTextFileAsync E id file w) in
  let text := file_text file in
  let read :=
    patch [set_extracted_text text; set_content_type "text"; set_status chunking;
           set_word_count (split_ws_length text);
           set_character_count (String.length text)]
      (patch [set_status processing] d) in
  exists rows k,
    document_chunks (db w') = (document_chunks (db w) ++ rows)%list
    /\ Forall (chunk_of_text E id (doc_user_id d)) rows
    /\ List.map chunk_text rows = take k (List.map fst (textSplitter E text))
    /\ List.map chunk_index rows = seq 0 k
    /\ rpc_log w' = rpc_log w
    /\ ((k = length (textSplitter E text)
         /\ exists t, documents (db w') !! id
                      = Some (patch [set_status processed; set_processed_at t] read))
        \/ (exists piece e,
              List.map fst (textSplitter E text) !! k = Some piece
              /\ embedQuery E piece = Thrown e
              /\ documents (db w') !! id
                 = Some (patch [set_status error;
                                set_processing_error
                                  (message_or e "Text processing failed")] read))).
Proof.
  intros Hd. cbv zeta. unfold processTextFileAsync, try_catch, bind.
  destruct (update_document_run id [set_status processing] w d Hd)
    as (w1 & Hu1 & Hd1 & Hh1 & Hc1).
  pose proof (update_document_log _ _ _ _ Hu1) as Hl1. rewrite Hu1.
  destruct (update_document_run id
              [set_extracted_text (file_text file); set_content_type "text";
               set_status chunking; set_word_count (split_ws_length (file_text file));
               set_character_count (String.length (file_text file))] w1 _ Hd1)
    as (w2 & Hu2 & Hd2 & Hh2 & Hc2).
  pose proof (update_document_log _ _ _ _ Hu2) as Hl2. rewrite Hu2.
  destruct (createChunksForDocument_rows E id (file_text file)
              [("type", "text"); ("filename", file_name file)] w2 _ Hd2)
    as (rows & k & H1 & H2 & H3 & _ & H5 & H6 & H7 & H8).
  cbv zeta in *.
  assert (Hd3 := Hd2). rewrite <- H2 in Hd3.
  exists rows, k.
  destruct (createChunksForDocument E id (file_text file) _ w2) as [[[]|e] w3];
    cbn [fst snd] in *.
  - unfold Date_now.
    destruct (update_document_run id
                [set_status processed; set_processed_at (time_source E (clock_reads w3))]
                (with_clock_reads w3 (S (clock_reads w3))) _ Hd3)
      as (w4 & Hu4 & Hd4 & Hh4 & Hc4).
    pose proof (update_document_log _ _ _ _ Hu4) as Hl4. rewrite Hu4.
    cbn [snd]. rewrite Hc4. cbn [db with_clock_reads document_chunks].
    rewrite H1, Hc2, Hc1.
    split; [reflexivity|]. split; [exact H5|]. split; [exact H6|].
    split; [exact H7|].
    split; [rewrite Hl4; cbn; rewrite H3, Hl2, Hl1; reflexivity|].
    left. split; [exact H8|]. eexists. exact Hd4.
  - destruct (update_document_run id
                [set_status error;
                 set_processing_error (message_or e "Text processing failed")]
                w3 _ Hd3)
      as (w4 & Hu4 & Hd4 & Hh4 & Hc4).
    pose proof (update_document_log _ _ _ _ Hu4) as Hl4. rewrite Hu4.
    cbn [snd]. rewrite Hc4, H1, Hc2, Hc1.
    split; [reflexivity|]. split; [exact H5|]. split; [exact H6|].
    split; [exact H7|].
    split; [rewrite Hl4, H3, Hl2, Hl1; reflexivity|].
    right. destruct H8 as (t & Ht & He). exists t, e. auto.
Qed.

(** The text pipeline on a document of the store records the text of
    the file and stores chunks that each carry the embedding of their own
    text and the owner of the document, calling no database function.
    When every piece of the split embeds, all pieces are stored in order
    and the document ends [processed] with no error recorded.  When the
    embedding of a piece fails, those before it having succeeded, exactly
    the pieces before it are stored and stay, and the document ends
    [error] with the message of that failure and no [processed_at]. *)
Theorem processTextFileAsync_result (E : Env) (id : nat) (file : File) (w : World)
    (d : Document) :
  documents (db w) !! id = Some d ->
  let w' := snd (processTextFileAsync E id file w) in
  let pieces := List.map fst (textSplitter E (file_text file)) in
  exists rows d',
    document_chunks (db w') = (document_chunks (db w) ++ rows)%list
    /\ Forall (chunk_of_text E id (doc_user_id d)) rows
    /\ rpc_log w' = rpc_log w
    /\ documents (db w') !! id = Some d'
    /\ doc_extracted_text d' = Some (file_text file)
    /\ doc_content_type d' = Some "text"
    /\ ((forall t, t ∈ pieces -> exists v, embedQuery E t = Returned v) ->
        doc_status d' = processed
        /\ is_Some (doc_processed_at d')
        /\ doc_processing_error d' = doc_processing_error d
        /\ List.map chunk_text rows = pieces
        /\ List.map chunk_index rows = seq 0 (length pieces))
    /\ (forall k t e,
          pieces !! k = Some t -> embedQuery E t = Thrown e ->
          (forall t', t' ∈ take k pieces -> exists v, embedQuery E t' = Returned v) ->
          doc_status d' = error
          /\ doc_processing_error d' = Some (message_or e "Text processing failed")
          /\ doc_processed_at d' = doc_processed_at d
          /\ List.map chunk_text rows = take k pieces
          /\ List.map chunk_index rows = seq 0 k).
Proof.
  intros Hd w' pieces.
  destruct (processTextFileAsync_run E id file w d Hd)
    as (rows & k0 & H1 & H2 & H3 & H4 & H5 & H6).
  cbv zeta in H1, H3, H5, H6. fold w' in H1, H5, H6. fold pieces in H3, H6.
  assert (Hstored : forall t, t ∈ take k0 pieces -> exists v, embedQuery E t = Returned v).
  { intros t Ht. rewrite <- H3 in Ht.
    apply list_elem_of_fmap in Ht as (c & -> & Hc).
    rewrite Forall_forall in H2.
    destruct (H2 c Hc) as (_ & _ & (v & Hv & _) & _). eauto. }
  exists rows.
  destruct H6 as [(Hk & t0 & Hdoc)|(p & e0 & Hp & He0 & Hdoc)]; eexists;
    (split; [exact H1|]); (split; [exact H2|]); (split; [exact H5|]);
    (split; [exact Hdoc|]); (split; [reflexivity|]); (split; [reflexivity|]).
  - assert (Hlen : (length pieces <= k0)%nat)
      by (unfold pieces; rewrite length_map; lia).
    rewrite take_ge in H3, Hstored by exact Hlen.
    split.
    + intros _. cbn. split; [reflexivity|]. split; [eauto|]. split; [reflexivity|].
      split; [exact H3|]. rewrite H4, Hk. unfold pieces. rewrite length_map. reflexivity.
    + intros k t e Hkt He _. exfalso.
      apply list_elem_of_lookup_2 in Hkt. destruct (Hstored t Hkt) as (v & Hv).
      congruence.
  - split.
    + intros Hall. exfalso.
      apply list_elem_of_lookup_2 in Hp. destruct (Hall p Hp) as (v & Hv). congruence.
    + intros k t e Hk He Hbefore.
      assert (k = k0) as ->.
      { destruct (Nat.lt_trichotomy k k0) as [Hlt|[Heq|Hgt]]; [|exact Heq|]; exfalso.
        - destruct (Hstored t) as (v & Hv); [|congruence].
          apply list_elem_of_lookup. exists k. rewrite lookup_take_lt by exact Hlt.
          exact Hk.
        - destruct (Hbefore p) as (v & Hv); [|congruence].
          apply list_elem_of_lookup. exists k0. rewrite lookup_take_lt by exact Hgt.
          exact Hp. }
      rewrite Hk in Hp. injection Hp as <-. rewrite He in He0. injection He0 as <-.
      cbn. auto.
Qed.

Lemma processTextFileAsync_result_witness :
  exists rows,
    document_chunks (db (snd (processTextFileAsync sample_env 1 text_file
                                (world_with (fresh_document 1 text_file)))))
    = rows
    /\ Forall (chunk_of_text sample_env 1 (Some sample_user)) rows.
Proof.
  destruct (processTextFileAsync_result sample_env 1 text_file
              (world_with (fresh_document 1 text_file)) (fresh_document 1 text_file))
    as (rows & k & H1 & H2 & _).
  - reflexivity.
  - exists rows. split; [exact H1|exact H2].
Defined.

(** A file that is neither an image nor plain text is handed to the
    document pipeline, which cannot read it: the document always ends
    [error] with the message naming the file type, and no chunk is
    written and no database function called. *)
Theorem unsupported_file_fails (E : Env) (file : File) (row d : Document) (w : World) :
  String.prefix "image/" (file_type file) = false ->
  file_type file <> "text/plain" ->
  documents (db w) !! doc_id row = Some d ->
  let w' := snd (run_task E (task_for file row) w) in
  documents (db w') !! doc_id row
  = Some (patch [set_status error;
                 set_processing_error
                   ("File type " +:+ file_type file +:+ " not supported yet")]
            (patch [set_status processing] d))
  /\ document_chunks (db w') = document_chunks (db w)
  /\ rpc_log w' = rpc_log w
  /\ List.map sw_status (status_history w')
     = (List.map sw_status (status_history w) ++ [processing; error])%list.
Proof.
  intros Himg Htxt Hd. cbv zeta. unfold task_for. rewrite Himg.
  rewrite bool_decide_eq_false_2 by exact Htxt.
  unfold run_task, processDocumentAsync, try_catch, bind.
  destruct (update_document_run (doc_id row) [set_status processing] w d Hd)
    as (w1 & Hu1 & Hd1 & Hh1 & Hc1).
  pose proof (update_document_log _ _ _ _ Hu1) as Hl1. rewrite Hu1.
  unfold await, extractTextFromFile.
  destruct (decide (file_type file = "text/plain")) as [Heq|_]; [contradiction|].
  destruct (update_document_run (doc_id row)
              [set_status error;
               set_processing_error
                 (message_or
                    (JsError ("File type " +:+ file_type file +:+ " not supported yet"))
                    "Processing failed")] w1 _ Hd1)
    as (w2 & Hu2 & Hd2 & Hh2 & Hc2).
  pose proof (update_document_log _ _ _ _ Hu2) as Hl2.
  cbn [message_or] in *. rewrite Hu2. cbn [snd].
  split; [exact Hd2|]. split; [rewrite Hc2, Hc1; reflexivity|].
  split; [rewrite Hl2, Hl1; reflexivity|].
  rewrite Hh2, Hh1, !List.map_app. simpl. rewrite <- app_assoc. reflexivity.
Qed.

Lemma unsupported_file_fails_witness :
  doc_status
    <$> documents
          (db (snd (run_task sample_env
                      (task_for {| file_name := "paper.pdf";
                                   file_type := "application/pdf";
                                   file_size := 4096; file_text := "" |}
                         (fresh_document 1 text_file))
                      (world_with (fresh_document 1 text_file))))) !! 1%nat
  = Some error.
Proof.
  destruct (unsupported_file_fails sample_env
              {| file_name := "paper.pdf"; file_type := "application/pdf";
                 file_size := 4096; file_text := "" |}
              (fresh_document 1 text_file) (fresh_document 1 text_file)
              (world_with (fresh_document 1 text_file)))
    as (H & _).
  - reflexivity.
  - discriminate.
  - reflexivity.
  - change (doc_id (fresh_document 1 text_file)) with 1%nat in H.
    rewrite H. reflexivity.
Defined.

Lemma omap_length_le {A B} (f : A -> option B) (l : list A) :
  (length (omap f l) <= length l)%nat.
Proof.
  induction l as [|x l IH]; [simpl; lia|].
  cbn. destruct (f x); cbn; lia.
Qed.

(** What the basic lookup cannot miss: a chunk of the user whose
    document is in the store and whose similarity to the query is above
    the threshold is among the rows when the limit is at least the number
    of chunks. *)
Lemma similarity_search_finds dist (d : Database) q u thr (n : Z) c i doc e :
  c ∈ document_chunks d ->
  chunk_document_id c = Some i -> documents d !! i = Some doc ->
  chunk_user_id c = Some u ->
  chunk_embedding c = Some e -> (thr < 1 - dist e q)%Q ->
  (length (document_chunks d) <= Z.to_nat n)%nat -> (0 <= n)%Z ->
  exists rows,
    similarity_search dist d q u thr n = SqlOk rows
    /\ select_row dist q (c, doc) ∈ rows.
Proof.
  intros Hc Hi Hdoc Hu He Hlt Hlen Hn.
  unfold similarity_search. destruct (n <? 0)%Z eqn:Hneg;
    [apply Z.ltb_lt in Hneg; lia|].
  eexists. split; [reflexivity|].
  apply list_elem_of_fmap. exists (c, doc). split; [reflexivity|].
  assert (Hj : (c, doc) ∈ chunks_join_documents d).
  { unfold chunks_join_documents. apply list_elem_of_omap.
    exists c. split; [exact Hc|]. rewrite Hi, Hdoc. reflexivity. }
  set (P := fun r => sql_holds (similarity_search_where dist q u thr r)).
  assert (Hf : (c, doc) ∈ List.filter P (chunks_join_documents d)).
  { apply list_elem_of_In, List.filter_In. split; [apply list_elem_of_In; exact Hj|].
    unfold P, similarity_search_where.
    rewrite !sql_holds_and, !andb_true_iff. split.
    - apply holds_where_user. exact Hu.
    - apply andb_true_iff, (holds_where_similar dist). eauto. }
  rewrite take_ge.
  - rewrite merge_sort_Permutation. exact Hf.
  - rewrite merge_sort_Permutation.
    etransitivity; [|exact Hlen].
    etransitivity; [apply List.filter_length_le|].
    unfold chunks_join_documents. apply omap_length_le.
Qed.

(** From ingestion to retrieval: once the text pipeline has run on a
    document whose pieces all embed, every piece whose embedding is more
    similar to a query than the threshold is found by the basic lookup of
    the owner, with that similarity, when the limit is at least the
    number of chunks. *)
Theorem processed_text_is_searchable (E : Env) (id : nat) (file : File) (w : World)
    (d : Document) (u : UserId) (q : Vector) (thr : Q) (n : Z)
    (piece : string) (e : Vector) :
  documents (db w) !! id = Some d ->
  doc_user_id d = Some u ->
  (forall c, c ∈ textSplitter E (file_text file) ->
     exists v, embedQuery E (fst c) = Returned v) ->
  piece ∈ List.map fst (textSplitter E (file_text file)) ->
  embedQuery E piece = Returned e ->
  (thr < 1 - cosine_distance E e q)%Q ->
  let w' := snd (processTextFileAsync E id file w) in
  (length (document_chunks (db w')) <= Z.to_nat n)%nat ->
  (0 <= n)%Z ->
  exists rows row,
    similarity_search (cosine_distance E) (db w') q u thr n = SqlOk rows
    /\ row ∈ rows
    /\ row_chunk_text row = piece
    /\ row_document_id row = Some id
    /\ row_similarity row = Some (1 - cosine_distance E e q)%Q.
Proof.
  intros Hd Hu Hall Hpiece He Hlt w' Hlen Hn.
  destruct (processTextFileAsync_run E id file w d Hd)
    as (rows & k & H1 & H2 & H3 & _ & _ & H6).
  cbv zeta in *. fold w' in H1, H6.
  destruct H6 as [(Hk & t & Hdoc)|(p & ex & Hp & Hex & _)].
  - subst k. rewrite take_ge in H3 by (rewrite length_map; lia).
    rewrite <- H3 in Hpiece.
    apply list_elem_of_fmap in Hpiece as (c & -> & Hc).
    rewrite Forall_forall in H2.
    destruct (H2 c Hc) as (Hci & Hcu & (v & Hv & Hce) & _).
    rewrite He in Hv. injection Hv as <-.
    destruct (similarity_search_finds (cosine_distance E) (db w') q u thr n c id _ e
                ltac:(rewrite H1; apply elem_of_app; right; exact Hc) Hci Hdoc
                ltac:(congruence) Hce Hlt Hlen Hn)
      as (res & Hres & Hin).
    eexists res, _. split; [exact Hres|]. split; [exact Hin|].
    simpl. unfold similarity_to, distance_to. simpl. rewrite Hce. auto.
  - exfalso.
    apply list_elem_of_lookup_2 in Hp.
    apply list_elem_of_fmap in Hp as (c & -> & Hc).
    destruct (Hall c Hc) as (v & Hv). congruence.
Qed.

Lemma processed_text_is_searchable_witness :
  exists rows row,
    similarity_search (cosine_distance sample_env)
      (db (snd (processTextFileAsync sample_env 1 text_file
                  (world_with (fresh_document 1 text_file)))))
      [11%Q; 1%Q] sample_user (1 # 2) 5 = SqlOk rows
    /\ row ∈ rows /\ row_chunk_text row = "hello world".
Proof.
  destruct (processed_text_is_searchable sample_env 1 text_file
              (world_with (fresh_document 1 text_file)) (fresh_document 1 text_file)
              sample_user [11%Q; 1%Q] (1 # 2) 5 "hello world" [11%Q; 1%Q])
    as (rows & row & H1 & H2 & H3 & _).
  - reflexivity.
  - reflexivity.
  - intros c Hc. eexists. reflexivity.
  - vm_compute. left.
  - reflexivity.
  - vm_compute. reflexivity.
  - vm_compute. lia.
  - lia.
  - exists rows, row. auto.
Defined.

(** ** Uploads that fail *)

Lemma upload_one_thrown E u file w e w' :
  upload_one E u file w = (Thrown e, w') ->
  let name := pretty (time_source E (clock_reads w)) +:+ "-" +:+ sanitize (file_name file) in
  db w' = db w
  /\ dispatched w' = dispatched w
  /\ status_history w' = status_history w
  /\ ((is_Some (bucket w !! name) /\ bucket w' = bucket w
       /\ e = JsError "Storage upload failed: The resource already exists")
      \/ (bucket w !! name = None /\ (u ∉ users (db w))
          /\ bucket w' = <[name := file]> (bucket w)
          /\ e = JsError "Database insert failed: insert or update on table documents violates foreign key constraint")).
Proof.
  unfold upload_one, bind, Date_now, storage_upload, insert_document, dispatch,
    throw, ret.
  cbn [db bucket dispatched clock_reads with_clock_reads with_bucket with_db
       with_dispatched with_status_history].
  destruct (bucket w !! _) eqn:Hb.
  - intros [= <- <-]. cbn. repeat (split; [reflexivity|]). left. eauto.
  - cbn [db bucket dispatched clock_reads with_clock_reads with_bucket with_db
         with_dispatched with_status_history].
    destruct (decide (u ∈ users (db w))) as [Hu|Hu].
    + destruct (String.prefix "image/" (file_type file));
        [|destruct (bool_decide (file_type file = "text/plain"))]; discriminate.
    + intros [= <- <-]. cbn. repeat (split; [reflexivity|]). right. auto.
Qed.

(** The loop over the files stops at the first file that fails; the rows
    and pipelines of the files before it stay. *)
Lemma upload_each_thrown E u files : forall acc w e w',
  upload_each E u files acc w = (Thrown e, w') ->
  exists k docs,
    (k < length files)%nat
    /\ Forall2 (row_for u) (take k files) docs
    /\ List.map doc_id docs = seq (next_id (db w)) k
    /\ documents (db w') = insert_rows (documents (db w)) docs
    /\ dispatched w' = (dispatched w ++ zip_with task_for (take k files) docs)%list
    /\ document_chunks (db w') = document_chunks (db w).
Proof.
  induction files as [|file rest IH]; intros acc w e w' Hrun; simpl in Hrun.
  - discriminate.
  - unfold bind in Hrun.
    destruct (upload_one E u file w) as [[d|e1] w1] eqn:Hone.
    + pose proof (upload_one_returned _ _ _ _ _ _ Hone)
        as (Hrow & Hid & Hnext & Hdocs & Hdisp & _).
      assert (Hch : document_chunks (db w1) = document_chunks (db w)).
      { revert Hone.
        unfold upload_one, bind, Date_now, storage_upload, insert_document, dispatch,
          throw, ret.
        cbn [db bucket dispatched clock_reads with_clock_reads with_bucket with_db
             with_dispatched with_status_history].
        destruct (bucket w !! _); [discriminate|].
        cbn [db bucket dispatched clock_reads with_clock_reads with_bucket with_db
             with_dispatched with_status_history].
        destruct (decide (u ∈ users (db w))); [|discriminate].
        destruct (String.prefix "image/" (file_type file));
          [|destruct (bool_decide (file_type file = "text/plain"))];
          intros [= <- <-]; reflexivity. }
      apply IH in Hrun as (k & docs & Hk & Hrows & Hids & Hd & Hdi & Hc).
      exists (S k), (d :: docs). simpl.
      split; [lia|]. split; [constructor; assumption|].
      split; [rewrite Hid, Hids, Hnext; reflexivity|].
      split; [rewrite Hd, Hdocs; reflexivity|].
      split; [rewrite Hdi, Hdisp, <- app_assoc; reflexivity|].
      rewrite Hc. exact Hch.
    + injection Hrun as <- <-.
      apply upload_one_thrown in Hone as (Hdb & Hdi & _).
      exists 0%nat, []. simpl. rewrite Hdb, Hdi, app_nil_r.
      split; [lia|]. split; [constructor|]. auto.
Qed.

(** An upload that fails midway is not undone: the files before the one
    that failed keep their rows, in the state [uploaded], and their
    pipelines are started, while the response reports the failure and
    carries no document. *)
Theorem upload_failure_keeps_earlier_files (E : Env) (formData : UploadForm)
    (w w' : World) (resp : UploadResponse) :
  form_files formData <> [] ->
  truthy_str (form_userId formData) = true ->
  uploadDocuments E formData w = (Returned resp, w') ->
  upload_success resp = false ->
  let files := only_files (form_files formData) in
  exists k docs,
    (k < length files)%nat
    /\ Forall2 (row_for (str_or (form_userId formData) "")) (take k files) docs
    /\ List.map doc_id docs = seq (next_id (db w)) k
    /\ documents (db w') = insert_rows (documents (db w)) docs
    /\ dispatched w' = (dispatched w ++ zip_with task_for (take k files) docs)%list
    /\ upload_data resp = None
    /\ is_Some (upload_error resp).
Proof.
  intros Hfiles Huser Hrun Hfail. cbv zeta.
  unfold uploadDocuments, try_catch, bind in Hrun.
  destruct (decide (form_files formData = [])) as [Hnil|_]; [contradiction|].
  cbn [ret throw] in Hrun. rewrite Huser in Hrun. cbn [ret throw] in Hrun.
  destruct (upload_each E _ _ [] w) as [[res|e] w1] eqn:Heach.
  - unfold Date_now in Hrun. injection Hrun as <- <-. discriminate.
  - apply upload_each_thrown in Heach as (k & docs & Hk & Hrows & Hids & Hd & Hdi & _).
    unfold Date_now in Hrun. cbn in Hrun. injection Hrun as <- <-.
    exists k, docs. cbn. auto 10.
Qed.

(** An upload for a user the store does not know fails at the insert of
    the first row, after the file has been stored: the file stays in the
    bucket with no row referring to it, and no pipeline is started. *)
Theorem upload_unknown_user_orphans_file (E : Env) (formData : UploadForm)
    (w : World) (u : string) (file : File) (rest : list File) :
  form_userId formData = Some u -> u <> "" ->
  only_files (form_files formData) = file :: rest ->
  u ∉ users (db w) ->
  let name := pretty (time_source E (clock_reads w)) +:+ "-" +:+ sanitize (file_name file) in
  bucket w !! name = None ->
  let r := uploadDocuments E formData w in
  bucket (snd r) = <[name := file]> (bucket w)
  /\ db (snd r) = db w
  /\ dispatched (snd r) = dispatched w
  /\ exists ts,
       fst r = Returned
                 {| upload_success := false; upload_timestamp := ts;
                    upload_data := None;
                    upload_error :=
                      Some "Database insert failed: insert or update on table documents violates foreign key constraint" |}.
Proof.
  intros Hu Hne Hfiles Hun name Hb. cbv zeta.
  unfold uploadDocuments, try_catch, bind.
  destruct (decide (form_files formData = [])) as [Hnil|_].
  { rewrite Hnil in Hfiles. discriminate. }
  cbn [ret throw]. rewrite Hu. unfold truthy_str, str_or.
  destruct (decide (u = "")) as [|_]; [contradiction|].
  cbn [ret throw]. rewrite Hfiles. cbn [upload_each]. unfold bind.
  assert (Hone : upload_one E u file w
                 = (Thrown (JsError "Database insert failed: insert or update on table documents violates foreign key constraint"),
                    with_bucket (with_clock_reads w (S (clock_reads w)))
                      (<[name := file]> (bucket w)))).
  { unfold upload_one, bind, Date_now, storage_upload, insert_document, throw.
    cbn [db bucket dispatched clock_reads with_clock_reads with_bucket with_db].
    fold name. rewrite Hb.
    cbn [db bucket dispatched clock_reads with_clock_reads with_bucket with_db].
    destruct (decide (u ∈ users (db w))); [contradiction|reflexivity]. }
  rewrite Hone. unfold Date_now. cbn. eauto 10.
Qed.

Lemma upload_failure_keeps_earlier_files_witness :
  exists d,
    dispatched
      (snd (uploadDocuments sample_env sample_upload
              {| db := empty_db; bucket := {[ "1002-cat.png" := image_file ]};
                 dispatched := []; clock_reads := 0; rpc_log := [];
                 status_history := [] |}))
    = [TextTask (doc_id d) text_file]
    /\ doc_status d = uploaded.
Proof.
  pose (w := {| db := empty_db; bucket := {[ "1002-cat.png" := image_file ]};
                dispatched := []; clock_reads := 0; rpc_log := [];
                status_history := [] |}).
  destruct (upload_failure_keeps_earlier_files sample_env sample_upload w
              (snd (uploadDocuments sample_env sample_upload w))
              (returned_or no_response (fst (uploadDocuments sample_env sample_upload w))))
    as (k & docs & Hk & Hrows & Hids & _ & Hdisp & _).
  - discriminate.
  - reflexivity.
  - vm_compute. reflexivity.
  - vm_compute. reflexivity.
  - assert (Hone : dispatched (snd (uploadDocuments sample_env sample_upload w))
                   = [TextTask 1 text_file]) by (vm_compute; reflexivity).
    rewrite Hone in Hdisp. cbv zeta in *.
    change (only_files (form_files sample_upload)) with [text_file; image_file]
      in Hrows, Hdisp.
    destruct k as [|[|k]]; [| |simpl in Hk; lia].
    + inversion Hrows; subst. discriminate Hdisp.
    + inversion Hrows as [|f d fs ds Hrow Hrest]; subst.
      inversion Hrest; subst.
      exists d. split; [|apply Hrow].
      simpl in Hids. injection Hids as Hid. rewrite Hid. exact Hone.
Defined.

Lemma upload_unknown_user_orphans_file_witness :
  bucket (snd (uploadDocuments sample_env
                 {| form_files := [EntryFile text_file]; form_userId := Some "nobody" |}
                 sample_world))
  = {[ "1000-hello.txt" := text_file ]}.
Proof.
  destruct (upload_unknown_user_orphans_file sample_env
              {| form_files := [EntryFile text_file]; form_userId := Some "nobody" |}
              sample_world "nobody" text_file [])
    as (H & _).
  - reflexivity.
  - discriminate.
  - reflexivity.
  - vm_compute. intros H. discriminate H.
  - reflexivity.
  - rewrite H. reflexivity.
Defined.

(** ** The image pipeline *)





(** When the vision model fails, the image pipeline records the failure
    and does nothing else: the document ends [error] with the message of
    the failure, and no chunk is written and no database function
    called. *)
Theorem image_vision_failure (E : Env) (id : nat) (url : string) (w : World)
    (d : Document) (e : Exn) :
  documents (db w) !! id = Some d ->
  visionInvoke E url = Thrown e ->
  let w' := snd (processImageAsync E id url w) in
  documents (db w') !! id
  = Some (patch [set_status error;
                 set_processing_error
                   (message_or e "Enhanced image processing failed")]
            (patch [set_status processing] d))
  /\ document_chunks (db w') = document_chunks (db w)
  /\ rpc_log w' = rpc_log w
  /\ tags (db w') = tags (db w)
  /\ document_tags (db w') = document_tags (db w).
Proof.
  intros Hd Hv.
  destruct (update_document_run id [set_status processing] w d Hd)
    as (w1 & Hu1 & Hd1 & Hh1 & Hc1).
  pose proof (update_document_rest id (patch [set_status processing]) w) as R1.
  cbv zeta in R1. rewrite Hu1 in R1. cbn [snd] in R1.
  destruct R1 as (Hl1 & _ & _ & Ht1 & Hdt1 & _).
  destruct (update_document_run id
              [set_status error;
               set_processing_error (message_or e "Enhanced image processing failed")]
              w1 _ Hd1) as (w2 & Hu2 & Hd2 & Hh2 & Hc2).
  pose proof (update_document_rest id
                (patch [set_status error;
                        set_processing_error
                          (message_or e "Enhanced image processing failed")]) w1) as R2.
  cbv zeta in R2. rewrite Hu2 in R2. cbn [snd] in R2.
  destruct R2 as (Hl2 & _ & _ & Ht2 & Hdt2 & _).
  assert (Hrun : processImageAsync E id url w = (Returned tt, w2)).
  { unfold processImageAsync, try_catch. unfold bind at 1. rewrite Hu1.
    unfold bind at 1. unfold await at 1. rewrite Hv. exact Hu2. }
  cbv zeta. rewrite Hrun. cbn [snd].
  split; [exact Hd2|]. split; [rewrite Hc2, Hc1; reflexivity|].
  split; [rewrite Hl2, Hl1; reflexivity|].
  split; [rewrite Ht2, Ht1; reflexivity|rewrite Hdt2, Hdt1; reflexivity].
Qed.


Lemma image_vision_failure_witness :
  doc_processing_error
    <$> documents
          (db (snd (processImageAsync
                      {| embedQuery := embedQuery sample_env;
                         textSplitter := textSplitter sample_env;
                         visionInvoke := fun _ => Thrown (JsError "quota exceeded");
                         JSON_parse := JSON_parse sample_env;
                         summaryInvoke := summaryInvoke sample_env;
                         cosine_distance := cosine_distance sample_env;
                         time_source := time_source sample_env;
                         getPublicUrl := getPublicUrl sample_env;
                         rpc_fault := rpc_fault sample_env |}
                      1 "https://store.example/fainder/cat.png"
                      (world_with (fresh_document 1 image_file))))) !! 1%nat
  = Some (Some "quota exceeded").
Proof.
  destruct (image_vision_failure
              {| embedQuery := embedQuery sample_env;
                 textSplitter := textSplitter sample_env;
                 visionInvoke := fun _ => Thrown (JsError "quota exceeded");
                 JSON_parse := JSON_parse sample_env;
                 summaryInvoke := summaryInvoke sample_env;
                 cosine_distance := cosine_distance sample_env;
                 time_source := time_source sample_env;
                 getPublicUrl := getPublicUrl sample_env;
                 rpc_fault := rpc_fault sample_env |}
              1 "https://store.example/fainder/cat.png"
              (world_with (fresh_document 1 image_file)) (fresh_document 1 image_file)
              (JsError "quota exceeded") eq_refl eq_refl) as (H & _).
  rewrite H. reflexivity.
Defined.

(** ** The vision tags and [auto_tags] *)

Lemma keeps_tags_ret {A} (a : A) : keeps_tags (ret a).
Proof. intros w. split; reflexivity. Qed.

Lemma keeps_tags_await {A} (o : Outcome A) : keeps_tags (await o).
Proof. intros w. split; reflexivity. Qed.

Lemma keeps_tags_bind {A B} (m : Action A) (k : A -> Action B) :
  keeps_tags m -> (forall a, keeps_tags (k a)) -> keeps_tags (bind m k).
Proof.
  intros Hm Hk w. unfold bind. specialize (Hm w).
  destruct (m w) as [[a|e] w1]; simpl in *; [|exact Hm].
  destruct (Hk a w1) as [H1 H2]. destruct Hm as [H3 H4].
  split; congruence.
Qed.

Lemma keeps_tags_try_catch {A} (m : Action A) (h : Exn -> Action A) :
  keeps_tags m -> (forall e, keeps_tags (h e)) -> keeps_tags (try_catch m h).
Proof.
  intros Hm Hh w. unfold try_catch. specialize (Hm w).
  destruct (m w) as [[a|e] w1]; simpl in *; [exact Hm|].
  destruct (Hh e w1) as [H1 H2]. destruct Hm as [H3 H4].
  split; congruence.
Qed.

Lemma keeps_tags_for_each {A} (f : A -> Action unit) (l : list A) :
  (forall a, keeps_tags (f a)) -> keeps_tags (for_each f l).
Proof.
  intros Hf. induction l as [|x l IH]; simpl; [apply keeps_tags_ret|].
  apply keeps_tags_bind; [apply Hf|intros _; exact IH].
Qed.

Lemma keeps_tags_Date_now E : keeps_tags (Date_now E).
Proof. intros w. split; reflexivity. Qed.

Lemma keeps_tags_update_document id f : keeps_tags (update_document id f).
Proof. intros w. split; reflexivity. Qed.

Lemma keeps_tags_rpc E c : keeps_tags (rpc E c).
Proof.
  intros w. unfold rpc. destruct (rpc_fault E (rpc_name c)); [split; reflexivity|].
  destruct c as [q u thr n cts ts|q u thr n|d name conf source|d].
  - destruct (enhanced_similarity_search _ _ _ _ _ _ _ _); split; reflexivity.
  - destruct (similarity_search _ _ _ _ _ _); split; reflexivity.
  - rewrite add_document_tag_error. split; reflexivity.
  - split; reflexivity.
Qed.

Lemma keeps_tags_embed_and_insert E id u md : forall chunks i,
  keeps_tags (embed_and_insert E id u md i chunks).
Proof.
  induction chunks as [|chunk rest IH]; intros i; simpl; [apply keeps_tags_ret|].
  apply keeps_tags_bind; [apply keeps_tags_await|intros v].
  apply keeps_tags_bind; [apply keeps_tags_Date_now|intros now].
  apply keeps_tags_bind; [intros w; split; reflexivity|intros _; apply IH].
Qed.

Lemma keeps_tags_createChunksForDocument E id text md :
  keeps_tags (createChunksForDocument E id text md).
Proof.
  unfold createChunksForDocument.
  apply keeps_tags_try_catch; [|intros e w; split; reflexivity].
  apply keeps_tags_bind; [intros w; split; reflexivity|].
  intros [d|]; [apply keeps_tags_embed_and_insert|intros w; split; reflexivity].
Qed.

Lemma keeps_db_ret {A} (a : A) : keeps_db (ret a).
Proof. intros w. reflexivity. Qed.

Lemma keeps_db_bind {A B} (m : Action A) (k : A -> Action B) :
  keeps_db m -> (forall a, keeps_db (k a)) -> keeps_db (bind m k).
Proof.
  intros Hm Hk w. unfold bind. specialize (Hm w).
  destruct (m w) as [[a|e] w1]; simpl in *; [|exact Hm].
  rewrite Hk. exact Hm.
Qed.

Lemma keeps_db_for_each {A} (f : A -> Action unit) (l : list A) :
  (forall a, keeps_db (f a)) -> keeps_db (for_each f l).
Proof.
  intros Hf. induction l as [|x l IH]; simpl; [apply keeps_db_ret|].
  apply keeps_db_bind; [apply Hf|intros _; exact IH].
Qed.

(** A call of [add_document_tag] leaves the store as it is. *)
Lemma keeps_db_add_document_tag E doc name conf source :
  keeps_db (rpc E (call_add_document_tag doc name conf source)).
Proof.
  intros w. unfold rpc. cbn [rpc_name].
  destruct (rpc_fault E fn_add_document_tag); [reflexivity|].
  rewrite add_document_tag_error. reflexivity.
Qed.

Lemma keeps_db_add_vision_tags E id a : keeps_db (add_vision_tags E id a).
Proof.
  unfold add_vision_tags. destruct (an_tags a); [|apply keeps_db_ret].
  apply keeps_db_for_each. intros x.
  destruct (1 <? String.length x)%nat; [|apply keeps_db_ret].
  apply keeps_db_bind; [apply keeps_db_add_document_tag|intros _; apply keeps_db_ret].
Qed.

Lemma keeps_db_add_category_tags E id a : keeps_db (add_category_tags E id a).
Proof.
  unfold add_category_tags. destruct (an_categories a); [|apply keeps_db_ret].
  apply keeps_db_for_each. intros x.
  destruct (decide (x = "")); [apply keeps_db_ret|].
  apply keeps_db_bind; [apply keeps_db_add_document_tag|intros _; apply keeps_db_ret].
Qed.

Lemma keeps_db_keeps_tags {A} (m : Action A) : keeps_db m -> keeps_tags m.
Proof. intros H w. rewrite H. split; reflexivity. Qed.

Lemma keeps_tags_processImageAsync E id url : keeps_tags (processImageAsync E id url).
Proof.
  unfold processImageAsync.
  apply keeps_tags_try_catch; [|intros e; apply keeps_tags_update_document].
  apply keeps_tags_bind; [apply keeps_tags_update_document|intros _].
  apply keeps_tags_bind; [apply keeps_tags_await|intros text]. cbv zeta.
  apply keeps_tags_bind; [apply keeps_tags_Date_now|intros now].
  apply keeps_tags_bind; [apply keeps_tags_update_document|intros _].
  apply keeps_tags_bind;
    [apply keeps_db_keeps_tags, keeps_db_add_vision_tags|intros _].
  apply keeps_tags_bind;
    [apply keeps_db_keeps_tags, keeps_db_add_category_tags|intros _].
  apply keeps_tags_bind; [apply keeps_tags_rpc|intros _].
  apply keeps_tags_bind; [apply keeps_tags_createChunksForDocument|intros _].
  apply keeps_tags_bind; [apply keeps_tags_Date_now|intros now'].
  apply keeps_tags_update_document.
Qed.

(** With no row in [document_tags], the array of a document's tag names
    is NULL. *)
Lemma update_document_auto_tags_none db id d :
  documents db !! id = Some d ->
  document_tags db = [] ->
  documents (update_document_auto_tags db id) !! id = Some (set_auto_tags d None).
Proof.
  intros Hd Hnone. unfold update_document_auto_tags. simpl.
  rewrite lookup_alter_eq, Hd. simpl. unfold document_tag_rows. rewrite Hnone.
  reflexivity.
Qed.

(** The tag steps of the image pipeline on a store without tag rows:
    every [add_document_tag] fails, so the array the last step writes is
    NULL. *)
Lemma tag_steps_auto_tags E id a w d :
  documents (db w) !! id = Some d ->
  rpc_fault E fn_update_document_auto_tags = None ->
  document_tags (db w) = [] ->
  exists w',
    (add_vision_tags E id a ;;;
     add_category_tags E id a ;;;
     rpc E (call_update_document_auto_tags id) ;;;
     ret tt) w = (Returned tt, w')
    /\ documents (db w') !! id = Some (set_auto_tags d None).
Proof.
  intros Hd Hf Hnone.
  destruct (tag_steps_then E id a w) as (w0 & _ & _ & Hk).
  pose proof (Hk _ (ret tt)) as Hm.
  pose proof (keeps_db_add_vision_tags E id a w) as K1.
  unfold bind in Hm |- *.
  destruct (add_vision_tags E id a w) as [[[]|e1] w1]; [|discriminate Hm].
  pose proof (keeps_db_add_category_tags E id a w1) as K2.
  destruct (add_category_tags E id a w1) as [[[]|e2] w2]; [|discriminate Hm].
  cbn [snd] in K1, K2.
  unfold rpc. cbn [rpc_name]. rewrite Hf. unfold ret.
  eexists. split; [reflexivity|].
  cbn [db with_db]. rewrite K2, K1.
  apply update_document_auto_tags_none; assumption.
Qed.

(** The tags of the vision analysis never reach the document: every
    [add_document_tag] of the pipeline fails, so an image is processed
    without a tag being created or attached, and with no tag row in the
    store its [auto_tags] is left NULL, whatever tags and categories the
    analysis named and whether the chunks are then embedded or not. *)
Theorem vision_tags_never_stored (E : Env) (id : nat) (url : string) (w : World)
    (d : Document) (text : string) :
  documents (db w) !! id = Some d ->
  visionInvoke E url = Returned text ->
  rpc_fault E fn_update_document_auto_tags = None ->
  document_tags (db w) = [] ->
  let w' := snd (processImageAsync E id url w) in
  tags (db w') = tags (db w)
  /\ document_tags (db w') = []
  /\ exists d', documents (db w') !! id = Some d' /\ doc_auto_tags d' = None.
Proof.
  intros Hd Hv Hf Hnone. cbv zeta.
  destruct (keeps_tags_processImageAsync E id url w) as [Ht Hdt].
  split; [exact Ht|]. split; [rewrite Hdt; exact Hnone|].
  unfold processImageAsync, try_catch. unfold bind at 1.
  pose proof (keeps_tags_update_document id (patch [set_status processing]) w) as [_ K1].
  destruct (update_document_run id [set_status processing] w d Hd)
    as (w1 & Hu1 & Hd1 & _). rewrite Hu1 in K1 |- *. cbn [snd] in K1.
  unfold bind at 1. unfold await at 1. rewrite Hv.
  set (a := parse_analysis E text).
  unfold bind at 1. unfold Date_now at 1.
  unfold bind at 1.
  match goal with
  | |- context [update_document id (patch ?l) (with_clock_reads w1 ?n)] =>
      pose proof (keeps_tags_update_document id (patch l) (with_clock_reads w1 n))
        as [_ K2];
      destruct (update_document_run id l (with_clock_reads w1 n) _ Hd1)
        as (w2 & Hu2 & Hd2 & _); rewrite Hu2 in K2 |- *
  end.
  cbn [snd db with_clock_reads] in K2.
  assert (Hnone2 : document_tags (db w2) = []) by (rewrite K2, K1; exact Hnone).
  destruct (tag_steps_auto_tags E id a w2 _ Hd2 Hf Hnone2) as (w3 & Hsteps & Hd3).
  destruct (tag_steps_then E id a w2) as (w3' & _ & _ & Hk).
  pose proof (Hk _ (ret tt)) as Hk'. rewrite Hsteps in Hk'.
  unfold ret in Hk'. injection Hk' as <-.
  rewrite Hk.
  unfold bind at 1.
  destruct (createChunksForDocument_rows E id (searchable_content a)
              (image_metadata a) w3 _ Hd3)
    as (rows & k & _ & Hdocs & _).
  cbv zeta in Hdocs.
  assert (Hd4 := Hd3). rewrite <- Hdocs in Hd4.
  destruct (createChunksForDocument E id (searchable_content a) _ w3) as [[[]|e] w4];
    cbn [fst snd] in *.
  - unfold bind, Date_now.
    destruct (update_document_run id
                [set_status processed; set_processed_at (time_source E (clock_reads w4))]
                (with_clock_reads w4 (S (clock_reads w4))) _ Hd4)
      as (w5 & Hu5 & Hd5 & _).
    rewrite Hu5. cbn [snd]. eexists. split; [exact Hd5|reflexivity].
  - destruct (update_document_run id
                [set_status error;
                 set_processing_error (message_or e "Enhanced image processing failed")]
                w4 _ Hd4) as (w5 & Hu5 & Hd5 & _).
    rewrite Hu5. cbn [snd]. eexists. split; [exact Hd5|reflexivity].
Qed.

Lemma vision_tags_never_stored_witness :
  let w' := snd (processImageAsync sample_env 1 "https://store.example/fainder/cat.png"
                   (world_with (fresh_document 1 image_file))) in
  tags (db w') = []
  /\ document_tags (db w') = []
  /\ exists d', documents (db w') !! 1%nat = Some d'
                /\ doc_status d' = processed /\ doc_auto_tags d' = None.
Proof.
  intros w'.
  destruct (vision_tags_never_stored sample_env 1
              "https://store.example/fainder/cat.png"
              (world_with (fresh_document 1 image_file)) (fresh_document 1 image_file)
              "**main_description:** A cat on a mat" eq_refl eq_refl eq_refl eq_refl)
    as (Ht & Hdt & d' & Hd' & Ha).
  split; [exact Ht|]. split; [exact Hdt|].
  exists d'. split; [exact Hd'|]. split; [|exact Ha].
  fold w' in Hd'. vm_compute in Hd'. injection Hd' as <-. reflexivity.
Defined.

(** ** Question answering and the search box *)

(** A form without the field [message] is refused before anything is
    written. *)
Lemma askQuestion_without_message E C formData cw :
  chat_message formData = None ->
  askQuestion E C formData cw
  = (Returned {| chat_success := false;
                 chat_timestamp := time_source E (clock_reads (chat_world cw));
                 chat_data := None;
                 chat_error := Some "ZodError: message" |},
     {| chat_world := with_clock_reads (chat_world cw) (S (clock_reads (chat_world cw)));
        conversations := conversations cw;
        messages := messages cw;
        chat_next_id := chat_next_id cw |}).
Proof.
  intros Hm. unfold askQuestion, chat_try_catch, chat_bind, lift, await.
  rewrite Hm. reflexivity.
Qed.

(** The question mode of the search box never gets an answer: the form
    [handleSearch] builds carries the query but no [message], so
    [askQuestion] refuses it; no conversation or message is written, no
    search is made, and the component shows nothing new. *)
Theorem search_box_cannot_ask (E : Env) (C : ChatEnv) (query : string)
    (userId : option string) (cw : ChatWorld) :
  let r := handleSearch E C mode_chat query userId cw in
  fst r = Returned no_update
  /\ conversations (snd r) = conversations cw
  /\ messages (snd r) = messages cw
  /\ db (chat_world (snd r)) = db (chat_world cw)
  /\ rpc_log (chat_world (snd r)) = rpc_log (chat_world cw)
  /\ bucket (chat_world (snd r)) = bucket (chat_world cw).
Proof.
  cbv zeta. unfold handleSearch.
  destruct (decide (trim query = "")); [simpl; auto 10|].
  destruct (truthy_str userId); cbn [negb]; [|simpl; auto 10].
  unfold chat_try_catch, chat_bind.
  rewrite askQuestion_without_message by reflexivity. simpl. auto 10.
Qed.

Lemma find_conversation_new C (l : list Conversation) (c : Conversation) :
  (forall i j, uuid_text C i = uuid_text C j -> i = j) ->
  Forall (fun x => (conv_id x < conv_id c)%nat) l ->
  find_conversation C (uuid_text C (conv_id c)) (l ++ [c]) = Some c.
Proof.
  intros Hinj. unfold find_conversation. induction 1 as [|x l Hx Hl IH]; simpl.
  - rewrite bool_decide_eq_true_2 by reflexivity. reflexivity.
  - rewrite bool_decide_eq_false_2; [exact IH|].
    intros Heq. apply Hinj in Heq. lia.
Qed.

(** The user's message as [askQuestion] saves it. *)
Lemma askQuestion_saves E C formData cw v id :
  parsed_chat formData = Returned v ->
  forall cw1,
    (cv_conversation_id v = Some id /\ cw1 = cw)
    \/ (cv_conversation_id v = None
        /\ cv_user_id v ∈ users (db (chat_world cw))
        /\ id = uuid_text C (chat_next_id cw)
        /\ cw1 = {| chat_world := with_clock_reads (chat_world cw)
                                    (S (clock_reads (chat_world cw)));
                    conversations :=
                      conversations cw
                      ++ [{| conv_id := chat_next_id cw;
                             conv_user_id := Some (cv_user_id v);
                             conv_title :=
                               Some (substring0 50 (cv_message v) +:+ "...");
                             conv_created_at :=
                               time_source E (clock_reads (chat_world cw)) |}];
                    messages := messages cw;
                    chat_next_id := S (chat_next_id cw) |}) ->
    askQuestion E C formData cw
    = match find_conversation C id (conversations cw1) with
      | Some c =>
          chat_try_catch (answer_with_context E C formData v id)
            (fun exn => chat_failure E exn)
            {| chat_world := with_clock_reads (chat_world cw1)
                               (S (clock_reads (chat_world cw1)));
               conversations := conversations cw1;
               messages :=
                 messages cw1
                 ++ [{| msg_id := chat_next_id cw1;
                        msg_conversation_id := Some (conv_id c);
                        msg_role := "user";
                        msg_content := cv_message v;
                        msg_metadata := MetaEmpty;
                        msg_created_at :=
                          time_source E (clock_reads (chat_world cw1)) |}];
               chat_next_id := S (chat_next_id cw1) |}
      | None =>
          chat_failure E
            (JsError "Message save failed: insert or update on table messages violates foreign key constraint")
            cw1
      end.
Proof.
  intros Hp cw1 Hcases. unfold parsed_chat in Hp.
  unfold askQuestion. unfold chat_try_catch at 1. unfold chat_bind at 1.
  unfold lift at 1. unfold await at 1. rewrite Hp.
  destruct Hcases as [(Hsome & ->)|(Hnone & Hu & -> & ->)].
  - rewrite Hsome. destruct cw as [w convs msgs nid]. cbn [chat_world conversations messages chat_next_id].
    unfold chat_bind at 1. unfold chat_bind at 1. unfold chat_ret at 1.
    unfold insert_message at 1.
    cbn [chat_world conversations messages chat_next_id].
    destruct (find_conversation C id convs) as [c|]; reflexivity.
  - rewrite Hnone. unfold chat_bind at 1. unfold chat_bind at 1. unfold chat_bind at 1.
    unfold insert_conversation at 1. rewrite decide_True by exact Hu.
    unfold chat_ret at 1. cbv beta iota zeta.
    unfold insert_message at 1.
    cbn [conversations messages chat_next_id chat_world conv_id].
    destruct (find_conversation C _ _) as [c|]; reflexivity.
Qed.

Lemma searchDocuments_returns E formData w :
  exists resp w', searchDocuments E formData w = (Returned resp, w').
Proof.
  destruct (searchDocuments_cases E formData w) as [(v & q & Hp & He & Hu)|Href].
  - destruct (parsed_search_bounds _ _ Hp) as (_ & _ & _ & _ & _ & Hmax & _).
    set (w1 := with_db (with_clock_reads w (S (clock_reads w)))
                 (insert_search_query_row (db w) (new_query_row w v q))).
    destruct (similarity_lookup_outcome E q v w1) as (out & calls & Hlook & _ & _);
      [lia|].
    pose proof (searchDocuments_finish E formData w v q Hp He Hu out calls Hlook) as H.
    cbv zeta in H. destruct H as (_ & _ & _ & _ & _ & _ & _ & _ & _ & H9).
    destruct (searchDocuments E formData w) as [o w'].
    destruct out; destruct H9 as (_ & _ & ts & Hfst); simpl in Hfst; subst o; eauto.
  - destruct (searchDocuments_refused E formData w Href) as (e & n & Hrun & _). eauto.
Qed.

(** The second half of [askQuestion], case by case. *)
Lemma answer_with_context_run E C formData v id cw sresp w1 :
  searchDocuments E (chat_search formData) (chat_world cw) = (Returned sresp, w1) ->
  let r := chat_try_catch (answer_with_context E C formData v id)
             (fun exn => chat_failure E exn) cw in
  conversations (snd r) = conversations cw
  /\ exists resp,
       fst r = Returned resp
       /\ match search_success sresp, search_data sresp with
          | true, Some data =>
              match generateStructuredAnswer C (cv_message v) (data_results data) with
              | Thrown e =>
                  chat_success resp = false /\ chat_data resp = None
                  /\ chat_error resp = Some (message_or e "Chat failed")
                  /\ messages (snd r) = messages cw
              | Returned ans =>
                  match find_conversation C id (conversations cw) with
                  | None =>
                      chat_success resp = false /\ chat_data resp = None
                      /\ is_Some (chat_error resp)
                      /\ messages (snd r) = messages cw
                  | Some c =>
                      let am := {| msg_id := chat_next_id cw;
                                   msg_conversation_id := Some (conv_id c);
                                   msg_role := "assistant";
                                   msg_content := answer ans;
                                   msg_metadata := MetaAnswer ans (data_query_id data);
                                   msg_created_at := time_source E (clock_reads w1) |} in
                      messages (snd r) = (messages cw ++ [am])%list
                      /\ if ChatResponseSchema_ok am id
                         then chat_success resp = true
                              /\ chat_data resp
                                 = Some {| chat_data_message := am;
                                           chat_data_conversation_id := id;
                                           chat_data_answer := ans |}
                              /\ chat_error resp = None
                         else chat_success resp = false /\ chat_data resp = None
                              /\ chat_error resp = Some "ZodError: data"
                  end
              end
          | _, _ =>
              chat_success resp = false /\ chat_data resp = None
              /\ chat_error resp = Some "Failed to find relevant context"
              /\ messages (snd r) = messages cw
          end.
Proof.
  intros Hs. cbv zeta.
  destruct (chat_try_catch (answer_with_context E C formData v id)
              (fun exn => chat_failure E exn) cw) as [o cw'] eqn:Hrun.
  unfold chat_try_catch, answer_with_context in Hrun.
  unfold chat_bind at 1 in Hrun. unfold lift at 1 in Hrun. rewrite Hs in Hrun.
  destruct (search_success sresp); [destruct (search_data sresp) as [data|]|].
  2,3: unfold chat_throw, chat_failure, chat_bind, lift, Date_now, chat_ret in Hrun;
       injection Hrun as <- <-; simpl; split; [reflexivity|];
       eexists; split; [reflexivity|]; simpl; auto.
  unfold chat_bind at 1 in Hrun. unfold lift at 1 in Hrun. unfold await at 1 in Hrun.
  destruct (generateStructuredAnswer C (cv_message v) (data_results data)) as [ans|e].
  2:{ unfold chat_failure, chat_bind, lift, Date_now, chat_ret in Hrun.
      injection Hrun as <- <-. simpl. split; [reflexivity|].
      eexists; split; [reflexivity|]. simpl. auto. }
  unfold chat_bind at 1 in Hrun. unfold insert_message at 1 in Hrun.
  cbn [conversations messages chat_next_id chat_world] in Hrun.
  destruct (find_conversation C id (conversations cw)) as [c|].
  2:{ unfold chat_throw, chat_failure, chat_bind, lift, Date_now, chat_ret in Hrun.
      injection Hrun as <- <-. simpl. split; [reflexivity|].
      eexists; split; [reflexivity|]. simpl. eauto. }
  cbv zeta.
  destruct (ChatResponseSchema_ok _ id);
    unfold chat_throw, chat_failure, chat_bind, lift, Date_now, chat_ret in Hrun;
    injection Hrun as <- <-; simpl; (split; [reflexivity|]);
    eexists; (split; [reflexivity|]); simpl; auto.
Qed.

Lemma askQuestion_refused E C formData cw e :
  parsed_chat formData = Thrown e ->
  askQuestion E C formData cw = chat_failure E e cw.
Proof.
  intros Hp. unfold parsed_chat in Hp.
  unfold askQuestion. unfold chat_try_catch at 1. unfold chat_bind at 1.
  unfold lift at 1. unfold await at 1. rewrite Hp.
  destruct cw. reflexivity.
Qed.

Lemma askQuestion_unknown_user E C formData cw v :
  parsed_chat formData = Returned v ->
  cv_conversation_id v = None ->
  cv_user_id v ∉ users (db (chat_world cw)) ->
  askQuestion E C formData cw
  = chat_failure E
      (JsError "Conversation creation failed: insert or update on table conversations violates foreign key constraint")
      cw.
Proof.
  intros Hp Hnone Hu. unfold parsed_chat in Hp.
  unfold askQuestion. unfold chat_try_catch at 1. unfold chat_bind at 1.
  unfold lift at 1. unfold await at 1. rewrite Hp. rewrite Hnone.
  unfold chat_bind at 1. unfold chat_bind at 1. unfold chat_bind at 1.
  unfold insert_conversation at 1. rewrite decide_False by exact Hu.
  destruct cw. reflexivity.
Qed.

Lemma chat_failure_run E e cw :
  chat_failure E e cw
  = (Returned {| chat_success := false;
                 chat_timestamp := time_source E (clock_reads (chat_world cw));
                 chat_data := None;
                 chat_error := Some (message_or e "Chat failed") |},
     {| chat_world := with_clock_reads (chat_world cw) (S (clock_reads (chat_world cw)));
        conversations := conversations cw;
        messages := messages cw;
        chat_next_id := chat_next_id cw |}).
Proof. reflexivity. Qed.

Lemma search_success_parsed E formData w resp w' :
  searchDocuments E formData w = (Returned resp, w') ->
  search_success resp = true ->
  exists sv, parsed_search formData = Returned sv.
Proof.
  intros Hrun Hok.
  destruct (searchDocuments_cases E formData w) as [(v & q & Hp & _)|Href]; [eauto|].
  destruct (searchDocuments_refused E formData w Href) as (e & n & Hrun' & _).
  rewrite Hrun' in Hrun. injection Hrun as <- _. discriminate.
Qed.

(** A question is refused, and nothing is written or searched, when the
    form does not validate, when it opens a conversation for a user the
    store does not know, or when it names a conversation that does not
    exist. *)
Theorem askQuestion_refused_untouched (E : Env) (C : ChatEnv) (formData : ChatForm)
    (cw : ChatWorld) :
  (match parsed_chat formData with
   | Thrown _ => True
   | Returned v =>
       match cv_conversation_id v with
       | None => cv_user_id v ∉ users (db (chat_world cw))
       | Some id => find_conversation C id (conversations cw) = None
       end
   end) ->
  let r := askQuestion E C formData cw in
  conversations (snd r) = conversations cw
  /\ messages (snd r) = messages cw
  /\ db (chat_world (snd r)) = db (chat_world cw)
  /\ rpc_log (chat_world (snd r)) = rpc_log (chat_world cw)
  /\ exists resp,
       fst r = Returned resp /\ chat_success resp = false
       /\ chat_data resp = None /\ is_Some (chat_error resp).
Proof.
  intros H. cbv zeta.
  destruct (parsed_chat formData) as [v|e] eqn:Hp.
  - destruct (cv_conversation_id v) as [id|] eqn:Hc.
    + rewrite (askQuestion_saves E C formData cw v id Hp cw) by (left; auto).
      rewrite H, chat_failure_run. simpl. repeat (split; [reflexivity|]).
      eexists. split; [reflexivity|]. simpl. eauto.
    + rewrite (askQuestion_unknown_user E C formData cw v Hp Hc H), chat_failure_run.
      simpl. repeat (split; [reflexivity|]).
      eexists. split; [reflexivity|]. simpl. eauto.
  - rewrite (askQuestion_refused E C formData cw e Hp), chat_failure_run.
    simpl. repeat (split; [reflexivity|]).
    eexists. split; [reflexivity|]. simpl. eauto.
Qed.

(** A question that cannot be given a context (its search form does not
    validate or its query cannot be embedded) fails with "Failed to find
    relevant context", but what was written before the search stays: the
    conversation it opened, titled with the first fifty characters of the
    message, and the user's message in it. *)
Theorem question_without_context_keeps_message (E : Env) (C : ChatEnv)
    (formData : ChatForm) (cw : ChatWorld) (v : ValidatedChat) :
  parsed_chat formData = Returned v ->
  cv_conversation_id v = None ->
  cv_user_id v ∈ users (db (chat_world cw)) ->
  conversations_fresh C cw ->
  (forall sv q, parsed_search (chat_search formData) = Returned sv ->
     embedQuery E (v_query sv) = Returned q -> False) ->
  let r := askQuestion E C formData cw in
  exists resp c um,
    fst r = Returned resp
    /\ chat_success resp = false
    /\ chat_error resp = Some "Failed to find relevant context"
    /\ conversations (snd r) = (conversations cw ++ [c])%list
    /\ conv_user_id c = Some (cv_user_id v)
    /\ conv_title c = Some (substring0 50 (cv_message v) +:+ "...")
    /\ messages (snd r) = (messages cw ++ [um])%list
    /\ msg_role um = "user"
    /\ msg_content um = cv_message v
    /\ msg_conversation_id um = Some (conv_id c).
Proof.
  intros Hp Hnone Hu [Hfresh Hinj] Hno. cbv zeta.
  rewrite (askQuestion_saves E C formData cw v (uuid_text C (chat_next_id cw)) Hp _
             (or_intror (conj Hnone (conj Hu (conj eq_refl eq_refl))))).
  cbn [conversations messages chat_next_id chat_world].
  pose proof (find_conversation_new C (conversations cw)
                {| conv_id := chat_next_id cw;
                   conv_user_id := Some (cv_user_id v);
                   conv_title := Some (substring0 50 (cv_message v) +:+ "...");
                   conv_created_at := time_source E (clock_reads (chat_world cw)) |}
                Hinj Hfresh) as Hfind.
  cbn [conv_id] in Hfind. rewrite Hfind.
  match goal with
  | |- context [chat_try_catch _ _ ?cw2] =>
      destruct (searchDocuments_refused E (chat_search formData) (chat_world cw2))
        as (e & n & Hrun & _);
      [intros sv q Hsv Hq; destruct (Hno sv q Hsv Hq)|];
      destruct (answer_with_context_run E C formData v
                  (uuid_text C (chat_next_id cw)) cw2 _ _ Hrun)
        as (Hconv & resp & Hresp & Hcase)
  end.
  cbn [search_success] in Hcase. destruct Hcase as (Hs & _ & He & Hm).
  eexists resp, _, _.
  split; [exact Hresp|]. split; [exact Hs|]. split; [exact He|].
  split; [rewrite Hconv; reflexivity|]. split; [reflexivity|]. split; [reflexivity|].
  split; [rewrite Hm; reflexivity|]. auto.
Qed.

Lemma question_without_context_keeps_message_witness :
  List.map msg_content
    (messages (snd (askQuestion sample_env sample_chat_env question_only
                      sample_chat_world)))
  = ["What does the file say?"].
Proof.
  destruct (question_without_context_keeps_message sample_env sample_chat_env
              question_only sample_chat_world
              {| cv_message := "What does the file say?"; cv_conversation_id := None;
                 cv_user_id := sample_user |})
    as (resp & c & um & _ & _ & _ & _ & _ & _ & Hm & _ & Hc & _).
  - reflexivity.
  - reflexivity.
  - vm_compute. reflexivity.
  - split; [constructor|]. intros i j Hij. apply (inj pretty) in Hij. exact Hij.
  - intros sv q Hsv. vm_compute in Hsv. discriminate Hsv.
  - rewrite Hm. simpl. rewrite Hc. reflexivity.
Defined.

Lemma askQuestion_refused_untouched_witness :
  messages (snd (askQuestion sample_env sample_chat_env
                   {| chat_message := Some "And then?";
                      chat_conversationId := Some "00000000-0000-0000-0000-00000000000a";
                      chat_search := sample_search |}
                   sample_chat_world))
  = [].
Proof.
  apply (askQuestion_refused_untouched sample_env sample_chat_env
           {| chat_message := Some "And then?";
              chat_conversationId := Some "00000000-0000-0000-0000-00000000000a";
              chat_search := sample_search |}
           sample_chat_world).
  reflexivity.
Defined.

(** A row of [messages] carries [created_at] as the store writes it, so
    [ChatResponseSchema] refuses the response that holds it. *)
Lemma ChatResponseSchema_refuses (m : Message) (id : string) :
  ChatResponseSchema_ok m id = false.
Proof.
  unfold ChatResponseSchema_ok, MessageSchema_ok. rewrite andb_false_r. reflexivity.
Qed.

(** [askQuestion] never reports success: whatever the form and the
    store, it answers with an error and no data. When it gets as far as
    an answer, which takes a search that found no row, it has saved the
    user's message and then the assistant's, in the same conversation,
    the assistant's carrying the answer generated for the message over no
    context; the response is then refused by [ChatResponseSchema] and the
    caller is handed the schema's error. In every other case at most the
    user's message is written. *)
Theorem askQuestion_never_succeeds (E : Env) (C : ChatEnv) (formData : ChatForm)
    (cw : ChatWorld) :
  let r := askQuestion E C formData cw in
  exists resp,
    fst r = Returned resp
    /\ chat_success resp = false
    /\ chat_data resp = None
    /\ is_Some (chat_error resp)
    /\ (messages (snd r) = messages cw
        \/ (exists um, messages (snd r) = (messages cw ++ [um])%list
                       /\ msg_role um = "user")
        \/ (exists v um am ans,
              parsed_chat formData = Returned v
              /\ messages (snd r) = (messages cw ++ [um; am])%list
              /\ msg_role um = "user" /\ msg_content um = cv_message v
              /\ msg_role am = "assistant" /\ msg_content am = answer ans
              /\ msg_conversation_id am = msg_conversation_id um
              /\ generateStructuredAnswer C (cv_message v) [] = Returned ans)).
Proof.
  cbv zeta.
  destruct (parsed_chat formData) as [v|e] eqn:Hp.
  2:{ rewrite (askQuestion_refused E C formData cw e Hp), chat_failure_run.
      eexists. split; [reflexivity|]. simpl. eauto 10. }
  assert (Hsaved : (cv_conversation_id v = None
                    /\ cv_user_id v ∉ users (db (chat_world cw)))
          \/ exists id cw1,
            messages cw1 = messages cw
            /\ ((cv_conversation_id v = Some id /\ cw1 = cw)
                \/ (cv_conversation_id v = None
                    /\ cv_user_id v ∈ users (db (chat_world cw))
                    /\ id = uuid_text C (chat_next_id cw)
                    /\ cw1 = {| chat_world := with_clock_reads (chat_world cw)
                                                (S (clock_reads (chat_world cw)));
                                conversations :=
                                  conversations cw
                                  ++ [{| conv_id := chat_next_id cw;
                                         conv_user_id := Some (cv_user_id v);
                                         conv_title :=
                                           Some (substring0 50 (cv_message v) +:+ "...");
                                         conv_created_at :=
                                           time_source E (clock_reads (chat_world cw)) |}];
                                messages := messages cw;
                                chat_next_id := S (chat_next_id cw) |}))).
  { destruct (cv_conversation_id v) as [id|] eqn:Hc.
    - right. exists id, cw. split; [reflexivity|]. left. auto.
    - destruct (decide (cv_user_id v ∈ users (db (chat_world cw)))) as [Hu|Hu].
      + right. eexists _, _. split; [|right; eauto]. reflexivity.
      + left. auto. }
  destruct Hsaved as [(Hc & Hu)|(id & cw1 & Hmsgs & Hcases)].
  { rewrite (askQuestion_unknown_user E C formData cw v Hp Hc Hu), chat_failure_run.
    eexists. split; [reflexivity|]. simpl. eauto 10. }
  rewrite (askQuestion_saves E C formData cw v id Hp cw1 Hcases).
  destruct (find_conversation C id (conversations cw1)) as [c|] eqn:Hfind.
  2:{ rewrite chat_failure_run. eexists. split; [reflexivity|]. simpl. eauto 10. }
  match goal with
  | |- context [chat_try_catch _ _ ?x] => set (cw2 := x) in *
  end.
  destruct (searchDocuments_returns E (chat_search formData) (chat_world cw2))
    as (sresp & w3 & Hsearch).
  destruct (answer_with_context_run E C formData v id cw2 sresp w3 Hsearch)
    as (Hconv & resp & Hresp & Hcase).
  cbv zeta in Hconv, Hresp, Hcase.
  exists resp. split; [exact Hresp|].
  assert (Hone : forall l, l = messages cw2 ->
            exists um, l = (messages cw ++ [um])%list /\ msg_role um = "user").
  { intros l ->. subst cw2. cbn [messages]. rewrite Hmsgs.
    eexists. split; reflexivity. }
  destruct (search_success sresp) eqn:Hss.
  2:{ destruct Hcase as (Hf & Hd & He & Hm). rewrite He. eauto 10. }
  destruct (searchDocuments_success_run E _ _ _ _ Hsearch Hss)
    as (sv & q & ts & _ & _ & _ & Hshape & _).
  rewrite Hshape in Hcase. cbn [search_data data_results data_query_id] in Hcase.
  destruct (generateStructuredAnswer C (cv_message v) []) as [ans|e] eqn:Hans.
  2:{ destruct Hcase as (Hf & Hd & He & Hm). rewrite He. eauto 10. }
  assert (Hfind2 : find_conversation C id (conversations cw2) = Some c)
    by (subst cw2; exact Hfind).
  rewrite Hfind2 in Hcase. destruct Hcase as (Hm & Hcase).
  rewrite ChatResponseSchema_refuses in Hcase. destruct Hcase as (Hf & Hd & He).
  split; [exact Hf|]. split; [exact Hd|]. split; [rewrite He; eauto|].
  right. right. exists v. eexists _, _, ans.
  split; [reflexivity|].
  split.
  { rewrite Hm. subst cw2. cbn [messages]. rewrite Hmsgs, <- app_assoc. reflexivity. }
  cbn. auto 10.
Qed.

Lemma askQuestion_never_succeeds_witness :
  let r := askQuestion sample_env sample_chat_env sample_question
             {| chat_world := sample_world; conversations := []; messages := [];
                chat_next_id := 0 |} in
  List.map msg_role (messages (snd r)) = ["user"; "assistant"]
  /\ exists resp, fst r = Returned resp /\ chat_success resp = false
                  /\ chat_data resp = None.
Proof.
  intros r.
  destruct (askQuestion_never_succeeds sample_env sample_chat_env sample_question
              {| chat_world := sample_world; conversations := []; messages := [];
                 chat_next_id := 0 |})
    as (resp & Hr & Hs & Hd & _).
  split; [vm_compute; reflexivity|].
  exists resp. split; [exact Hr|]. split; [exact Hs|exact Hd].
Defined.

(** ** Users and sessions *)

Lemma touch_user_sessions id la now t :
  List.map user_session_id (user_rows (touch_user id la now t))
  = List.map user_session_id (user_rows t).
Proof.
  unfold touch_user. simpl. rewrite List.map_map. apply List.map_ext.
  intros u. destruct (decide (user_id u = id)); reflexivity.
Qed.

Lemma filter_session_unique (l : list User) (s : string) :
  NoDup (List.map user_session_id l) ->
  List.filter (fun u => bool_decide (user_session_id u = s)) l
  = match List.find (fun u => bool_decide (user_session_id u = s)) l with
    | Some u => [u]
    | None => []
    end.
Proof.
  induction l as [|x l IH]; simpl; intros Hnd; [reflexivity|].
  apply NoDup_cons in Hnd as [Hx Hnd].
  destruct (bool_decide (user_session_id x = s)) eqn:Hs.
  - apply bool_decide_eq_true in Hs. f_equal.
    assert (Hnone : forall y, y ∈ l -> bool_decide (user_session_id y = s) = false).
    { intros y Hy. apply bool_decide_eq_false. intros Heq. apply Hx.
      rewrite Hs, <- Heq. apply list_elem_of_fmap. eauto. }
    clear - Hnone. induction l as [|y l IH]; simpl; [reflexivity|].
    rewrite Hnone by (left). apply IH. intros z Hz. apply Hnone. right. exact Hz.
  - rewrite IH by exact Hnd. reflexivity.
Qed.

Lemma find_session_existsb (l : list User) (s : string) :
  List.find (fun u => bool_decide (user_session_id u = s)) l = None ->
  existsb (fun u => bool_decide (user_session_id u = s)) l = false.
Proof.
  induction l as [|x l IH]; simpl; [reflexivity|].
  destruct (bool_decide (user_session_id x = s)); [discriminate|]. exact IH.
Qed.

(** On a table that respects the uniqueness of [session_id], the client's
    [getOrCreateUser] does what the SQL function [get_or_create_user]
    does, the two clocks reading the same: it never throws, it returns
    the id the function returns, and it leaves the same table. *)
Theorem getOrCreateUser_matches_sql (now : Timestamp) (sessionId : string)
    (t : UserTable) :
  NoDup (List.map user_session_id (user_rows t)) ->
  getOrCreateUser now now sessionId t
  = (Returned (fst (get_or_create_user now t sessionId), sessionId),
     snd (get_or_create_user now t sessionId)).
Proof.
  intros Hnd. unfold getOrCreateUser, get_or_create_user, select_single_user.
  rewrite (filter_session_unique _ _ Hnd).
  destruct (List.find _ (user_rows t)) as [u|] eqn:Hf.
  - apply List.find_some in Hf as [_ Hs]. apply bool_decide_eq_true in Hs.
    simpl. rewrite Hs. reflexivity.
  - rewrite (find_session_existsb _ _ Hf). reflexivity.
Qed.

(** Asking twice for the same session gives the same user: the first call
    finds or creates the row of the session, the second one returns the
    same id and adds no row, and the sessions stay unique. *)
Theorem getOrCreateUser_again (c1 n1 c2 n2 : Timestamp) (sessionId : string)
    (t : UserTable) :
  NoDup (List.map user_session_id (user_rows t)) ->
  let r1 := getOrCreateUser c1 n1 sessionId t in
  let r2 := getOrCreateUser c2 n2 sessionId (snd r1) in
  exists id,
    fst r1 = Returned (id, sessionId)
    /\ fst r2 = Returned (id, sessionId)
    /\ NoDup (List.map user_session_id (user_rows (snd r1)))
    /\ sessionId ∈ List.map user_session_id (user_rows (snd r1))
    /\ List.map user_session_id (user_rows (snd r2))
       = List.map user_session_id (user_rows (snd r1))
    /\ (forall s, s <> sessionId ->
          s ∈ List.map user_session_id (user_rows (snd r1))
          <-> s ∈ List.map user_session_id (user_rows t)).
Proof.
  intros Hnd. cbv zeta.
  assert (H1 : exists id t1,
             getOrCreateUser c1 n1 sessionId t = (Returned (id, sessionId), t1)
             /\ NoDup (List.map user_session_id (user_rows t1))
             /\ (exists u, List.find (fun u => bool_decide (user_session_id u = sessionId))
                             (user_rows t1) = Some u /\ user_id u = id)
             /\ (forall s, s <> sessionId ->
                   s ∈ List.map user_session_id (user_rows t1)
                   <-> s ∈ List.map user_session_id (user_rows t))).
  { unfold getOrCreateUser, select_single_user.
    rewrite (filter_session_unique _ _ Hnd).
    destruct (List.find _ (user_rows t)) as [u|] eqn:Hf.
    - pose proof Hf as Hf'. apply List.find_some in Hf' as [Hin Hs].
      apply bool_decide_eq_true in Hs. rewrite Hs.
      eexists _, _. split; [reflexivity|].
      split; [rewrite touch_user_sessions; exact Hnd|].
      split; [|intros s _; rewrite touch_user_sessions; reflexivity].
      unfold touch_user. simpl.
      clear Hin Hnd. induction (user_rows t) as [|x l IH]; simpl in *; [discriminate|].
      destruct (bool_decide (user_session_id x = sessionId)) eqn:Hx.
      + injection Hf as ->. rewrite decide_True by reflexivity. simpl.
        rewrite Hx. eauto.
      + destruct (decide (user_id x = user_id u)); simpl; rewrite Hx; apply IH, Hf.
    - rewrite (find_session_existsb _ _ Hf). simpl.
      eexists _, _. split; [reflexivity|]. simpl.
      assert (Hnot : sessionId ∉ List.map user_session_id (user_rows t)).
      { intros Hin. apply list_elem_of_fmap in Hin as (u & Hu & Hin).
        apply list_elem_of_In in Hin.
        apply (List.find_none _ _ Hf) in Hin.
        apply bool_decide_eq_false in Hin. auto. }
      split.
      { rewrite List.map_app. simpl. apply NoDup_app. split; [exact Hnd|].
        split; [|apply NoDup_singleton].
        intros s Hs Hs'. apply list_elem_of_singleton in Hs'. subst s. auto. }
      split.
      { exists {| user_id := user_next_id t; user_session_id := sessionId;
                  user_created_at := n1; user_updated_at := n1;
                  user_last_activity := n1 |}.
        split; [|reflexivity].
        clear Hnot Hnd. induction (user_rows t) as [|x l IH]; simpl in *.
        - rewrite bool_decide_eq_true_2 by reflexivity. reflexivity.
        - destruct (bool_decide (user_session_id x = sessionId)); [discriminate|].
          apply IH, Hf. }
      intros s Hs. rewrite List.map_app, elem_of_app. simpl.
      rewrite list_elem_of_singleton. split; [intros [H|H]; [exact H|congruence]|auto]. }
  destruct H1 as (id & t1 & Hrun & Hnd1 & (u & Hfind & Hid) & Hother).
  rewrite Hrun. cbn [fst snd].
  exists id. split; [reflexivity|].
  pose proof Hfind as Hf'. apply List.find_some in Hf' as [Hin Hs].
  apply bool_decide_eq_true in Hs.
  assert (Hrun2 : getOrCreateUser c2 n2 sessionId t1
                  = (Returned (id, sessionId), touch_user id c2 n2 t1)).
  { unfold getOrCreateUser, select_single_user.
    rewrite (filter_session_unique _ _ Hnd1), Hfind, Hid, Hs. reflexivity. }
  rewrite Hrun2. cbn [fst snd].
  split; [reflexivity|]. split; [exact Hnd1|].
  split; [apply list_elem_of_fmap; exists u; split; [auto|apply list_elem_of_In, Hin]|].
  split; [apply touch_user_sessions|exact Hother].
Qed.

Lemma getOrCreateUser_matches_sql_witness :
  getOrCreateUser 7 7 "k3x9"
    {| user_rows := [{| user_id := 0; user_session_id := "a1b2";
                        user_created_at := 1; user_updated_at := 1;
                        user_last_activity := 1 |}];
       user_next_id := 1 |}
  = (Returned (1%nat, "k3x9"),
     snd (get_or_create_user 7
            {| user_rows := [{| user_id := 0; user_session_id := "a1b2";
                                user_created_at := 1; user_updated_at := 1;
                                user_last_activity := 1 |}];
               user_next_id := 1 |} "k3x9")).
Proof.
  apply (getOrCreateUser_matches_sql 7 "k3x9"
           {| user_rows := [{| user_id := 0; user_session_id := "a1b2";
                               user_created_at := 1; user_updated_at := 1;
                               user_last_activity := 1 |}];
              user_next_id := 1 |}).
  simpl. apply NoDup_singleton.
Defined.

Lemma getOrCreateUser_again_witness :
  exists id,
    fst (getOrCreateUser 8 9 "k3x9"
           (snd (getOrCreateUser 5 6 "k3x9" {| user_rows := []; user_next_id := 0 |})))
    = Returned (id, "k3x9").
Proof.
  destruct (getOrCreateUser_again 5 6 8 9 "k3x9" {| user_rows := []; user_next_id := 0 |})
    as (id & _ & H & _).
  - simpl. apply NoDup_nil_2.
  - exists id. exact H.
Defined.


Lemma initializeUser_ok uid getUser s :
  session_ok s -> session_ok (fst (initializeUser uid getUser s)).
Proof.
  unfold session_ok, initializeUser, maxRetries. intros [Hle H].
  destruct (initializationAttempted s) eqn:Ha; [simpl; rewrite Ha; auto|].
  destruct (isInitialized s) eqn:Hi; [destruct H as [H _]; congruence|].
  destruct H as (Hu & He & Hlt).
  destruct (truthy_str uid).
  - destruct (getUser (str_or uid "")) as [user|e].
    + simpl. split; [lia|]. split; [reflexivity|]. left. eauto.
    + destruct (3 <=? S (retryCount s))%nat eqn:Hmax; simpl.
      * apply Nat.leb_le in Hmax. split; [lia|]. split; [reflexivity|].
        right. split; [exact Hu|]. split; [reflexivity|lia].
      * apply Nat.leb_gt in Hmax. split; [lia|]. auto.
  - simpl. split; [lia|]. auto.
Qed.

Lemma initializeUser_final uid getUser s :
  initializationAttempted s = true -> fst (initializeUser uid getUser s) = s.
Proof. intros Ha. unfold initializeUser. rewrite Ha. reflexivity. Qed.

(** The session manager keeps its invariant whatever addresses the
    effect runs for and whatever [getOrCreateUser] answers: children are
    shown only with a user id, the error only after the third failure.
    Once it is initialized, with a user or with the error, further runs
    of the effect change nothing. *)
Theorem session_manager_invariant
    (runs more : list (option string * (string -> Outcome (nat * string)))) :
  let s := initializeUser_runs runs initial_session in
  session_ok s
  /\ (isInitialized s = true -> initializeUser_runs more s = s).
Proof.
  cbv zeta.
  assert (Hok : forall l s, session_ok s -> session_ok (initializeUser_runs l s)).
  { induction l as [|[uid g] l IH]; intros s Hs; simpl; [exact Hs|].
    apply IH, initializeUser_ok, Hs. }
  assert (Hinit : session_ok initial_session).
  { unfold session_ok, initial_session, maxRetries. simpl. split; [lia|].
    split; [reflexivity|]. split; [reflexivity|lia]. }
  split; [apply Hok, Hinit|].
  intros Hi.
  pose proof (Hok runs _ Hinit) as [_ H]. rewrite Hi in H. destruct H as [Ha _].
  revert Ha. generalize (initializeUser_runs runs initial_session). clear.
  induction more as [|[uid g] l IH]; intros s Ha; simpl; [reflexivity|].
  rewrite initializeUser_final by exact Ha. apply IH, Ha.
Qed.

(** ** Stored names and the JSON of the vision response *)

(** The stored name of a file keeps the length of the original name and
    holds only letters, digits, dots, dashes and underscores; cleaning a
    clean name changes nothing. *)
Theorem sanitize_safe (s : string) :
  String.length (sanitize s) = String.length s
  /\ Forall (fun c => is_name_char c = true \/ c = "_"%char)
       (list_ascii_of_string (sanitize s))
  /\ sanitize (sanitize s) = sanitize s
  /\ (Forall (fun c => is_name_char c = true) (list_ascii_of_string s) ->
      sanitize s = s).
Proof.
  induction s as [|c s (IH1 & IH2 & IH3 & IH4)]; simpl.
  - split; [reflexivity|]. split; [constructor|]. split; [reflexivity|]. reflexivity.
  - split; [rewrite IH1; reflexivity|].
    split.
    { constructor; [|exact IH2].
      destruct (is_name_char c) eqn:Hc; [left; exact Hc|right; reflexivity]. }
    split.
    { rewrite IH3. f_equal. destruct (is_name_char c) eqn:Hc; [rewrite Hc|];
        reflexivity. }
    intros Hall. apply Forall_cons in Hall as [Hc Hall].
    rewrite Hc, IH4 by exact Hall. reflexivity.
Qed.

Lemma app_cons (c : ascii) (a b : string) : String c a +:+ b = String c (a +:+ b).
Proof. reflexivity. Qed.

Lemma app_nil_left (s : string) : "" +:+ s = s.
Proof. reflexivity. Qed.

Lemma string_app_assoc (a b c : string) : (a +:+ b) +:+ c = a +:+ (b +:+ c).
Proof.
  induction a as [|x a IH]; [reflexivity|]. rewrite !app_cons, IH. reflexivity.
Qed.

Lemma string_app_length (a b : string) :
  String.length (a +:+ b) = (String.length a + String.length b)%nat.
Proof.
  induction a as [|x a IH]; [reflexivity|]. rewrite app_cons. simpl. rewrite IH.
  reflexivity.
Qed.

Lemma index_of_app (c : ascii) (pre rest : string) :
  index_of c pre = None ->
  index_of c (pre +:+ String c rest) = Some (String.length pre).
Proof.
  induction pre as [|x pre IH]; intros H.
  - rewrite app_nil_left. simpl. rewrite decide_True by reflexivity. reflexivity.
  - rewrite app_cons. simpl in *. destruct (decide (x = c)); [discriminate|].
    destruct (index_of c pre); [discriminate|]. rewrite IH by reflexivity. reflexivity.
Qed.

Lemma index_of_split (c : ascii) (s : string) (i : nat) :
  index_of c s = Some i ->
  exists pre rest, s = pre +:+ String c rest /\ index_of c pre = None
                   /\ String.length pre = i.
Proof.
  revert i. induction s as [|x s IH]; intros i H; simpl in H; [discriminate|].
  destruct (decide (x = c)) as [->|Hx].
  - injection H as <-. exists "", s. auto.
  - destruct (index_of c s) as [k|]; [|discriminate]. injection H as <-.
    destruct (IH k eq_refl) as (pre & rest & -> & Hpre & Hlen).
    exists (String x pre), rest. rewrite app_cons. simpl.
    rewrite decide_False by exact Hx. rewrite Hpre, Hlen. auto.
Qed.

Lemma last_index_of_none (c : ascii) (s : string) :
  last_index_of c s = None <-> index_of c s = None.
Proof.
  induction s as [|x s IH]; simpl; [tauto|].
  destruct (last_index_of c s), (decide (x = c)), (index_of c s);
    split; intros H; try discriminate; try reflexivity;
    try (apply IH in H; discriminate);
    try (destruct IH as [IH1 IH2]; first [discriminate (IH1 eq_refl)
                                         |discriminate (IH2 eq_refl)]).
Qed.

Lemma last_index_of_app (c : ascii) (pre post : string) :
  index_of c post = None ->
  last_index_of c (pre +:+ String c post) = Some (String.length pre).
Proof.
  intros H. apply last_index_of_none in H.
  induction pre as [|x pre IH].
  - rewrite app_nil_left. simpl. rewrite H, decide_True by reflexivity. reflexivity.
  - rewrite app_cons. simpl. rewrite IH. reflexivity.
Qed.

Lemma last_index_of_split (c : ascii) (s : string) (j : nat) :
  last_index_of c s = Some j ->
  exists pre post, s = pre +:+ String c post /\ index_of c post = None
                   /\ String.length pre = j.
Proof.
  revert j. induction s as [|x s IH]; intros j H; simpl in H; [discriminate|].
  destruct (last_index_of c s) as [k|] eqn:Hl.
  - injection H as <-. destruct (IH k eq_refl) as (pre & post & -> & Hpost & Hlen).
    exists (String x pre), post. rewrite app_cons. simpl. rewrite Hlen. auto.
  - destruct (decide (x = c)) as [->|]; [|discriminate]. injection H as <-.
    exists "", s. split; [reflexivity|]. split; [apply last_index_of_none, Hl|reflexivity].
Qed.

Lemma app_split_lt (a : ascii) (pre1 r1 pre2 r2 : string) :
  pre1 +:+ String a r1 = pre2 +:+ r2 ->
  (String.length pre1 < String.length pre2)%nat ->
  exists mid, pre2 = pre1 +:+ String a mid /\ r1 = mid +:+ r2.
Proof.
  revert pre2. induction pre1 as [|x pre1 IH]; intros [|y pre2] H Hlt;
    simpl in Hlt; try lia.
  - rewrite app_nil_left, app_cons in H. injection H as <- ->. exists pre2. auto.
  - rewrite !app_cons in H. injection H as <- H.
    destruct (IH pre2 H ltac:(lia)) as (mid & -> & ->). exists mid.
    rewrite app_cons. auto.
Qed.

Lemma substring_skip (pre s : string) (n : nat) :
  String.substring (String.length pre) n (pre +:+ s) = String.substring 0 n s.
Proof.
  induction pre as [|x pre IH]; [reflexivity|]. rewrite app_cons. simpl. exact IH.
Qed.

Lemma substring_prefix (a b : string) :
  String.substring 0 (String.length a) (a +:+ b) = a.
Proof.
  induction a as [|x a IH].
  - simpl. destruct b; reflexivity.
  - rewrite app_cons. simpl. rewrite IH. reflexivity.
Qed.

(** The JSON taken from the vision response is the match of the pattern
    of an opening brace, anything, a closing brace: it starts at the
    first opening brace of the text and ends at its last closing brace,
    and there is none when no closing brace follows the first opening
    one. *)
Theorem match_braces_spec (text json : string) :
  match_braces text = Some json
  <-> exists pre mid post,
        text = pre +:+ "{" +:+ mid +:+ "}" +:+ post
        /\ index_of "{"%char pre = None
        /\ index_of "}"%char post = None
        /\ json = "{" +:+ mid +:+ "}".
Proof.
  unfold match_braces. split.
  - destruct (index_of "{"%char text) as [i|] eqn:Hi; [|discriminate].
    destruct (last_index_of "}"%char text) as [j|] eqn:Hj; [|discriminate].
    destruct (i <? j)%nat eqn:Hlt; [|discriminate]. apply Nat.ltb_lt in Hlt.
    intros [= <-].
    apply index_of_split in Hi as (pre1 & r1 & H1 & Hpre & Hl1).
    apply last_index_of_split in Hj as (pre2 & post & H2 & Hpost & Hl2).
    rewrite H1 in H2.
    destruct (app_split_lt _ _ _ _ _ H2 ltac:(lia)) as (mid & -> & ->).
    exists pre1, mid, post.
    split; [exact H1|]. split; [exact Hpre|]. split; [exact Hpost|].
    rewrite H1, <- Hl1, <- Hl2, substring_skip.
    rewrite string_app_length. simpl String.length.
    replace (String.length pre1 + S (String.length mid) - String.length pre1 + 1)%nat
      with (String.length ("{" +:+ mid +:+ "}")).
    + change (String "{" (mid +:+ String "}" post))
        with ("{" +:+ (mid +:+ ("}" +:+ post))).
      rewrite <- (string_app_assoc mid "}" post),
        <- (string_app_assoc "{" (mid +:+ "}") post).
      apply substring_prefix.
    + rewrite app_cons, app_nil_left. simpl. rewrite string_app_length. simpl. lia.
  - intros (pre & mid & post & -> & Hpre & Hpost & ->).
    change (pre +:+ "{" +:+ mid +:+ "}" +:+ post)
      with (pre +:+ String "{" (mid +:+ String "}" post)).
    rewrite (index_of_app _ _ _ Hpre).
    assert (Hlast : last_index_of "}"%char (pre +:+ String "{" (mid +:+ String "}" post))
                    = Some (String.length pre + S (String.length mid))%nat).
    { change (String "{" (mid +:+ String "}" post))
        with (("{" +:+ mid) +:+ String "}" post).
      rewrite <- string_app_assoc, (last_index_of_app _ _ _ Hpost).
      rewrite string_app_length. reflexivity. }
    rewrite Hlast.
    assert (Hlt : (String.length pre <? String.length pre + S (String.length mid))%nat
                  = true) by (apply Nat.ltb_lt; lia).
    rewrite Hlt, substring_skip. f_equal.
    replace (String.length pre + S (String.length mid) - String.length pre + 1)%nat
      with (String.length ("{" +:+ mid +:+ "}")).
    + change (String "{" (mid +:+ String "}" post))
        with ("{" +:+ (mid +:+ ("}" +:+ post))).
      rewrite <- (string_app_assoc mid "}" post),
        <- (string_app_assoc "{" (mid +:+ "}") post).
      apply substring_prefix.
    + rewrite app_cons, app_nil_left. simpl. rewrite string_app_length. simpl. lia.
Qed.

(** ** The storage diagnostic *)

Lemma check_public_url_report S url result :
  let checked := check_public_url S url result in
  bucketExists checked = bucketExists result
  /\ canUpload checked = canUpload result
  /\ testFileUrl checked = testFileUrl result
  /\ (canRead result = false ->
      if canRead checked then errors checked = errors result
      else exists m, errors checked = (errors result ++ [m])%list).
Proof.
  cbv zeta. unfold check_public_url.
  destruct (fetch_head S url) as [response|e]; [destruct (response_ok response)|];
    simpl; repeat (split; [reflexivity|]); intros Hr; try rewrite Hr; eauto.
Qed.

(** The report of the storage diagnostic is consistent: it always
    returns; reading is reported only after a successful upload, and an
    upload only for an existing bucket and with the URL tested; a report
    without errors means that everything was verified; and a report that
    denies the upload or the reading names at least one error. *)
Theorem debugStorageAccess_report (E : Env) (S : StorageEnv) (w : World) :
  exists info,
    fst (debugStorageAccess E S w) = Returned info
    /\ (canRead info = true -> canUpload info = true)
    /\ (canUpload info = true -> bucketExists info = true)
    /\ (canUpload info = true <-> is_Some (testFileUrl info))
    /\ (errors info = [] -> canRead info = true)
    /\ (bucketExists info = false -> bucketIsPublic info = false).
Proof.
  unfold debugStorageAccess.
  destruct (listBuckets S) as [[buckets|msg]|e];
    try (eexists; split; [reflexivity|]; simpl;
         repeat split; try discriminate; intros H; try discriminate;
         try (destruct H; discriminate); destruct (app_cons_not_nil _ _ _ (eq_sym H))).
  destruct (List.find _ buckets) as [fainder|].
  2:{ eexists; split; [reflexivity|]; simpl.
      repeat split; try discriminate; intros H; try discriminate;
        try (destruct H; discriminate). }
  unfold bind, Date_now, upload_test.
  destruct (upload_response S) as [[msg|]|e];
    try (eexists; split; [reflexivity|]; simpl;
         repeat split; try discriminate; intros H; try discriminate;
         try (destruct H; discriminate)).
  unfold storage_upload. cbn [bucket with_clock_reads].
  destruct (bucket w !! _).
  { eexists; split; [reflexivity|]; simpl.
    repeat split; try discriminate; intros H; try discriminate;
      try (destruct H; discriminate). }
  match goal with
  | |- context [check_public_url S ?url ?res] =>
      pose proof (check_public_url_report S url res) as Hc;
      set (checked := check_public_url S url res) in *
  end.
  cbv zeta in Hc. cbn [bucketExists canUpload testFileUrl canRead errors] in Hc.
  destruct Hc as (Hb & Hu & Ht & Hr). specialize (Hr eq_refl).
  destruct (remove_response S) as [[msg|]|e];
    (eexists; split; [reflexivity|]); cbn [push_error bucketExists canUpload canRead
                                            testFileUrl errors bucketIsPublic];
    rewrite ?Hb, ?Hu, ?Ht;
    (split; [auto|]); (split; [auto|]); (split; [split; eauto|]);
    (split; [|discriminate]); intros He;
    destruct (canRead checked); try reflexivity;
    try (destruct Hr as [m Hr]; rewrite Hr in He);
    try (destruct (app_cons_not_nil _ _ _ (eq_sym He))).
Qed.

(** The diagnostic touches nothing but the bucket, and leaves the bucket
    as it found it when the storage accepts the removal of the test
    file; when the removal is refused or rejected after a successful
    upload, the test file stays in the bucket. *)
Theorem debugStorageAccess_cleans_up (E : Env) (S : StorageEnv) (w : World) :
  let r := debugStorageAccess E S w in
  let name := "test-" +:+ pretty (time_source E (clock_reads w)) +:+ ".txt" in
  db (snd r) = db w
  /\ dispatched (snd r) = dispatched w
  /\ rpc_log (snd r) = rpc_log w
  /\ (remove_response S = Returned None -> bucket (snd r) = bucket w)
  /\ (forall info, fst r = Returned info -> canUpload info = true ->
        remove_response S <> Returned None ->
        bucket w !! name = None
        /\ bucket (snd r) = <[name := test_blob name]> (bucket w)).
Proof.
  cbv zeta. unfold debugStorageAccess.
  destruct (listBuckets S) as [[buckets|msg]|e];
    try (simpl; do 4 (split; [reflexivity|]);
         intros info Hi Hu; injection Hi as <-; discriminate Hu).
  destruct (List.find _ buckets) as [fainder|].
  2:{ simpl; do 4 (split; [reflexivity|]).
      intros info Hi Hu; injection Hi as <-; discriminate Hu. }
  unfold bind, Date_now, upload_test.
  destruct (upload_response S) as [[msg|]|e];
    try (simpl; do 4 (split; [reflexivity|]);
         intros info Hi Hu; injection Hi as <-; discriminate Hu).
  unfold storage_upload. cbn [bucket with_clock_reads].
  destruct (bucket w !! _) eqn:Hb.
  { simpl; do 4 (split; [reflexivity|]).
    intros info Hi Hu; injection Hi as <-; discriminate Hu. }
  destruct (remove_response S) as [[msg|]|e]; simpl;
    do 3 (split; [reflexivity|]).
  - split; [discriminate|]. intros info _ _ _. split; reflexivity.
  - split; [|intros info _ _ Hne; contradiction].
    intros _. apply delete_insert_id. exact Hb.
  - split; [discriminate|]. intros info _ _ _. split; reflexivity.
Qed.

Lemma session_manager_invariant_witness :
  session_ok (initializeUser_runs [failing_run; failing_run; failing_run] initial_session)
  /\ initializeUser_runs [(Some "k3x9", fun _ => Returned (7%nat, "k3x9"))]
       (initializeUser_runs [failing_run; failing_run; failing_run] initial_session)
     = initializeUser_runs [failing_run; failing_run; failing_run] initial_session.
Proof.
  destruct (session_manager_invariant [failing_run; failing_run; failing_run]
              [(Some "k3x9", fun _ => Returned (7%nat, "k3x9"))]) as [Hok Hfinal].
  split; [exact Hok|]. apply Hfinal. reflexivity.
Defined.

Lemma sanitize_safe_witness :
  sanitize "report-2.final.txt" = "report-2.final.txt"
  /\ sanitize (sanitize "my file (1).txt") = sanitize "my file (1).txt".
Proof.
  split.
  - apply (sanitize_safe "report-2.final.txt"). repeat constructor.
  - apply (sanitize_safe "my file (1).txt").
Defined.

Lemma match_braces_spec_witness :
  match_braces "Here it is: {a: {b: 1}} and more} done" = Some "{a: {b: 1}} and more}".
Proof.
  apply (proj2 (match_braces_spec _ _)).
  exists "Here it is: ", "a: {b: 1}} and more", " done".
  repeat split; reflexivity.
Defined.

Lemma debugStorageAccess_report_witness :
  exists info,
    fst (debugStorageAccess sample_env sample_storage sample_world) = Returned info
    /\ canRead info = true /\ canUpload info = true /\ bucketExists info = true.
Proof.
  destruct (debugStorageAccess_report sample_env sample_storage sample_world)
    as (info & Hret & Hru & Hub & _ & Hread & _).
  assert (Hr : canRead info = true).
  { apply Hread. vm_compute in Hret. injection Hret as <-. reflexivity. }
  exists info. split; [exact Hret|]. split; [exact Hr|].
  split; [exact (Hru Hr)|exact (Hub (Hru Hr))].
Defined.

Lemma debugStorageAccess_cleans_up_witness :
  bucket (snd (debugStorageAccess sample_env sample_storage sample_world))
  = bucket sample_world.
Proof.
  apply (debugStorageAccess_cleans_up sample_env sample_storage sample_world).
  reflexivity.
Defined.

(** The result rows of earlier searches are kept by a search. *)
Lemma searchDocuments_results_grow E formData w :
  exists added,
    search_results (db (snd (searchDocuments E formData w)))
    = (search_results (db w) ++ added)%list.
Proof.
  destruct (searchDocuments_cases E formData w) as [(v & q & Hp & He & Hu)|Href].
  - destruct (parsed_search_bounds _ _ Hp) as (_ & _ & _ & _ & _ & Hmax & _).
    set (w1 := with_db (with_clock_reads w (S (clock_reads w)))
                 (insert_search_query_row (db w) (new_query_row w v q))).
    destruct (similarity_lookup_outcome E q v w1) as (out & calls & Hlook & _ & _);
      [lia|].
    pose proof (searchDocuments_finish E formData w v q Hp He Hu out calls Hlook) as H.
    cbv zeta in H. destruct H as (_ & _ & _ & _ & _ & _ & _ & _ & _ & H9).
    destruct out as [rows|e]; destruct H9 as (_ & Hres & _).
    + eauto.
    + exists []. rewrite app_nil_r. exact Hres.
  - destruct (searchDocuments_refused E formData w Href) as (e & n & Hrun & _).
    rewrite Hrun. exists []. rewrite app_nil_r. reflexivity.
Qed.

(** What the search box shows in search mode: never a row. A search
    that records result rows reports a failure, and the box is left as
    it was; results are shown only after a search whose lookup found
    nothing, and the list shown is then empty. No conversation and no
    message is written. *)
Theorem search_box_results (E : Env) (C : ChatEnv) (query : string)
    (userId : option string) (cw : ChatWorld) :
  let r := handleSearch E C mode_search query userId cw in
  (fst r = Returned no_update \/ fst r = Returned (show_results []))
  /\ (exists added,
        search_results (db (chat_world (snd r)))
        = (search_results (db (chat_world cw)) ++ added)%list
        /\ (added <> [] -> fst r = Returned no_update))
  /\ conversations (snd r) = conversations cw
  /\ messages (snd r) = messages cw.
Proof.
  cbv zeta. unfold handleSearch.
  assert (Hsame : exists added : list SearchResult,
            search_results (db (chat_world cw))
            = (search_results (db (chat_world cw)) ++ added)%list
            /\ (added <> [] -> @Returned SearchUpdate no_update = Returned no_update)).
  { exists []. split; [symmetry; apply app_nil_r|reflexivity]. }
  destruct (decide (trim query = "")); [simpl; auto|].
  destruct userId as [u|]; [|simpl; auto].
  unfold truthy_str, str_or. destruct (decide (u = "")); [simpl; auto|].
  cbn [negb]. unfold chat_try_catch, chat_bind, lift.
  set (form := chat_search (search_box_form query u)).
  destruct (searchDocuments_results_grow E form (chat_world cw)) as (added & Hadded).
  destruct (searchDocuments_returns E form (chat_world cw)) as (resp & w' & Hrun).
  rewrite Hrun in Hadded |- *. cbn [snd] in Hadded.
  destruct (search_success resp) eqn:Hok.
  - destruct (searchDocuments_success_run E form (chat_world cw) resp w' Hrun Hok)
      as (v & q & ts & _ & _ & _ & -> & Hres & _).
    cbn [search_data data_results]. unfold chat_ret.
    cbn [fst snd conversations messages chat_world].
    split; [right; reflexivity|].
    split; [|split; reflexivity].
    exists []. split; [rewrite app_nil_r; exact Hres|]. intros H. contradiction.
  - unfold chat_ret. cbn [fst snd conversations messages chat_world].
    split; [left; reflexivity|].
    split; [|split; reflexivity].
    exists added. split; [exact Hadded|reflexivity].
Qed.

Lemma search_box_results_witness :
  let r := handleSearch sample_env sample_chat_env mode_search "hello world"
             (Some sample_user) sample_chat_world in
  fst r = Returned no_update
  /\ List.map sr_chunk_id (search_results (db (chat_world (snd r)))) = [2; 3]%nat.
Proof.
  intros r.
  destruct (search_box_results sample_env sample_chat_env "hello world"
              (Some sample_user) sample_chat_world)
    as (_ & (added & Hadded & Hno) & _).
  fold r in Hadded, Hno.
  assert (Hrows : List.map sr_chunk_id (search_results (db (chat_world (snd r))))
                  = [2; 3]%nat) by (vm_compute; reflexivity).
  split; [|exact Hrows].
  apply Hno. intros ->. rewrite Hadded in Hrows. discriminate Hrows.
Defined.
